(** * mcp-of-mcps: a shallow embedding of the orchestration core

    The development follows the TypeScript sources function by function:
    - [ServersRegistry]      (serversRegistry.ts)
    - [MCPToolsParser]       (mcpToolsParser.ts)
    - [SandboxManagerImpl]   (infrastructure/sandbox/SandboxManagerImpl.ts)
    - [SandboxManager]       (sandboxManager.ts, the earlier sandbox)
    - [ToolCallHandler]      (application/handlers/ToolCallHandler.ts)
    - [McpOfMcps]            (mcpOfMcps.ts, the earlier dispatcher)

    JavaScript values are modelled by a JSON tree, exceptions by an explicit
    completion type, a JS [Map] by an insertion-ordered association list, and
    [console.error] by a list of log entries threaded through the state. A
    string holds the UTF-8 of its text; what a script exports is data or an
    object with function members; the text pasted into a generated file is
    read back as the literal it becomes there. *)

From Stdlib Require Import String Ascii List ZArith Bool Lia DecimalString Permutation.
From stdpp Require Import base option list gmap strings sorting.

Set Warnings "-register-all".
Local Open Scope stdpp_scope.
Local Open Scope list_scope.

(** ** JavaScript values *)

Module Js.

(** *** A JS [Map] with string keys: entries in insertion order *)

Definition JsMap (V : Type) := list (string * V).

Section JsMap.
Context {V : Type}.

Fixpoint map_get (m : JsMap V) (key : string) : option V :=
  match m with
  | [] => None
  | (k, v) :: rest => if String.eqb k key then Some v else map_get rest key
  end.

Definition map_has (m : JsMap V) (key : string) : bool :=
  match map_get m key with Some _ => true | None => false end.

(** [m.set(key, v)]: an existing key keeps its place, a new one goes last. *)
Fixpoint map_set (m : JsMap V) (key : string) (v : V) : JsMap V :=
  match m with
  | [] => [(key, v)]
  | (k, x) :: rest =>
        if String.eqb k key then (k, v) :: rest else (k, x) :: map_set rest key v
  end.

Definition map_keys (m : JsMap V) : list string := map fst m.
End JsMap.

(** A JSON tree. Numbers are restricted to integers; a string holds the
    bytes of the text's UTF-8, so that an ASCII character is one character of
    the string. *)
Inductive JSON : Type :=
| JNull
| JBool (b : bool)
| JNum (n : Z)
| JStr (s : string)
| JArr (items : list JSON)
| JObj (fields : list (string * JSON)).

(** A JS object literal: own enumerable properties in insertion order. *)
Definition JsObject := JsMap JSON.

(** A possibly [undefined] value. *)
Definition JsValue := option JSON.

(** [obj.key]: the property, or [undefined]. *)
Definition get_prop (o : JsObject) (key : string) : JsValue := map_get o key.

(** ToBoolean. *)
Definition truthy (v : JsValue) : bool :=
  match v with
  | None => false
  | Some JNull => false
  | Some (JBool b) => b
  | Some (JNum n) => negb (n =? 0)%Z
  | Some (JStr s) => negb (String.eqb s EmptyString)
  | Some (JArr _) => true
  | Some (JObj _) => true
  end.

(** [v || d] *)
Definition or_else (v : JsValue) (d : JSON) : JSON :=
  match v with
  | Some x => if truthy v then x else d
  | None => d
  end.

(** [v ?? d] *)
Definition nullish_else (v : JsValue) (d : JSON) : JSON :=
  match v with
  | None => d
  | Some JNull => d
  | Some x => x
  end.

(** Whether [String(v)] returns. For an object it calls the member
    [toString], which for data is the inherited function unless the object has
    a member of that name of its own: that one is no function, and the
    conversion throws. For an array it converts the elements. *)
Fixpoint converts_to_string (v : JSON) : bool :=
  match v with
  | JObj fields => negb (existsb (fun field => String.eqb (fst field) "toString") fields)
  | JArr items => forallb converts_to_string items
  | _ => true
  end.

(** *** Thrown values and completions *)

(** How a value comes out where the code uses it as a text: under [||] and
    in a template literal. It is falsy, or truthy with the text it converts
    to, or truthy with a conversion that throws (a symbol, or an object that
    has no [toString] to call). *)
Inductive Rendering : Type :=
| Falsy
| Renders (text : string)
| Unrenderable.

(** What a [throw] carries: an instance of [Error] (with its [name] and
    [message]), a primitive other than [null] and [undefined], kept as its
    [String(v)] text, one of [null] and [undefined], or any other object,
    given by its [message] member and by [String(v)], which is [None] when
    that conversion throws. *)
Inductive Thrown : Type :=
| ErrorObj (name message : string)
| Primitive (text : string)
| ThrownNull
| ThrownUndefined
| ThrownObject (message : Rendering) (text : option string).

Definition newError (message : string) : Thrown := ErrorObj "Error" message.

(** The error the engine throws for a read of a member of [null] or
    [undefined], for a call of what is no function, and the like. *)
Definition TypeError (message : string) : Thrown := ErrorObj "TypeError" message.

(** [error instanceof Error] *)
Definition instanceofError (e : Thrown) : bool :=
  match e with ErrorObj _ _ => true | _ => false end.

(** [error.message] of an instance of [Error]. *)
Definition message (e : Thrown) : option string :=
  match e with ErrorObj _ m => Some m | _ => None end.

(** The outcome of evaluating a call: a value, or an exception. For an
    [async] function this is the settlement of the promise it returns. *)
Inductive Completion (A : Type) : Type :=
| Return (a : A)
| Throws (e : Thrown).
Arguments Return {A} a.
Arguments Throws {A} e.

Definition bind {A B} (c : Completion A) (k : A -> Completion B) : Completion B :=
  match c with
  | Return a => k a
  | Throws e => Throws e
  end.

(** [try { body } catch (error) { handler(error) }] *)
Definition try_catch {A} (body : Completion A) (handler : Thrown -> Completion A)
  : Completion A :=
  match body with
  | Return a => Return a
  | Throws e => handler e
  end.

Definition is_Throws {A} (c : Completion A) : bool :=
  match c with Return _ => false | Throws _ => true end.

(** The errors of the engine for the read [value.key] on [null] or
    [undefined], and for the destructuring [const { key } = args] of
    [undefined]; the texts are those of V8. *)
Definition cannot_read (value key : string) : Thrown :=
  TypeError ("Cannot read properties of " +:+ value +:+ " (reading '" +:+ key +:+ "')").

Definition cannot_destructure (key : string) : Thrown :=
  TypeError ("Cannot destructure property '" +:+ key +:+ "' of 'args' as it is undefined.").

(** The error of a conversion to a text that throws. *)
Definition cannot_convert : Thrown := TypeError "Cannot convert object to primitive value".

(** [String(error)]: Error.prototype.toString for an [Error]. *)
Definition String_ (e : Thrown) : Completion string :=
  match e with
  | ErrorObj n m =>
      Return (if String.eqb m EmptyString then n
              else if String.eqb n EmptyString then m
              else n +:+ ": " +:+ m)
  | Primitive t => Return t
  | ThrownNull => Return "null"
  | ThrownUndefined => Return "undefined"
  | ThrownObject _ (Some t) => Return t
  | ThrownObject _ None => Throws cannot_convert
  end.

(** [error.message] on whatever was thrown: [undefined] on a primitive, and
    a TypeError on [null] and [undefined]. *)
Definition read_message (e : Thrown) : Completion Rendering :=
  match e with
  | ErrorObj _ m => Return (if String.eqb m EmptyString then Falsy else Renders m)
  | Primitive _ => Return Falsy
  | ThrownNull => Throws (cannot_read "null" "message")
  | ThrownUndefined => Throws (cannot_read "undefined" "message")
  | ThrownObject m _ => Return m
  end.

(** [args.key] for the [arguments] member of a request: an object, or
    [undefined] when the request has none. *)
Definition read_member (args : option JsObject) (key : string) : Completion JsValue :=
  match args with
  | Some fields => Return (get_prop fields key)
  | None => Throws (cannot_read "undefined" key)
  end.

(** [const { key } = args] for the same. *)
Definition destructure (args : option JsObject) (key : string) : Completion JsValue :=
  match args with
  | Some fields => Return (get_prop fields key)
  | None => Throws (cannot_destructure key)
  end.

(** What [console.error] printed. *)
Inductive LogEntry : Type :=
| LogText (text : string)
| LogError (text : string) (e : Thrown).

(** *** Strings *)

Definition quote_char : ascii := "034"%char.
Definition newline_char : ascii := "010"%char.
Definition newline : string := String newline_char EmptyString.
Definition dquote : string := String quote_char EmptyString.

(** [s.split(c)] for a one-character separator. *)
Fixpoint split (c : ascii) (s : string) : list string :=
  match s with
  | EmptyString => [EmptyString]
  | String a rest =>
      if Ascii.eqb a c then EmptyString :: split c rest
      else match split c rest with
           | [] => [String a EmptyString]
           | x :: xs => String a x :: xs
           end
  end.

(** [lines.join(sep)] *)
Definition join (sep : string) (l : list string) : string := String.concat sep l.

(** The UTF-16 code units of a text, from the bytes of its UTF-8: one unit
    for a sequence of one, two or three bytes, a surrogate pair for a sequence
    of four. *)
Fixpoint code_units (s : string) : list N :=
  match s with
  | EmptyString => []
  | String c0 rest =>
      let b0 := N_of_ascii c0 in
      if (b0 <? 192)%N then b0 :: code_units rest
      else if (b0 <? 224)%N then
        match rest with
        | String c1 rest1 =>
            ((b0 - 192) * 64 + (N_of_ascii c1 - 128))%N :: code_units rest1
        | EmptyString => [b0]
        end
      else if (b0 <? 240)%N then
        match rest with
        | String c1 (String c2 rest2) =>
            ((b0 - 224) * 4096 + (N_of_ascii c1 - 128) * 64 + (N_of_ascii c2 - 128))%N
            :: code_units rest2
        | _ => b0 :: code_units rest
        end
      else
        match rest with
        | String c1 (String c2 (String c3 rest3)) =>
            let v := ((b0 - 240) * 262144 + (N_of_ascii c1 - 128) * 4096
                      + (N_of_ascii c2 - 128) * 64 + (N_of_ascii c3 - 128) - 65536)%N in
            (55296 + v / 1024)%N :: (56320 + v mod 1024)%N :: code_units rest3
        | _ => b0 :: code_units rest
        end
  end.

(** The comparison of two sequences of code units, unit by unit. *)
Fixpoint units_compare (a b : list N) : comparison :=
  match a, b with
  | [], [] => Eq
  | [], _ :: _ => Lt
  | _ :: _, [] => Gt
  | x :: a', y :: b' =>
      match (x ?= y)%N with
      | Eq => units_compare a' b'
      | c => c
      end
  end.

(** The comparison of two texts by their code units. Two texts with the same
    code units are the same text; for byte strings that are no UTF-8 the bytes
    break the tie, which keeps the comparison an order on all strings. *)
Definition str_compare (a b : string) : comparison :=
  match units_compare (code_units a) (code_units b) with
  | Eq => String.compare a b
  | c => c
  end.

(** The default comparison of [Array.prototype.sort]: the order of the
    UTF-16 code units. *)
Definition str_le (a b : string) : Prop :=
  match str_compare a b with Gt => False | _ => True end.

#[global] Instance str_le_dec : RelDecision str_le.
Proof. intros a b. unfold str_le. destruct (str_compare a b); apply _. Defined.

(** [lines.sort()] *)
Definition sort (l : list string) : list string := merge_sort str_le l.

(** *** Text pasted into generated code *)

Definition backslash_char : ascii := "092"%char.
Definition backtick_char : ascii := "096"%char.
Definition return_char : ascii := "013"%char.

Definition is_digit (c : ascii) : bool :=
  let n := N_of_ascii c in (48 <=? n)%N && (n <=? 57)%N.

Definition is_letter (c : ascii) : bool :=
  let n := N_of_ascii c in
  ((65 <=? n)%N && (n <=? 90)%N) || ((97 <=? n)%N && (n <=? 122)%N).

(** The character that a backslash followed by [c] stands for in a string
    or template literal. [None] for what is left out here: the escapes that
    begin with a digit, with x or with u, the line continuation, and a
    backslash before a byte that is not ASCII. *)
Definition escaped (c : ascii) : option ascii :=
  if (128 <=? N_of_ascii c)%N then None
  else if is_digit c then None
  else if Ascii.eqb c "x" || Ascii.eqb c "u" then None
  else if Ascii.eqb c newline_char || Ascii.eqb c return_char then None
  else if Ascii.eqb c "n" then Some newline_char
  else if Ascii.eqb c "r" then Some return_char
  else if Ascii.eqb c "t" then Some "009"%char
  else if Ascii.eqb c "b" then Some "008"%char
  else if Ascii.eqb c "f" then Some "012"%char
  else if Ascii.eqb c "v" then Some "011"%char
  else Some c.

(** The value of the double-quoted string literal that has [s] between its
    quotes. [None] when [s] holds a quote or a line break outside an escape,
    ends in a lone backslash, or uses an escape left out of [escaped]: the
    literal then ends elsewhere, is no literal, or is not evaluated here. *)
Fixpoint string_literal (s : string) : option string :=
  match s with
  | EmptyString => Some EmptyString
  | String c rest =>
      if Ascii.eqb c quote_char then None
      else if Ascii.eqb c newline_char || Ascii.eqb c return_char then None
      else if Ascii.eqb c backslash_char then
        match rest with
        | EmptyString => None
        | String e rest' =>
            match escaped e, string_literal rest' with
            | Some x, Some text => Some (String x text)
            | _, _ => None
            end
        end
      else String c <$> string_literal rest
  end.

(** The value of the template literal that has [s] between its backticks,
    when [s] brings no substitution of its own. [None] when [s] holds a
    backtick, a dollar sign before an opening brace, or a carriage return
    (which a template turns into a line feed), and as for [string_literal]. *)
Fixpoint template_literal (s : string) : option string :=
  match s with
  | EmptyString => Some EmptyString
  | String c rest =>
      if Ascii.eqb c backtick_char then None
      else if Ascii.eqb c return_char then None
      else if Ascii.eqb c "$" then
        match rest with
        | String "{"%char _ => None
        | _ => String c <$> template_literal rest
        end
      else if Ascii.eqb c backslash_char then
        match rest with
        | EmptyString => None
        | String e rest' =>
            match escaped e, template_literal rest' with
            | Some x, Some text => Some (String x text)
            | _, _ => None
            end
        end
      else String c <$> template_literal rest
  end.

(** The words that cannot name a function: the reserved words, those
    reserved in strict code or in an [async] function, and [eval] and
    [arguments]. *)
Definition reserved_words : list string :=
  ["await"; "break"; "case"; "catch"; "class"; "const"; "continue"; "debugger";
   "default"; "delete"; "do"; "else"; "enum"; "export"; "extends"; "false";
   "finally"; "for"; "function"; "if"; "import"; "in"; "instanceof"; "new";
   "null"; "return"; "super"; "switch"; "this"; "throw"; "true"; "try";
   "typeof"; "var"; "void"; "while"; "with"; "implements"; "interface"; "let";
   "package"; "private"; "protected"; "public"; "static"; "yield"; "eval";
   "arguments"].

Definition is_identifier_start (c : ascii) : bool :=
  is_letter c || Ascii.eqb c "_" || Ascii.eqb c "$".

Fixpoint all_chars (p : ascii -> bool) (s : string) : bool :=
  match s with
  | EmptyString => true
  | String c rest => p c && all_chars p rest
  end.

(** An identifier written in ASCII that can name a function. *)
Definition isIdentifier (s : string) : bool :=
  match s with
  | EmptyString => false
  | String c rest =>
      is_identifier_start c && all_chars (fun c => is_identifier_start c || is_digit c) rest
  end
  && negb (existsb (String.eqb s) reserved_words).

(** *** [JSON.stringify(value)] without indentation *)

Definition hex_digit (n : N) : ascii :=
  match n with
  | 10%N => "a"%char | 11%N => "b"%char | 12%N => "c"%char
  | 13%N => "d"%char | 14%N => "e"%char | 15%N => "f"%char
  | _ => ascii_of_N (48 + n)
  end.

(** QuoteJSONString on one byte: the ASCII characters that are escaped; the
    bytes of a longer sequence are passed on as they are. *)
Definition escape_char (c : ascii) : string :=
  let n := N_of_ascii c in
  if Ascii.eqb c quote_char then String "\"%char dquote
  else if Ascii.eqb c "\"%char then "\\"
  else if Ascii.eqb c newline_char then "\n"
  else if Ascii.eqb c return_char then "\r"
  else if Ascii.eqb c "009"%char then "\t"
  else if Ascii.eqb c "008"%char then "\b"
  else if Ascii.eqb c "012"%char then "\f"
  else if (n <? 32)%N then
    "\u00" +:+ String (hex_digit (n / 16)) (String (hex_digit (n mod 16)) EmptyString)
  else String c EmptyString.

Fixpoint escape (s : string) : string :=
  match s with
  | EmptyString => EmptyString
  | String c rest => escape_char c +:+ escape rest
  end.

Definition quote (s : string) : string := dquote +:+ escape s +:+ dquote.

Definition string_of_Z (n : Z) : string := NilZero.string_of_int (Z.to_int n).
Definition string_of_nat (n : nat) : string := NilZero.string_of_uint (Nat.to_uint n).

Fixpoint stringify (v : JSON) : string :=
  match v with
  | JNull => "null"
  | JBool true => "true"
  | JBool false => "false"
  | JNum n => string_of_Z n
  | JStr s => quote s
  | JArr items => "[" +:+ join "," (map stringify items) +:+ "]"
  | JObj fields =>
      "{" +:+ join "," (map (fun kv => let '(k, x) := kv in quote k +:+ ":" +:+ stringify x) fields)
          +:+ "}"
  end.

End Js.

(** ** What a script exports *)

Module Script.
Import Js.

Section Values.
(** The state the tool calls change while a promise is awaited. *)
Variable S : Type.

(** A value as the sandbox managers look at it: data, or an object some
    members of which are functions. A function is described by what a promise
    does that takes it as its [then]: how the promise settles, and the state
    it leaves. *)
Inductive Value : Type :=
| Plain (v : JsValue)
| Object (members : list (string * Member))
with Member : Type :=
| Data (v : JSON)
| Func (as_then : S -> Completion Value * S).

(** ToBoolean. *)
Definition truthy_value (result : Value) : bool :=
  match result with
  | Plain v => truthy v
  | Object _ => true
  end.

(** [result.then], for a result that is neither [null] nor [undefined]. *)
Definition get_then (result : Value) : option Member :=
  match result with
  | Plain (Some (JObj fields)) => Data <$> get_prop fields "then"
  | Plain _ => None
  | Object members => map_get members "then"
  end.

(** [typeof member] *)
Definition typeof (member : option Member) : string :=
  match member with
  | None => "undefined"
  | Some (Func _) => "function"
  | Some (Data JNull) => "object"
  | Some (Data (JBool _)) => "boolean"
  | Some (Data (JNum _)) => "number"
  | Some (Data (JStr _)) => "string"
  | Some (Data (JArr _)) => "object"
  | Some (Data (JObj _)) => "object"
  end.

(** [result && typeof result.then === 'function'] *)
Definition isThenable (result : Value) : bool :=
  truthy_value result && String.eqb (typeof (get_then result)) "function".

(** [await result]: a promise that takes the [then] of [result], when that
    is a function, or else is fulfilled with [result]. *)
Definition await (result : Value) (s : S) : Completion Value * S :=
  match get_then result with
  | Some (Func as_then) => as_then s
  | _ => (Return result, s)
  end.

End Values.

Arguments Plain {S} v.
Arguments Object {S} members.
Arguments Data {S} v.
Arguments Func {S} as_then.
Arguments truthy_value {S} result.
Arguments get_then {S} result.
Arguments typeof {S} member.
Arguments isThenable {S} result.
Arguments await {S} result s.

End Script.

(** ** Domain types (types.ts and the MCP SDK's [Tool] and [Client]) *)

Module Tool.
Import Js.

(** The SDK's [Tool]; [title] is the alias [registerServer] assigns. *)
Record t : Type := mk {
  name : string;
  title : option string;
  description : option string;
  inputSchema : JSON;
  outputSchema : option JSON
}.

(** [tool.title = x] *)
Definition set_title (tool : t) (x : string) : t :=
  {| name := name tool; title := Some x; description := description tool;
     inputSchema := inputSchema tool; outputSchema := outputSchema tool |}.

(** [tool.outputSchema = schema] *)
Definition set_outputSchema (tool : t) (schema : JSON) : t :=
  {| name := name tool; title := title tool; description := description tool;
     inputSchema := inputSchema tool; outputSchema := Some schema |}.

Definition optional_field (key : string) (v : option JSON) : JsObject :=
  match v with Some x => [(key, x)] | None => [] end.

(** The tool as a JS object: its defined properties. *)
Definition toObject (tool : t) : JsObject :=
  [("name", JStr (name tool))]
  ++ optional_field "title" (JStr <$> title tool)
  ++ optional_field "description" (JStr <$> description tool)
  ++ [("inputSchema", inputSchema tool)]
  ++ optional_field "outputSchema" (outputSchema tool).

End Tool.

Module Client.
Import Js.

(** The part of the SDK's [Client] the core uses; a downstream server is
    taken to answer each request in one fixed way. *)
Record t : Type := mk {
  listTools : Completion (list Tool.t);
  getInstructions : option string;
  callTool : string -> JsValue -> Completion JsObject
}.

End Client.

Module ServerInfo.

Record t : Type := mk {
  name : string;
  client : Client.t;
  tools : list Tool.t
}.

End ServerInfo.

(** ** serversRegistry.ts *)

Module ServersRegistry.
Import Js.

(** The registry object: its [serversInfo] map and what it logged. *)
Record t : Type := mk {
  serversInfo : JsMap ServerInfo.t;
  log : list LogEntry
}.

Definition console_error (this : t) (entry : LogEntry) : t :=
  {| serversInfo := serversInfo this; log := log this ++ [entry] |}.

(** [error instanceof Error ? error.message : String(error)] *)
Definition errorMessage (error : Thrown) : Completion string :=
  if instanceofError error then Return (default EmptyString (message error))
  else String_ error.

Section Registry.
(** utils.ts is not among the sources: [convertToolName] is a parameter. *)
Variable convertToolName : string -> string.
(** [MCPConnection]: [getConnection] is a lookup, [getAllConnections] the map. *)
Variable mcpConnection : JsMap Client.t.

(** [response.tools.forEach(tool => tool.title = convertToolName(tool.name))] *)
Definition assignTitles (tools : list Tool.t) : list Tool.t :=
  map (fun tool => Tool.set_title tool (convertToolName (Tool.name tool))) tools.

(** [registerServer] up to its [await]: the two guards. *)
Definition registerServer_guards (this : t) (serverName : string) : Completion Client.t :=
  if map_has (serversInfo this) serverName then
    Throws (newError ("Server '" +:+ serverName +:+ "' is already registered"))
  else
    match map_get mcpConnection serverName with
    | None => Throws (newError ("Connection for server '" +:+ serverName +:+ "' not found"))
    | Some client => Return client
    end.

(** [registerServer] from the moment [client.listTools()] settles. *)
Definition registerServer_resume (serverName : string) (client : Client.t) (this : t)
  : Completion unit * t :=
  match Client.listTools client with
  | Return tools =>
      let tools := assignTitles tools in
      let serverInfo := ServerInfo.mk serverName client tools in
      (Return tt,
       console_error
         {| serversInfo := map_set (serversInfo this) serverName serverInfo; log := log this |}
         (LogText ("✓ Registered server '" +:+ serverName +:+ "' with "
                   +:+ string_of_nat (length tools) +:+ " tools")))
  | Throws error =>
      match errorMessage error with
      | Throws unprintable => (Throws unprintable, this)
      | Return errorMessage =>
          (Throws (newError ("Failed to register server '" +:+ serverName +:+ "': "
                             +:+ errorMessage)),
           console_error this
             (LogError ("✗ Failed to register server '" +:+ serverName +:+ "':") error))
      end
  end.

Definition registerServer (serverName : string) (this : t) : Completion unit * t :=
  match registerServer_guards this serverName with
  | Throws error => (Throws error, this)
  | Return client => registerServer_resume serverName client this
  end.

(** The [.catch] attached to each registration in [registerAllServers]. *)
Definition catch_failure (serverName : string) (r : Completion unit * t) : t :=
  match r with
  | (Return _, this) => this
  | (Throws error, this) =>
      console_error this (LogError ("Failed to register " +:+ serverName +:+ ":") error)
  end.

(** The registrations the loop of [registerAllServers] starts: each runs its
    guards at once, against the registry as it is before any of them resumes. *)
Fixpoint started (this : t) (connections : JsMap Client.t)
  : list (string * Thrown) * list (string * Client.t) :=
  match connections with
  | [] => ([], [])
  | (serverName, _) :: rest =>
      let '(rejected, pending) := started this rest in
      match registerServer_guards this serverName with
      | Throws error => ((serverName, error) :: rejected, pending)
      | Return client => (rejected, (serverName, client) :: pending)
      end
  end.

Definition resume_and_catch (this : t) (p : string * Client.t) : t :=
  catch_failure (fst p) (registerServer_resume (fst p) (snd p) this).

(** What a registration whose guards passed leaves under the server's name. *)
Definition registered (serverName : string) (client : Client.t) : option ServerInfo.t :=
  match Client.listTools client with
  | Return tools => Some (ServerInfo.mk serverName client (assignTitles tools))
  | Throws _ => None
  end.

(** What the [.catch] of [registerAllServers] prints. *)
Definition failure_entry (serverName : string) (error : Thrown) : LogEntry :=
  LogError ("Failed to register " +:+ serverName +:+ ":") error.

(** [registerAllServers]: the pending registrations resume in the order their
    [listTools] calls settle, which [schedule] stands for. *)
Definition registerAllServers
    (schedule : list (string * Client.t) -> list (string * Client.t)) (this : t) : t :=
  let '(rejected, pending) := started this mcpConnection in
  let this := fold_left (fun this r => catch_failure (fst r) (Throws (snd r), this)) rejected this in
  let this := fold_left resume_and_catch (schedule pending) this in
  console_error this
    (LogText ("✓ Registered " +:+ string_of_nat (length (serversInfo this)) +:+ " servers")).

End Registry.

(** [getTool(serverName, toolName)] *)
Definition getTool (this : t) (serverName toolName : string) : Completion (option Tool.t) :=
  match map_get (serversInfo this) serverName with
  | None => Throws (newError ("Server '" +:+ serverName +:+ "' not found in registry"))
  | Some serverInfo =>
      Return (find (fun tool => String.eqb (Tool.name tool) toolName) (ServerInfo.tools serverInfo))
  end.

Definition hasServer (this : t) (serverName : string) : bool :=
  map_has (serversInfo this) serverName.

Definition getAllServers (this : t) : JsMap ServerInfo.t := serversInfo this.

(** [getServer(serverName)] *)
Definition getServer (this : t) (serverName : string) : option ServerInfo.t :=
  map_get (serversInfo this) serverName.

(** [getClient(serverName)]: [this.serversInfo.get(serverName)?.client] *)
Definition getClient (this : t) (serverName : string) : option Client.t :=
  ServerInfo.client <$> map_get (serversInfo this) serverName.

(** [getServerNames()]: [Array.from(this.serversInfo.keys())] *)
Definition getServerNames (this : t) : list string := map_keys (serversInfo this).

(** [getServerCount()]: [this.serversInfo.size] *)
Definition getServerCount (this : t) : nat := length (serversInfo this).

(** [getTotalToolCount()]: the loop adding up [serverInfo.tools.length]. *)
Definition getTotalToolCount (this : t) : nat :=
  fold_left (fun count entry => count + length (ServerInfo.tools (snd entry)))
    (serversInfo this) 0.

(** [clear()] *)
Definition clear (this : t) : t :=
  console_error (mk [] (log this)) (LogText "✓ Cleared all registered servers").

End ServersRegistry.

(** ** mcpToolsParser.ts *)

Module MCPToolsParser.
Import Js.

(** A template literal's rendering of [tool.title]. *)
Definition interpolate (v : option string) : string := default "undefined" v.

Definition headerLine (serverName serverInstructions : string) : string :=
  "# " +:+ serverName +:+ " mcp server nstructions: " +:+ serverInstructions.

Definition toolLine (serverName : string) (tool : Tool.t) : string :=
  serverName +:+ "/" +:+ interpolate (Tool.title tool).

(** The lines one iteration of the outer loop pushes. *)
Definition serverLines (entry : string * ServerInfo.t) : list string :=
  let '(serverName, serverInfo) := entry in
  let serverInstructions := Client.getInstructions (ServerInfo.client serverInfo) in
  (if truthy (JStr <$> serverInstructions)
   then [headerLine serverName (interpolate serverInstructions)] else [])
  ++ map (toolLine serverName) (ServerInfo.tools serverInfo).

Definition collectLines (serversInfo : JsMap ServerInfo.t) : list string :=
  flat_map serverLines serversInfo.

Definition getServersOverview (serversInfo : JsMap ServerInfo.t) : string :=
  join newline (sort (collectLines serversInfo)).

Definition exampleUsage (serverName title : string) : string :=
  "const " +:+ title +:+ " = require('./" +:+ serverName +:+ "/" +:+ title +:+ ".cjs');"
  +:+ newline +:+ "module.exports = " +:+ title +:+ "({ /* your parameters here */ });".

(** [t.title === toolName] *)
Definition title_is (toolName : string) (tool : Tool.t) : bool :=
  match Tool.title tool with
  | Some title => String.eqb title toolName
  | None => false
  end.

(** [{...tool, exampleUsage}] *)
Definition withExampleUsage (serverName : string) (tool : Tool.t) : JSON :=
  JObj (map_set (Tool.toObject tool) "exampleUsage"
          (JStr (exampleUsage serverName (interpolate (Tool.title tool))))).

(** The loop of [getToolsOverview] over the remaining paths, with the
    [tools] array built so far. *)
Fixpoint getToolsOverview_loop (serversInfo : JsMap ServerInfo.t) (toolPaths : list string)
    (tools : list JSON) (log : list LogEntry) : Completion (list JSON) * list LogEntry :=
  match toolPaths with
  | [] => (Return tools, log)
  | toolPath :: rest =>
      match split "/" toolPath with
      | [serverName; toolName] =>
          match map_get serversInfo serverName with
          | None => (Throws (newError ("Error: Server '" +:+ serverName +:+ "' not found")), log)
          | Some serverInfo =>
              match find (title_is toolName) (ServerInfo.tools serverInfo) with
              | Some tool =>
                  getToolsOverview_loop serversInfo rest
                    (tools ++ [withExampleUsage serverName tool]) log
              | None =>
                  getToolsOverview_loop serversInfo rest tools
                    (log ++ [LogText ("Error: Tool '" +:+ toolName +:+ "' not found in server '"
                                      +:+ serverName +:+ "'")])
              end
          end
      | _ =>
          (Throws (newError ("Error: Invalid tool path format '" +:+ toolPath
                             +:+ "'. Expected 'serverName/toolName'")), log)
      end
  end.

(** The array handed to [JSON.stringify]. *)
Definition getToolsOverview_tools (serversInfo : JsMap ServerInfo.t) (toolPaths : list string)
  : Completion (list JSON) * list LogEntry :=
  getToolsOverview_loop serversInfo toolPaths [] [].

Definition getToolsOverview (serversInfo : JsMap ServerInfo.t) (toolPaths : list string)
  : Completion string * list LogEntry :=
  let '(r, log) := getToolsOverview_tools serversInfo toolPaths in
  (bind r (fun tools => Return (stringify (JArr tools))), log).

(** The strings an array begins with, and its first element that is no
    string, if it has one. *)
Fixpoint leading_strings (items : list JSON) : list string * option JSON :=
  match items with
  | [] => ([], None)
  | JStr toolPath :: rest =>
      let '(toolPaths, other) := leading_strings rest in (toolPath :: toolPaths, other)
  | other :: _ => ([], Some other)
  end.

(** [toolPath.split('/')] on a value that is no string. *)
Definition split_of_no_string (toolPath : JSON) : Thrown :=
  match toolPath with
  | JNull => cannot_read "null" "split"
  | _ => TypeError "toolPath.split is not a function"
  end.

(** [getToolsOverview] called with an array whose elements the caller did
    not check: the loop runs over the strings the array begins with and, if
    it comes that far, throws at the first element that is no string. *)
Definition getToolsOverview_array (serversInfo : JsMap ServerInfo.t) (items : list JSON)
  : Completion string * list LogEntry :=
  match leading_strings items with
  | (toolPaths, None) => getToolsOverview serversInfo toolPaths
  | (toolPaths, Some other) =>
      let '(r, log) := getToolsOverview_tools serversInfo toolPaths in
      (bind r (fun _ => Throws (split_of_no_string other)), log)
  end.

End MCPToolsParser.

(** ** The tool metadata store (interfaces/IToolDatabase.ts) *)

Module ToolDatabase.
Import Js.

(** A persisted row: the columns beside the key [(serverName, toolName)]. *)
Record Row : Type := mkRow {
  outputSchema : option string;
  originalOutputSchema : bool;
  lastUpdated : Z
}.

(** The two operations the sandbox calls on the store. Both are awaited and
    may reject. *)
Class IToolDatabase (DB : Type) : Type := {
  getTool : DB -> string -> string -> Completion (option Row);
  updateTool : DB -> string -> string -> string -> bool -> Completion unit * DB
}.

(** What the drain relies on: a write under one key leaves the rows under
    the other keys as they are. *)
Definition key_local (DB : Type) `{IToolDatabase DB} : Prop :=
  forall (db : DB) serverName toolName schema original s t,
    (s, t) <> (serverName, toolName) ->
    getTool (snd (updateTool db serverName toolName schema original)) s t = getTool db s t.

(** Modelled from the spec: serversToolDatabaseImpl.ts is not among the sources.
    The table of section 6 keyed by (serverName, toolName), with the write
    policy of section 4.2: an inferred write over an original row is
    rejected, any other write replaces the row and stamps it. *)
Record ServersToolDatabaseImpl : Type := mkDb {
  rows : gmap (string * string) Row;
  clock : Z
}.

Definition impl_getTool (db : ServersToolDatabaseImpl) (serverName toolName : string)
  : Completion (option Row) :=
  Return (rows db !! (serverName, toolName)).

Definition impl_write (db : ServersToolDatabaseImpl) (serverName toolName schema : string)
    (original : bool) : ServersToolDatabaseImpl :=
  {| rows := <[(serverName, toolName) := mkRow (Some schema) original (clock db)]> (rows db);
     clock := (clock db + 1)%Z |}.

Definition impl_updateTool (db : ServersToolDatabaseImpl) (serverName toolName schema : string)
    (original : bool) : Completion unit * ServersToolDatabaseImpl :=
  match rows db !! (serverName, toolName) with
  | Some row =>
      if originalOutputSchema row && negb original then (Return tt, db)
      else (Return tt, impl_write db serverName toolName schema original)
  | None => (Return tt, impl_write db serverName toolName schema original)
  end.

#[global] Instance impl_database : IToolDatabase ServersToolDatabaseImpl :=
  {| getTool := impl_getTool; updateTool := impl_updateTool |}.

End ToolDatabase.

(** ** infrastructure/sandbox/SandboxManagerImpl.ts *)

Module SandboxManagerImpl.
Import Js.
Import ToolDatabase.

(** One element of a bucket of [toolOutputCache]. *)
Record CacheEntry : Type := mkEntry {
  toolName : string;
  output : JSON
}.

Definition Cache := JsMap (list CacheEntry).

(** The manager's fields, with the store singleton it reaches through
    [getInstance()] and what it logged. *)
Record t (DB : Type) : Type := mk {
  serversInfo : JsMap ServerInfo.t;
  toolOutputCache : Cache;
  toolDatabase : DB;
  log : list LogEntry
}.
Arguments mk {DB}.
Arguments serversInfo {DB}.
Arguments toolOutputCache {DB}.
Arguments toolDatabase {DB}.
Arguments log {DB}.

(** What running a script exports; the state that changes while a promise
    of the script is awaited is the cache. *)
Definition ScriptValue := Script.Value Cache.

(** *** The function a generated tool file exports *)

(** The names the generated module binds or reads at its top level; a
    function of one of these names would take the name's place. *)
Definition module_names : list string :=
  ["serversInfo"; "toolOutputCache"; "require"; "module"; "Error"].

(** [async function ${tool.title}(args)] and [module.exports = ${tool.title}]:
    whether the title pasted there names the function of the file. *)
Definition names_function (title : option string) : bool :=
  let name := MCPToolsParser.interpolate title in
  isIdentifier name && negb (existsb (String.eqb name) module_names).

(** The body of the function in the template of [generateToolFile]. The
    template pastes [serverName] and [tool.name] between double quotes and
    [serverName] into template literals, so the function works with the values
    of these literals: [key], [wire] and [shown]. A [ServerInfo] always
    carries a client, so the template's guard on [serverInfo.client] never
    fires. *)
Definition exported (key shown wire : string)
    (serversInfo : JsMap ServerInfo.t) (args : JsValue) (cache : Cache)
  : Completion JSON * Cache :=
  match map_get serversInfo key with
  | None => (Throws (newError ("Server " +:+ shown +:+ " not exist")), cache)
  | Some serverInfo =>
      let client := ServerInfo.client serverInfo in
      match Client.callTool client wire args with
      | Throws error => (Throws error, cache)
      | Return response =>
          let cache :=
            match map_get cache key with
            | Some serverCache =>
                map_set cache key (serverCache ++ [mkEntry wire (JObj response)])
            | None => cache
            end in
          (Return (JObj [("content", or_else (get_prop response "content") (JArr []));
                         ("isError", or_else (get_prop response "isError") (JBool false));
                         ("_meta", JObj [("serverName", JStr key);
                                         ("toolName", JStr wire)])]),
           cache)
      end
  end.

(** The function that the file written by [generateToolFile] exports.
    [None] when a pasted text gives no value to its literal or the title does
    not name the function: the file is then another program, or none. *)
Definition generatedTool (serverName : string) (tool : Tool.t)
  : option (JsMap ServerInfo.t -> JsValue -> Cache -> Completion JSON * Cache) :=
  if names_function (Tool.title tool) then
    match string_literal serverName, template_literal serverName,
          string_literal (Tool.name tool) with
    | Some key, Some shown, Some wire => Some (exported key shown wire)
    | _, _, _ => None
    end
  else None.

Section Manager.
Context {DB : Type} `{IToolDatabase DB}.
(** utils.ts is not among the sources: [convertOutputToSchema] is a parameter. *)
Variable convertOutputToSchema : JSON -> Completion JsValue.
(** [this.vm.run(code, filename)]: what the script exports, or what it
    throws, and the cache as the tool calls made so far leave it. *)
Variable vm_run : string -> JsMap ServerInfo.t -> Cache -> Completion ScriptValue * Cache.

Definition console_error (this : t DB) (entry : LogEntry) : t DB :=
  mk (serversInfo this) (toolOutputCache this) (toolDatabase this) (log this ++ [entry]).

Definition failed_to_save (serverName toolName : string) (error : Thrown) : LogEntry :=
  LogError ("✗ Failed to save output schema for " +:+ serverName +:+ "/" +:+ toolName +:+ ":") error.

(** [tools.find(t => t.name === toolName)] followed by the assignment
    [tool.outputSchema = outputSchema] on the tool found. *)
Fixpoint assign_outputSchema (toolName : string) (schema : JSON) (tools : list Tool.t)
  : list Tool.t :=
  match tools with
  | [] => []
  | tool :: rest =>
      if String.eqb (Tool.name tool) toolName then Tool.set_outputSchema tool schema :: rest
      else tool :: assign_outputSchema toolName schema rest
  end.

(** The update of the tool inside [ServerInfo], after a write to the store. *)
Definition mirror (serverName toolName : string) (schema : JSON) (this : t DB) : t DB :=
  match map_get (serversInfo this) serverName with
  | None => this
  | Some serverInfo =>
      match find (fun tool => String.eqb (Tool.name tool) toolName) (ServerInfo.tools serverInfo) with
      | None => this
      | Some _ =>
          let serverInfo :=
            ServerInfo.mk (ServerInfo.name serverInfo) (ServerInfo.client serverInfo)
              (assign_outputSchema toolName schema (ServerInfo.tools serverInfo)) in
          console_error
            (mk (map_set (serversInfo this) serverName serverInfo) (toolOutputCache this)
                (toolDatabase this) (log this))
            (LogText ("✓ Updated output schema for " +:+ serverName +:+ "/" +:+ toolName
                      +:+ " in ServerInfo"))
      end
  end.

(** The body of the inner loop of [updateOutputSchema]: one captured output. *)
Definition processEntry (serverName : string) (this : t DB) (entry : CacheEntry) : t DB :=
  let toolName := toolName entry in
  match convertOutputToSchema (output entry) with
  | Throws error => console_error this (failed_to_save serverName toolName error)
  | Return outputSchema =>
      match outputSchema with
      | Some schema =>
          if truthy outputSchema then
            match getTool (toolDatabase this) serverName toolName with
            | Throws error => console_error this (failed_to_save serverName toolName error)
            | Return None =>
                console_error this
                  (failed_to_save serverName toolName
                     (newError ("Tool " +:+ toolName +:+ " not found in database for server "
                                +:+ serverName)))
            | Return (Some existingTool) =>
                if negb (originalOutputSchema existingTool) then
                  match updateTool (toolDatabase this) serverName toolName (stringify schema) false with
                  | (Throws error, db) =>
                      console_error (mk (serversInfo this) (toolOutputCache this) db (log this))
                        (failed_to_save serverName toolName error)
                  | (Return _, db) =>
                      mirror serverName toolName schema
                        (mk (serversInfo this) (toolOutputCache this) db (log this))
                  end
                else this
            end
          else this
      | None => this
      end
  end.

(** [updateOutputSchema]: the two nested loops over the cache. *)
Definition updateOutputSchema (this : t DB) : t DB :=
  fold_left
    (fun this bucket => fold_left (processEntry (fst bucket)) (snd bucket) this)
    (toolOutputCache this) this.

(** [clearAndSetToolOutCache] *)
Definition clearAndSetToolOutCache (this : t DB) : t DB :=
  mk (serversInfo this)
     (fold_left (fun cache entry => map_set cache (fst entry) []) (serversInfo this) [])
     (toolDatabase this) (log this).

(** [clearAndSetServiceInfoCache] *)
Definition clearAndSetServiceInfoCache (servers : JsMap ServerInfo.t) (this : t DB) : t DB :=
  mk (fold_left (fun m entry => map_set m (fst entry) (snd entry)) servers [])
     (toolOutputCache this) (toolDatabase this) (log this).

(** [initialize], without the files it writes. *)
Definition initialize (servers : JsMap ServerInfo.t) (this : t DB) : t DB :=
  clearAndSetToolOutCache (clearAndSetServiceInfoCache servers this).

(** [execute(code)] *)
Definition execute (code : string) (this : t DB) : Completion ScriptValue * t DB :=
  let '(result, cache) := vm_run code (serversInfo this) (toolOutputCache this) in
  let '(finalResult, cache) :=
    match result with
    | Throws error => (Throws error, cache)
    | Return result =>
        if Script.isThenable result then Script.await result cache
        else (Return result, cache)
    end in
  let this := mk (serversInfo this) cache (toolDatabase this) (log this) in
  match finalResult with
  | Return finalResult => (Return finalResult, clearAndSetToolOutCache (updateOutputSchema this))
  | Throws error =>
      (Throws error, console_error this (LogError "✗ Error executing code in sandbox:" error))
  end.

End Manager.

(** [getServerOutputs(serverName)] *)
Definition getServerOutputs {DB : Type} (this : t DB) (serverName : string)
  : option (list CacheEntry) :=
  map_get (toolOutputCache this) serverName.

(** [getAllOutputs()] *)
Definition getAllOutputs {DB : Type} (this : t DB) : Cache := toolOutputCache this.

(** [clearServerCache(serverName)]: [serverCache.length = 0] on the bucket,
    when there is one. *)
Definition clearServerCache {DB : Type} (serverName : string) (this : t DB) : t DB :=
  match map_get (toolOutputCache this) serverName with
  | Some _ =>
      mk (serversInfo this) (map_set (toolOutputCache this) serverName [])
         (toolDatabase this) (log this)
  | None => this
  end.

End SandboxManagerImpl.

(** ** sandboxManager.ts (the earlier sandbox, without the output cache) *)

Module SandboxManager.
Import Js.

(** [Object.entries(properties)]: the members with their names; those of
    a string are its characters, given here byte by byte. *)
Definition entries (properties : JSON) : list (string * JSON) :=
  match properties with
  | JObj fields => fields
  | JArr items => imap (fun i item => (string_of_nat i, item)) items
  | JStr text =>
      imap (fun i c => (string_of_nat i, JStr (String c EmptyString)))
        (list_ascii_of_string text)
  | _ => []
  end.

(** [value.key] on a value that is not [null]: a member of an object, and
    [undefined] otherwise. *)
Definition member (value : JSON) (key : string) : JsValue :=
  match value with
  | JObj fields => get_prop fields key
  | _ => None
  end.

(** Whether one round of the loop over the parameters runs to its end: it
    reads [param.type] and [param.description], which throws on [null], and
    pastes each, when truthy, into the line. *)
Definition documents (param : JSON) : bool :=
  match param with
  | JNull => false
  | _ =>
      let pasted (v : JsValue) :=
        match v with
        | Some x => if truthy v then converts_to_string x else true
        | None => true
        end in
      pasted (member param "type") && pasted (member param "description")
  end.

(** Whether the loop of [generateToolFile] that writes the parameter lines
    runs to its end. With at least one parameter it calls [required.includes],
    which only an array and a string have. *)
Definition paramDocs_completes (inputSchema : JSON) : bool :=
  let properties := or_else (member inputSchema "properties") (JObj []) in
  let required := or_else (member inputSchema "required") (JArr []) in
  match entries properties with
  | [] => true
  | params =>
      match required with
      | JArr _ | JStr _ => forallb (fun param => documents (snd param)) params
      | _ => false
      end
  end.

(** The names the generated module binds or reads at its top level. *)
Definition module_names : list string := ["serversInfo"; "require"; "module"; "Error"].

Definition names_function (title : option string) : bool :=
  let name := MCPToolsParser.interpolate title in
  isIdentifier name && negb (existsb (String.eqb name) module_names).

(** The body of the function in the template of [generateToolFile], for
    the values [key] and [wire] of its string literals and [shown] of its
    template literals. *)
Definition exported (key shown wire : string)
    (serversInfo : JsMap ServerInfo.t) (args : JsValue) : Completion JSON :=
  match map_get serversInfo key with
  | None => Throws (newError ("Server " +:+ shown +:+ " not exist"))
  | Some serverInfo =>
      bind (Client.callTool (ServerInfo.client serverInfo) wire args)
           (fun response => Return (JObj response))
  end.

(** The function that the file written by [generateToolFile] exports, as in
    [SandboxManagerImpl]; [None] also when [generateToolFile] throws. *)
Definition generatedTool (serverName : string) (tool : Tool.t)
  : option (JsMap ServerInfo.t -> JsValue -> Completion JSON) :=
  if paramDocs_completes (Tool.inputSchema tool) && names_function (Tool.title tool) then
    match string_literal serverName, template_literal serverName,
          string_literal (Tool.name tool) with
    | Some key, Some shown, Some wire => Some (exported key shown wire)
    | _, _, _ => None
    end
  else None.

(** What running a script exports; nothing else changes while a promise of
    the script is awaited. *)
Definition ScriptValue := Script.Value unit.

(** [runCodeInSandbox(code)]; the [catch] logs and rethrows. *)
Definition runCodeInSandbox
    (vm_run : string -> JsMap ServerInfo.t -> Completion ScriptValue)
    (serversInfo : JsMap ServerInfo.t) (code : string) : Completion ScriptValue :=
  match vm_run code serversInfo with
  | Throws error => Throws error
  | Return result =>
      if Script.isThenable result then fst (Script.await result tt)
      else Return result
  end.

(** [createSendBox(serversInfo)], without the files it writes: the map the
    manager holds afterwards. The argument is another map than the manager's
    own, as in [start]. *)
Definition createSendBox (serversInfo : JsMap ServerInfo.t) : JsMap ServerInfo.t :=
  fold_left (fun m entry => map_set m (fst entry) (snd entry)) serversInfo [].

End SandboxManager.

(** ** The MCP response envelope (the SDK's [CallToolResult]) *)

Module Response.
Import Js.

Record ContentItem : Type := mkItem {
  type : string;
  text : option string
}.

(** [isError] is optional: [None] is a response without the field. *)
Record ToolResponse : Type := mk {
  content : list ContentItem;
  isError : option bool
}.

(** [{ content: [{ type: "text", text }] }] *)
Definition textResponse (text : option string) : ToolResponse :=
  {| content := [mkItem "text" text]; isError := None |}.

End Response.

(** ** application/handlers/ToolCallHandler.ts *)

Module ToolCallHandler.
Import Js.
Import Response.

(** A search hit of [IVectorStore]; the score is a float, kept abstract. *)
Record SearchResult (Score : Type) : Type := mkResult {
  serverName : string;
  toolName : string;
  description : string;
  score : Score
}.
Arguments mkResult {Score}.
Arguments serverName {Score}.
Arguments toolName {Score}.
Arguments description {Score}.
Arguments score {Score}.

(** [formatError]: [error.message || String(error)] under the prefix. The
    read of [error.message] comes first, and throws on [null] and
    [undefined]; the conversion to a text can throw too. *)
Definition formatError (error : Thrown) : Completion ToolResponse :=
  bind (read_message error) (fun message =>
  bind (match message with
        | Renders m => Return m
        | Unrenderable => Throws cannot_convert
        | Falsy => String_ error
        end) (fun errorMessage =>
  Return (textResponse (Some ("Error: " +:+ errorMessage))))).

Section Handler.
(** The state of the collaborators behind the four interfaces. *)
Variable World : Type.
Variable Score : Type.
(** [serverRegistry.getAllServers()] *)
Variable getAllServers : World -> JsMap ServerInfo.t.
(** [toolsParser.getServersOverview] and [toolsParser.getToolsOverview], the
    latter with whatever the [toolPaths] member of the arguments is *)
Variable getServersOverview : JsMap ServerInfo.t -> Completion string.
Variable getToolsOverview : JsMap ServerInfo.t -> JsValue -> Completion string.
(** [vectorStore.search(query, limit)] *)
Variable search : World -> string -> JSON -> Completion (list (SearchResult Score)).
(** [sandboxManager.execute(code)]; of the result, what [JSON.stringify] sees *)
Variable execute : string -> World -> Completion JsValue * World.
(** [score.toFixed(3)] and [JSON.stringify(value, null, 2)] *)
Variable toFixed3 : Score -> string.
Variable stringify_indented : JsValue -> Completion (option string).

(** No [try] here: what the parser throws, the handler throws. *)
Definition handleGetServersOverview (w : World) : Completion ToolResponse :=
  bind (getServersOverview (getAllServers w)) (fun overview =>
  Return (textResponse (Some overview))).

(** The destructuring of [args] stands before the [try]. *)
Definition handleGetToolsOverview (args : option JsObject) (w : World)
  : Completion ToolResponse :=
  bind (destructure args "toolPaths") (fun toolPaths =>
  try_catch
    (bind (getToolsOverview (getAllServers w) toolPaths)
          (fun toolsJson => Return (textResponse (Some toolsJson))))
    formatError).

Definition formatResult (r : SearchResult Score) : JSON :=
  JObj [("serverName", JStr (serverName r));
        ("toolName", JStr (toolName r));
        ("description", JStr (description r));
        ("similarityScore", JStr (toFixed3 (score r)));
        ("fullPath", JStr (serverName r +:+ "/" +:+ toolName r))].

Definition handleSemanticSearch (args : option JsObject) (w : World)
  : Completion ToolResponse :=
  bind (destructure args "query") (fun query =>
  bind (destructure args "limit") (fun limit =>
  let limit := default (JNum 5) limit in
  match query with
  | Some (JStr query) =>
      try_catch
        (bind (search w query limit) (fun results =>
         bind (stringify_indented (Some (JArr (map formatResult results)))) (fun text =>
         Return (textResponse text))))
        formatError
  | _ => Return (textResponse (Some "Error: query must be a string"))
  end)).

Definition handleRunCode (args : option JsObject) (w : World)
  : Completion ToolResponse * World :=
  match destructure args "code" with
  | Throws error => (Throws error, w)
  | Return (Some (JStr code)) =>
      let '(result, w) := execute code w in
      (try_catch
         (bind result (fun result =>
          bind (stringify_indented result) (fun content =>
          Return (textResponse content))))
         formatError,
       w)
  | Return _ => (Return (textResponse (Some "Error: code must be a string")), w)
  end.

End Handler.

End ToolCallHandler.

(** ** mcpOfMcps.ts (the earlier dispatcher) *)

Module McpOfMcps.
Import Js.
Import Response.

Definition not_initialized : ToolResponse :=
  textResponse
    (Some "Error: Tools parser not initialized. Please wait for the server to fully start.").

(** The body of the [try] of a [run_functions_code] call. *)
Definition runCode
    (runCodeInSandbox : string -> Completion JsValue)
    (stringify_indented : JsValue -> Completion (option string))
    (code : string) : Completion ToolResponse :=
  bind (runCodeInSandbox code) (fun result =>
  bind (stringify_indented result) (fun text =>
  Return (textResponse text))).

(** The [CallToolRequestSchema] handler of [setupHandlers]. [toolsParser] is
    the parser's map once [start] has set it; [runCodeInSandbox] and
    [stringify_indented] stand for the sandbox and [JSON.stringify(_, null, 2)].
    [args] is the [arguments] member of the request: an object, or
    [undefined]. *)
Definition callToolHandler
    (toolsParser : option (JsMap ServerInfo.t))
    (runCodeInSandbox : string -> Completion JsValue)
    (stringify_indented : JsValue -> Completion (option string))
    (name : string) (args : option JsObject) : Completion ToolResponse :=
  if String.eqb name "get_mcps_servers_overview" then
    match toolsParser with
    | None => Return not_initialized
    | Some serversInfo =>
        Return (textResponse (Some (MCPToolsParser.getServersOverview serversInfo)))
    end
  else if String.eqb name "get_tools_overview" then
    match toolsParser with
    | None => Return not_initialized
    | Some serversInfo =>
        bind (read_member args "toolPaths") (fun toolPaths =>
        match toolPaths with
        | Some (JArr items) =>
            bind (fst (MCPToolsParser.getToolsOverview_array serversInfo items))
                 (fun toolsJson => Return (textResponse (Some toolsJson)))
        | _ => Return (textResponse (Some "Error: toolPaths must be an array of strings"))
        end)
    end
  else if String.eqb name "run_functions_code" then
    bind (read_member args "code") (fun code =>
    match code with
    | Some (JStr code) =>
        try_catch
          (runCode runCodeInSandbox stringify_indented code)
          (fun error =>
             bind (ServersRegistry.errorMessage error) (fun errorMessage =>
             Return (textResponse (Some ("Error executing code: " +:+ errorMessage)))))
    | _ => Return (textResponse (Some "Error: code must be a string"))
    end)
  else Return (textResponse (Some ("Tool '" +:+ name +:+ "' not found"))).

(** The fields of [McpOfMcps] that [start] sets. The parser is given the
    registry's own map, so it is kept here as a flag and read through the
    registry. *)
Record t : Type := mk {
  serversRegistry : ServersRegistry.t;
  toolsParser_set : bool;
  sandboxManager : JsMap ServerInfo.t
}.

(** [this.toolsParser]: the registry's map once the parser exists. *)
Definition toolsParser (this : t) : option (JsMap ServerInfo.t) :=
  if toolsParser_set this then Some (ServersRegistry.getAllServers (serversRegistry this))
  else None.

(** [start()], from the moment the connections are made up to the moment the
    transport is bound; [mcpConnection] holds the connections that were made. *)
Definition start (convertToolName : string -> string) (mcpConnection : JsMap Client.t)
    (schedule : list (string * Client.t) -> list (string * Client.t)) (this : t) : t :=
  let registry :=
    ServersRegistry.registerAllServers convertToolName mcpConnection schedule
      (serversRegistry this) in
  let sandbox := SandboxManager.createSendBox (ServersRegistry.getAllServers registry) in
  let registry :=
    ServersRegistry.console_error registry
      (LogText ("MCP Of MCPS started with "
                +:+ string_of_nat (ServersRegistry.getServerCount registry)
                +:+ " mcps servers")) in
  mk registry true sandbox.

(** A [CallTool] request as the running server answers it. *)
Definition handleCallTool (this : t)
    (runCodeInSandbox : string -> Completion JsValue)
    (stringify_indented : JsValue -> Completion (option string))
    (name : string) (args : option JsObject) : Completion ToolResponse :=
  callToolHandler (toolsParser this) runCodeInSandbox stringify_indented name args.

End McpOfMcps.

(** ** presentation/prompts/PromptDefinitions.ts *)

Module PromptDefinitions.
Import Js.

Definition SERVERS_OVERVIEW_ADDITIONAL_ANS : string :=
  newline
  +:+ "Note: If you want to use any tools from the list first find out how to use in using the "
  +:+ dquote +:+ "get_tools_overview" +:+ dquote +:+ " tool." +:+ newline.

End PromptDefinitions.

(** ** The wording of the specification, for comparison with the code *)

Module SpecWording.
Import Js.

#[global] Instance by_name_dec {V : Type} :
  RelDecision (fun a b : string * V => str_le (fst a) (fst b)).
Proof. intros a b. apply _. Defined.

(** Section 4.6 on [getServersOverview], word for word: for each server,
    sorted by name, one header line with the instructions if any, followed by
    one line per tool, sorted by title; then the standing hint. *)
Definition getServersOverview_spec (serversInfo : JsMap ServerInfo.t) : string :=
  join newline
    (flat_map
       (fun entry : string * ServerInfo.t =>
          let '(serverName, serverInfo) := entry in
          ("# " +:+ serverName +:+ " mcp server instructions: "
           +:+ default EmptyString (Client.getInstructions (ServerInfo.client serverInfo)))
          :: map (fun title => serverName +:+ "/" +:+ title)
               (sort (map (fun tool => MCPToolsParser.interpolate (Tool.title tool))
                        (ServerInfo.tools serverInfo))))
       (merge_sort (fun a b => str_le (fst a) (fst b)) serversInfo))
  +:+ PromptDefinitions.SERVERS_OVERVIEW_ADDITIONAL_ANS.

(** Section 4.7 on the envelope a stub returns, with [??] as written there. *)
Definition envelope_spec (serverName toolName : string) (rawResponse : JsObject) : JSON :=
  JObj [("content", nullish_else (get_prop rawResponse "content") (JArr []));
        ("isError", nullish_else (get_prop rawResponse "isError") (JBool false));
        ("_meta", JObj [("serverName", JStr serverName); ("toolName", JStr toolName)])].

End SpecWording.

(** ** Notions the properties are stated with *)

Module Vocabulary.
Import Js.

(** [value.key] of a JSON value that is an object. *)
Definition json_prop (value : JSON) (key : string) : JsValue :=
  match value with
  | JObj fields => map_get fields key
  | _ => None
  end.

(** A tool path that splits in two and names a registered server. *)
Definition resolvable (serversInfo : JsMap ServerInfo.t) (toolPath : string) : bool :=
  match split "/" toolPath with
  | [serverName; _] => map_has serversInfo serverName
  | _ => false
  end.

(** The element a tool path contributes to the result, if its tool exists. *)
Definition found (serversInfo : JsMap ServerInfo.t) (toolPath : string) : list JSON :=
  match split "/" toolPath with
  | [serverName; toolName] =>
      match map_get serversInfo serverName with
      | Some serverInfo =>
          match find (MCPToolsParser.title_is toolName) (ServerInfo.tools serverInfo) with
          | Some tool => [MCPToolsParser.withExampleUsage serverName tool]
          | None => []
          end
      | None => []
      end
  | _ => []
  end.

(** The warning a tool path causes, if its server has no such tool. *)
Definition warning (serversInfo : JsMap ServerInfo.t) (toolPath : string) : list LogEntry :=
  match split "/" toolPath with
  | [serverName; toolName] =>
      match map_get serversInfo serverName with
      | Some serverInfo =>
          match find (MCPToolsParser.title_is toolName) (ServerInfo.tools serverInfo) with
          | Some _ => []
          | None => [LogText ("Error: Tool '" +:+ toolName +:+ "' not found in server '"
                              +:+ serverName +:+ "'")]
          end
      | None => []
      end
  | _ => []
  end.

(** A response typed as the SDK's [CallToolResult]: [content], when present,
    is an array, and [isError], when present, a boolean. *)
Definition isCallToolResult (response : JsObject) : bool :=
  match get_prop response "content" with
  | None => true
  | Some (JArr _) => true
  | Some _ => false
  end
  &&
  match get_prop response "isError" with
  | None => true
  | Some (JBool _) => true
  | Some _ => false
  end.

(** The captured outputs in the order the drain visits them. *)
Definition captured (cache : SandboxManagerImpl.Cache)
  : list (string * SandboxManagerImpl.CacheEntry) :=
  flat_map (fun bucket => map (fun entry => (fst bucket, entry)) (snd bucket)) cache.

(** The tool a server's info holds under a wire name. *)
Definition inMemoryTool (serversInfo : JsMap ServerInfo.t) (serverName toolName : string)
  : option Tool.t :=
  match map_get serversInfo serverName with
  | Some serverInfo =>
      find (fun tool => String.eqb (Tool.name tool) toolName) (ServerInfo.tools serverInfo)
  | None => None
  end.

(** What a run comes to once a thenable export has been awaited. *)
Definition settled (run : Completion SandboxManagerImpl.ScriptValue * SandboxManagerImpl.Cache)
  : Completion SandboxManagerImpl.ScriptValue * SandboxManagerImpl.Cache :=
  match run with
  | (Throws error, cache) => (Throws error, cache)
  | (Return result, cache) =>
      if Script.isThenable result then Script.await result cache else (Return result, cache)
  end.

(** A text that stands for itself wherever the tool templates paste it:
    it holds no quote, backslash, backtick, dollar sign or line break. *)
Definition pastes_as_itself (text : string) : bool :=
  all_chars
    (fun c =>
       negb (Ascii.eqb c quote_char || Ascii.eqb c backslash_char || Ascii.eqb c backtick_char
             || Ascii.eqb c "$" || Ascii.eqb c newline_char || Ascii.eqb c return_char))
    text.

(** A server and a tool whose names stand for themselves in the text of the
    tool's file, the title naming the function. *)
Definition pasted_intact (serverName : string) (tool : Tool.t) : bool :=
  pastes_as_itself serverName && pastes_as_itself (Tool.name tool)
  && SandboxManagerImpl.names_function (Tool.title tool).

(** A thrown value for which [formatError] has no words: [null] and
    [undefined], and an object whose [message], or whose own text when it has
    no [message], does not convert to a text. *)
Definition wordless (error : Thrown) : bool :=
  match error with
  | ThrownNull | ThrownUndefined => true
  | ThrownObject Unrenderable _ => true
  | ThrownObject Falsy None => true
  | _ => false
  end.

(** A handler that throws, if at all, what [formatError] throws on a value
    of that kind. *)
Definition throws_only_wordless (response : Completion Response.ToolResponse) : Prop :=
  is_Throws response = true ->
  exists error, wordless error = true /\ response = ToolCallHandler.formatError error.

(** Whether a string holds the character. *)
Fixpoint contains (c : ascii) (s : string) : bool :=
  match s with
  | EmptyString => false
  | String a rest => Ascii.eqb a c || contains c rest
  end.

(** A tool without its output schema: what the drain never touches. *)
Definition erase_outputSchema (tool : Tool.t) : Tool.t :=
  Tool.mk (Tool.name tool) (Tool.title tool) (Tool.description tool) (Tool.inputSchema tool) None.

Definition erase_outputSchemas (serverInfo : ServerInfo.t) : ServerInfo.t :=
  ServerInfo.mk (ServerInfo.name serverInfo) (ServerInfo.client serverInfo)
    (map erase_outputSchema (ServerInfo.tools serverInfo)).

(** The servers' infos with every output schema taken out. *)
Definition erased (serversInfo : JsMap ServerInfo.t) : JsMap ServerInfo.t :=
  map (fun entry => (fst entry, erase_outputSchemas (snd entry))) serversInfo.

(** How often a string holds the character. *)
Fixpoint count (c : ascii) (s : string) : nat :=
  match s with
  | EmptyString => 0
  | String a rest => (if Ascii.eqb a c then 1 else 0) + count c rest
  end.

(** A captured output from which a schema is derived. *)
Definition derivable (convertOutputToSchema : JSON -> Completion JsValue)
    (entry : SandboxManagerImpl.CacheEntry) : bool :=
  match convertOutputToSchema (SandboxManagerImpl.output entry) with
  | Return outputSchema => truthy outputSchema
  | Throws _ => false
  end.

(** The cache without the outputs from which no schema is derived. *)
Definition only_derivable (convertOutputToSchema : JSON -> Completion JsValue)
    (cache : SandboxManagerImpl.Cache) : SandboxManagerImpl.Cache :=
  map (fun bucket => (fst bucket, List.filter (derivable convertOutputToSchema) (snd bucket)))
    cache.

(** The connected servers whose [listTools] answers, with the info a
    registration stores for each. *)
Definition answering (convertToolName : string -> string) (connections : JsMap Client.t)
  : JsMap ServerInfo.t :=
  omap (fun entry : string * Client.t =>
          pair (fst entry) <$> ServersRegistry.registered convertToolName (fst entry) (snd entry))
       connections.

End Vocabulary.

(** ** Concrete servers, used as test data *)

Module Fixtures.
Import Js.

Definition object_schema : JSON := JObj [("type", JStr "object")].

Definition get_forecast : Tool.t :=
  Tool.mk "get_forecast" None (Some "weather predictions") object_schema None.
Definition get_alerts : Tool.t :=
  Tool.mk "get_alerts" None (Some "weather alerts") object_schema None.
Definition now : Tool.t :=
  Tool.mk "now" None (Some "current time") object_schema None.
Definition read_file : Tool.t :=
  Tool.mk "read-file" None (Some "read a file") object_schema None.

Definition sunny : JsObject :=
  [("content", JArr [JObj [("type", JStr "text"); ("text", JStr "sunny")]])].

Definition weather_client : Client.t :=
  Client.mk (Return [get_forecast; get_alerts]) (Some "Forecasts") (fun _ _ => Return sunny).
Definition time_client : Client.t :=
  Client.mk (Return [now]) (Some "Time tools") (fun _ _ => Return []).
Definition files_client : Client.t :=
  Client.mk (Return [read_file]) None (fun _ _ => Return []).
Definition offline_client : Client.t :=
  Client.mk (Throws (newError "timeout")) None (fun _ _ => Throws (newError "timeout")).

(** A tool whose wire name holds a backslash before the letter n, and a
    server that knows it under that name only. *)
Definition slashed : Tool.t :=
  Tool.mk "a\nb" (Some "a_nb") None object_schema None.
Definition strict_client : Client.t :=
  Client.mk (Return [slashed]) None
    (fun name _ =>
       if String.eqb name "a\nb" then Return sunny else Throws (newError "Unknown tool")).

(** A server whose answer is no [CallToolResult]: [content] is the empty
    string and [isError] the number 0. *)
Definition ping : Tool.t := Tool.mk "ping" (Some "ping") None object_schema None.
Definition untyped : JsObject := [("content", JStr EmptyString); ("isError", JNum 0)].
Definition untyped_client : Client.t :=
  Client.mk (Return [ping]) None (fun _ _ => Return untyped).

Definition odd_servers : JsMap ServerInfo.t :=
  [("strict", ServerInfo.mk "strict" strict_client [slashed]);
   ("untyped", ServerInfo.mk "untyped" untyped_client [ping])].

(** A stand-in for [convertToolName]: dashes become underscores. *)
Fixpoint convertToolName (name : string) : string :=
  match name with
  | EmptyString => EmptyString
  | String c rest =>
      String (if Ascii.eqb c "-" then "_"%char else c) (convertToolName rest)
  end.

Definition connections : JsMap Client.t :=
  [("weather", weather_client); ("offline", offline_client); ("time", time_client);
   ("files", files_client)].

Definition empty_registry : ServersRegistry.t := ServersRegistry.mk [] [].

(** The registry after [registerAllServers] over [connections], the pending
    registrations resuming last started first. *)
Definition registry : ServersRegistry.t :=
  ServersRegistry.registerAllServers convertToolName connections (@rev _) empty_registry.

Definition servers : JsMap ServerInfo.t := ServersRegistry.serversInfo registry.

(** A store with an original schema for weather/get_forecast and rows
    without a schema yet for the other tools. *)
Definition original_row : ToolDatabase.Row :=
  ToolDatabase.mkRow (Some "{}") true 0.
Definition empty_row : ToolDatabase.Row :=
  ToolDatabase.mkRow None false 0.

Definition database : ToolDatabase.ServersToolDatabaseImpl :=
  ToolDatabase.mkDb
    (<[("weather", "get_forecast") := original_row]>
       (<[("weather", "get_alerts") := empty_row]>
          (<[("time", "now") := empty_row]> ∅)))
    1.

(** A stand-in for [convertOutputToSchema]: every output is an object. *)
Definition convertOutputToSchema (output : JSON) : Completion JsValue :=
  Return (Some object_schema).

(** The sandbox after [initialize]. *)
Definition sandbox : SandboxManagerImpl.t ToolDatabase.ServersToolDatabaseImpl :=
  SandboxManagerImpl.initialize servers (SandboxManagerImpl.mk [] [] database []).

(** The tool files of weather/get_forecast and time/now, as a script
    gets them from [require]. *)
Definition load (serverName : string) (tool : Tool.t)
  : JsMap ServerInfo.t -> JsValue -> SandboxManagerImpl.Cache
    -> Completion JSON * SandboxManagerImpl.Cache :=
  default (fun _ _ cache => (Throws (ErrorObj "SyntaxError" "Unexpected token"), cache))
    (SandboxManagerImpl.generatedTool serverName tool).

Definition call_get_forecast := load "weather" (Tool.set_title get_forecast "get_forecast").
Definition call_now := load "time" (Tool.set_title now "now").

(** A promise: an object whose [then] is a function. *)
Definition promise
    (settle : SandboxManagerImpl.Cache
              -> Completion SandboxManagerImpl.ScriptValue * SandboxManagerImpl.Cache)
  : SandboxManagerImpl.ScriptValue :=
  Script.Object [("then", Script.Func settle)].

(** Five scripts: one exports a number, one an object whose [then] is a
    number, one the promise of two tool calls, one throws [null], and one
    exports a promise that rejects after a tool call. *)
Definition vm_run (code : string) (serversInfo : JsMap ServerInfo.t)
    (cache : SandboxManagerImpl.Cache)
  : Completion SandboxManagerImpl.ScriptValue * SandboxManagerImpl.Cache :=
  if String.eqb code "module.exports = 42;" then
    (Return (Script.Plain (Some (JNum 42))), cache)
  else if String.eqb code "module.exports = { then: 5 };" then
    (Return (Script.Plain (Some (JObj [("then", JNum 5)]))), cache)
  else if String.eqb code "calls" then
    (Return (promise (fun cache =>
       let '(_, cache) := call_get_forecast serversInfo None cache in
       let '(r, cache) := call_now serversInfo None cache in
       (bind r (fun envelope => Return (Script.Plain (Some envelope))), cache))), cache)
  else if String.eqb code "throw null;" then
    (Throws ThrownNull, cache)
  else
    (Return (promise (fun cache =>
       let '(_, cache) := call_now serversInfo None cache in
       (Throws (newError "boom"), cache))), cache).

(** A stand-in for [JSON.stringify(value, null, 2)]: no indentation. *)
Definition stringify_indented (value : JsValue) : Completion (option string) :=
  Return (stringify <$> value).

(** What [JSON.stringify] sees of a result: the members that are data. *)
Definition as_json (result : SandboxManagerImpl.ScriptValue) : JsValue :=
  match result with
  | Script.Plain v => v
  | Script.Object members =>
      Some (JObj (omap (fun member =>
                          match snd member with
                          | Script.Data v => Some (fst member, v)
                          | Script.Func _ => None
                          end) members))
  end.

(** [execute] of the fixture sandbox, as a handler sees it. *)
Definition execute (code : string)
    (sandbox : SandboxManagerImpl.t ToolDatabase.ServersToolDatabaseImpl)
  : Completion JsValue * SandboxManagerImpl.t ToolDatabase.ServersToolDatabaseImpl :=
  let '(result, sandbox) :=
    SandboxManagerImpl.execute convertOutputToSchema vm_run code sandbox in
  (bind result (fun result => Return (as_json result)), sandbox).

(** The arguments of a [run_functions_code] request. *)
Definition run (code : string) : option JsObject := Some [("code", JStr code)].

(** [handleRunCode] over the fixture sandbox. *)
Definition handleRunCode (args : option JsObject)
    (sandbox : SandboxManagerImpl.t ToolDatabase.ServersToolDatabaseImpl) :=
  ToolCallHandler.handleRunCode _ execute stringify_indented args sandbox.

(** The parser behind the handler's interface, for the arrays the requests
    here carry. *)
Definition getToolsOverview (serversInfo : JsMap ServerInfo.t) (toolPaths : JsValue)
  : Completion string :=
  match toolPaths with
  | Some (JArr items) => fst (MCPToolsParser.getToolsOverview_array serversInfo items)
  | _ => Throws (TypeError "toolPaths is not iterable")
  end.

End Fixtures.

(** * Properties *)

(** ** Facts about the JS model *)

Module JsFacts.
Import Js.

Section JsMapFacts.
Context {V : Type}.
Implicit Types (m : JsMap V) (k : string) (v : V).

Lemma map_get_set_eq m k v : map_get (map_set m k v) k = Some v.
Proof.
  induction m as [|[k' x] m IH]; simpl.
  - by rewrite String.eqb_refl.
  - destruct (String.eqb k' k) eqn:E; simpl; rewrite E; auto.
Qed.

Lemma map_get_set_ne m k k' v : k <> k' -> map_get (map_set m k v) k' = map_get m k'.
Proof.
  intros Hne. induction m as [|[k0 x] m IH]; simpl.
  - apply String.eqb_neq in Hne. by rewrite Hne.
  - destruct (String.eqb k0 k) eqn:E; simpl.
    + apply String.eqb_eq in E. subst k0.
      apply String.eqb_neq in Hne. by rewrite Hne.
    + by rewrite IH.
Qed.

Lemma map_get_set m k k' v :
  map_get (map_set m k v) k' = if String.eqb k k' then Some v else map_get m k'.
Proof.
  destruct (String.eqb k k') eqn:E.
  - apply String.eqb_eq in E. subst. apply map_get_set_eq.
  - apply String.eqb_neq in E. by apply map_get_set_ne.
Qed.

Lemma map_get_Some_elem m k v : map_get m k = Some v -> (k, v) ∈ m.
Proof.
  induction m as [|[k' x] m IH]; simpl; [done|].
  destruct (String.eqb k' k) eqn:E.
  - apply String.eqb_eq in E. intros [= ->]. subst. apply elem_of_cons. by left.
  - intros Hg. apply elem_of_cons. right. auto.
Qed.

Lemma map_get_None_keys m k : map_get m k = None <-> k ∉ map_keys m.
Proof.
  unfold map_keys. induction m as [|[k' x] m IH]; simpl.
  - split; [intros _; apply not_elem_of_nil | done].
  - rewrite not_elem_of_cons. destruct (String.eqb k' k) eqn:E.
    + apply String.eqb_eq in E. subst. split; [done | intros [? _]; done].
    + apply String.eqb_neq in E. rewrite IH. split; [intros ?; split; auto | intros [_ ?]; done].
Qed.

Lemma map_get_elem_NoDup m k v : NoDup (map_keys m) -> (k, v) ∈ m -> map_get m k = Some v.
Proof.
  unfold map_keys. induction m as [|[k' x] m IH]; simpl.
  - intros _ Hin. by apply elem_of_nil in Hin.
  - intros Hnd Hin. apply NoDup_cons in Hnd as [Hnotin Hnd].
    apply elem_of_cons in Hin as [Heq | Hin].
    + injection Heq as -> ->. by rewrite String.eqb_refl.
    + destruct (String.eqb k' k) eqn:E.
      * apply String.eqb_eq in E. subst k'. exfalso. apply Hnotin.
        apply (list_elem_of_fmap_2 fst) in Hin. exact Hin.
      * auto.
Qed.

(** With distinct keys, the order of the entries does not matter to a lookup. *)
Lemma map_get_Permutation m m' k :
  NoDup (map_keys m) -> m ≡ₚ m' -> map_get m k = map_get m' k.
Proof.
  intros Hnd Hperm.
  assert (Hnd' : NoDup (map_keys m')).
  { unfold map_keys in *. by rewrite <- (Permutation_map fst Hperm). }
  destruct (map_get m k) as [v|] eqn:E.
  - symmetry. apply map_get_elem_NoDup; [done|].
    rewrite <- Hperm. by apply map_get_Some_elem.
  - destruct (map_get m' k) as [v'|] eqn:E'; [|done].
    apply map_get_Some_elem in E'. rewrite <- Hperm in E'.
    apply map_get_elem_NoDup in E'; [congruence | done].
Qed.

Lemma map_has_true m k : map_has m k = true <-> exists v, map_get m k = Some v.
Proof.
  unfold map_has. destruct (map_get m k); split; eauto; try done.
  intros [? ?]; done.
Qed.

Lemma map_has_false m k : map_has m k = false <-> map_get m k = None.
Proof. unfold map_has. destruct (map_get m k); split; done. Qed.

End JsMapFacts.

End JsFacts.

(** ** [split] against concatenation *)

Module SplitFacts.
Import Js Vocabulary.

Lemma split_not_nil c s : split c s <> [].
Proof.
  destruct s as [|a s]; simpl; [done|].
  destruct (Ascii.eqb a c); [done|]. by destruct (split c s).
Qed.

Lemma split_length c s : length (split c s) = S (count c s).
Proof.
  induction s as [|a s IH]; simpl; [done|].
  destruct (Ascii.eqb a c); simpl; [by rewrite IH|].
  destruct (split c s) eqn:E; [by apply split_not_nil in E|]. simpl in *. done.
Qed.

Lemma count_app c a b : count c (a +:+ b) = count c a + count c b.
Proof. induction a as [|x a IH]; simpl; [done|]. rewrite IH. lia. Qed.

Lemma count_contains c s : contains c s = true -> 1 <= count c s.
Proof.
  induction s as [|a s IH]; simpl; [done|].
  destruct (Ascii.eqb a c); simpl; [lia | auto].
Qed.

Lemma split_without c s : contains c s = false -> split c s = [s].
Proof.
  induction s as [|a s IH]; simpl; [done|].
  destruct (Ascii.eqb a c); simpl; [done|]. intros Hs. by rewrite IH.
Qed.

(** A name, the separator, and the rest: the name is the first part. *)
Lemma split_app c a b :
  contains c a = false -> split c (a +:+ String c b) = a :: split c b.
Proof.
  induction a as [|x a IH]; simpl.
  - by rewrite Ascii.eqb_refl.
  - destruct (Ascii.eqb x c); simpl; [done|]. intros Ha. by rewrite IH.
Qed.

(** [parts.join(c)] undoes [s.split(c)]. *)
Lemma join_split c s : join (String c EmptyString) (split c s) = s.
Proof.
  unfold join. induction s as [|a s IH]; simpl; [done|].
  destruct (Ascii.eqb a c) eqn:E.
  - apply Ascii.eqb_eq in E. subst a.
    destruct (split c s) eqn:Es; [by apply split_not_nil in Es|].
    simpl in *. by rewrite IH.
  - destruct (split c s) as [|x xs] eqn:Es; [by apply split_not_nil in Es|].
    simpl in *. destruct xs; simpl in *; by rewrite <- IH.
Qed.

(** [s.split(c)] undoes [parts.join(c)] when no part holds the separator. *)
Lemma split_join c (parts : list string) :
  parts <> [] ->
  Forall (fun part => contains c part = false) parts ->
  split c (join (String c EmptyString) parts) = parts.
Proof.
  unfold join. induction parts as [|part parts IH]; [done|]. intros _ Hparts.
  apply Forall_cons in Hparts as [Hpart Hparts].
  destruct parts as [|part' parts].
  - simpl. by apply split_without.
  - change (String.concat (String c EmptyString) (part :: part' :: parts))
      with (part +:+ String c (String.concat (String c EmptyString) (part' :: parts))).
    rewrite split_app by done. f_equal. by apply IH.
Qed.

End SplitFacts.

(** ** serversRegistry.ts: registration and lookup *)

Module RegistryProofs.
Import Js JsFacts ServersRegistry.

Section Registration.
Variable convertToolName : string -> string.
Variable mcpConnection : JsMap Client.t.

Local Abbreviation guards := (registerServer_guards mcpConnection).
Local Abbreviation resume := (registerServer_resume convertToolName).
Local Abbreviation step := (resume_and_catch convertToolName).
Local Abbreviation registered := (ServersRegistry.registered convertToolName).

Lemma resume_serversInfo serverName client this :
  serversInfo (snd (resume serverName client this)) =
  match registered serverName client with
  | Some serverInfo => map_set (serversInfo this) serverName serverInfo
  | None => serversInfo this
  end.
Proof.
  unfold registerServer_resume, registered.
  destruct (Client.listTools client) as [tools|error]; [done|]. by destruct (errorMessage error).
Qed.

Lemma resume_outcome serverName client this :
  is_Throws (fst (resume serverName client this)) =
  match registered serverName client with Some _ => false | None => true end.
Proof.
  unfold registerServer_resume, registered.
  destruct (Client.listTools client) as [tools|error]; [done|]. by destruct (errorMessage error).
Qed.

Lemma catch_failure_serversInfo serverName r :
  serversInfo (catch_failure serverName r) = serversInfo (snd r).
Proof. by destruct r as [[?|?] ?]. Qed.

Lemma step_get this serverName client k :
  map_get (serversInfo (step this (serverName, client))) k =
  match registered serverName client with
  | Some serverInfo => if String.eqb serverName k then Some serverInfo
                       else map_get (serversInfo this) k
  | None => map_get (serversInfo this) k
  end.
Proof.
  unfold resume_and_catch. rewrite catch_failure_serversInfo, resume_serversInfo. simpl.
  destruct (registered serverName client); [apply map_get_set | done].
Qed.

(** The registrations that resume, in any order with distinct names. *)
Lemma fold_step_get (l : JsMap Client.t) this k :
  NoDup (map_keys l) ->
  map_get (serversInfo (fold_left step l this)) k =
  match map_get l k with
  | Some client =>
      match registered k client with
      | Some serverInfo => Some serverInfo
      | None => map_get (serversInfo this) k
      end
  | None => map_get (serversInfo this) k
  end.
Proof.
  revert this. induction l as [|[n c] l IH]; intros this Hnd; simpl; [done|].
  unfold map_keys in Hnd. simpl in Hnd. apply NoDup_cons in Hnd as [Hnotin Hnd].
  rewrite (IH _ Hnd), step_get.
  destruct (String.eqb n k) eqn:E.
  - apply String.eqb_eq in E. subst n.
    assert (map_get l k = None) as -> by by apply map_get_None_keys.
    by destruct (registered k c).
  - destruct (map_get l k) as [c'|]; destruct (registered n c); done.
Qed.

Lemma started_pending_get this (connections : JsMap Client.t) k :
  map_get (snd (started mcpConnection this connections)) k =
  match map_get connections k with
  | Some _ => match guards this k with Return client => Some client | Throws _ => None end
  | None => None
  end.
Proof.
  induction connections as [|[n c] l IH]; simpl; [done|].
  destruct (started mcpConnection this l) as [rejected pending]. simpl in IH.
  destruct (String.eqb n k) eqn:E.
  - apply String.eqb_eq in E. subst n.
    destruct (guards this k) as [client|error] eqn:G; simpl.
    + by rewrite String.eqb_refl.
    + rewrite IH. by destruct (map_get l k).
  - destruct (guards this n) as [client|error]; simpl; [rewrite E|]; exact IH.
Qed.

Lemma started_pending_keys this (connections : JsMap Client.t) k :
  k ∈ map_keys (snd (started mcpConnection this connections)) -> k ∈ map_keys connections.
Proof.
  unfold map_keys. induction connections as [|[n c] l IH]; simpl; [done|].
  destruct (started mcpConnection this l) as [rejected pending]. simpl in IH.
  destruct (guards this n); simpl; rewrite ?elem_of_cons; intuition.
Qed.

Lemma started_pending_NoDup this (connections : JsMap Client.t) :
  NoDup (map_keys connections) -> NoDup (map_keys (snd (started mcpConnection this connections))).
Proof.
  induction connections as [|[n c] l IH]; simpl; [done|].
  unfold map_keys. simpl. intros [Hnotin Hnd]%NoDup_cons.
  pose proof (started_pending_keys this l n) as Hk.
  destruct (started mcpConnection this l) as [rejected pending]. simpl in *.
  destruct (guards this n); simpl; [|by apply IH].
  apply NoDup_cons. split; [|by apply IH]. intros Hin. by apply Hnotin, Hk.
Qed.

Lemma started_rejected_elem this (connections : JsMap Client.t) k error :
  k ∈ map_keys connections -> guards this k = Throws error ->
  (k, error) ∈ fst (started mcpConnection this connections).
Proof.
  unfold map_keys. induction connections as [|[n c] l IH]; simpl.
  - intros Hin. by apply elem_of_nil in Hin.
  - intros Hin G. destruct (started mcpConnection this l) as [rejected pending]. simpl in IH.
    apply elem_of_cons in Hin as [<- | Hin].
    + rewrite G. simpl. apply elem_of_cons. by left.
    + destruct (guards this n); simpl; [|apply elem_of_cons; right]; by apply IH.
Qed.

Lemma started_pending_elem this (connections : JsMap Client.t) k client :
  k ∈ map_keys connections -> guards this k = Return client ->
  (k, client) ∈ snd (started mcpConnection this connections).
Proof.
  unfold map_keys. induction connections as [|[n c] l IH]; simpl.
  - intros Hin. by apply elem_of_nil in Hin.
  - intros Hin G. destruct (started mcpConnection this l) as [rejected pending]. simpl in IH.
    apply elem_of_cons in Hin as [<- | Hin].
    + rewrite G. simpl. apply elem_of_cons. by left.
    + destruct (guards this n); simpl; [apply elem_of_cons; right|]; by apply IH.
Qed.

(** *** The log only grows *)

Lemma step_log this p x : x ∈ log this -> x ∈ log (step this p).
Proof.
  unfold resume_and_catch, registerServer_resume, catch_failure, console_error.
  destruct (Client.listTools p.2) as [tools|error]; simpl; rewrite ?elem_of_app; auto.
  destruct (errorMessage error); simpl; rewrite ?elem_of_app; auto.
Qed.

Lemma fold_step_log l this x : x ∈ log this -> x ∈ log (fold_left step l this).
Proof. revert this. induction l as [|p l IH]; simpl; auto using step_log. Qed.

Lemma fold_step_logs_failure l this serverName client error :
  (serverName, client) ∈ l ->
  fst (resume serverName client this) = Throws error ->
  failure_entry serverName error ∈ log (fold_left step l this).
Proof.
  revert this. induction l as [|p l IH]; intros this Hin Hr; simpl.
  - by apply elem_of_nil in Hin.
  - apply elem_of_cons in Hin as [<- | Hin].
    + apply fold_step_log. revert Hr.
      unfold resume_and_catch, registerServer_resume, catch_failure, console_error. simpl.
      destruct (Client.listTools client) as [tools|e]; simpl; [done|].
      destruct (errorMessage e); simpl; intros [= <-]; apply elem_of_app; right;
        by apply list_elem_of_singleton.
    + apply IH; [done|]. revert Hr. unfold registerServer_resume.
      destruct (Client.listTools client) as [tools|e]; [done|]. by destruct (errorMessage e).
Qed.

Local Abbreviation reject :=
  (fun (this : t) (r : string * Thrown) => catch_failure (fst r) (Throws (snd r), this)).

Lemma fold_reject_serversInfo (l : list (string * Thrown)) this :
  serversInfo (fold_left reject l this) = serversInfo this.
Proof. revert this. induction l as [|r l IH]; intros this; simpl; [done|]. by rewrite IH. Qed.

Lemma fold_reject_log (l : list (string * Thrown)) this x :
  x ∈ log this -> x ∈ log (fold_left reject l this).
Proof.
  revert this. induction l as [|r l IH]; intros this Hin; simpl; [done|].
  apply IH. simpl. apply elem_of_app. by left.
Qed.

Lemma fold_reject_logs_failure (l : list (string * Thrown)) this serverName error :
  (serverName, error) ∈ l -> failure_entry serverName error ∈ log (fold_left reject l this).
Proof.
  revert this. induction l as [|r l IH]; intros this Hin; simpl.
  - by apply elem_of_nil in Hin.
  - apply elem_of_cons in Hin as [<- | Hin]; [|by apply IH].
    apply fold_reject_log. simpl. apply elem_of_app. right. by apply list_elem_of_singleton.
Qed.

(** C9. [registerServer] throws when the server is already registered, when
    no connection exists for it and when the downstream [listTools] fails, and
    whenever it throws the registry's map is what it was. [registerAllServers],
    in whatever order the pending registrations resume, leaves under each name
    what was there before or, for a connected server not yet registered, the
    server's info exactly when its [listTools] succeeded; each registration
    that fails is logged with its error, and the others still register. *)
Theorem registerServer_failure_adds_no_entry
    (schedule : list (string * Client.t) -> list (string * Client.t)) (this : t) :
  (forall l, schedule l ≡ₚ l) ->
  NoDup (map_keys mcpConnection) ->
  (forall serverName,
     let r := registerServer convertToolName mcpConnection serverName this in
     (map_has (serversInfo this) serverName = true -> is_Throws (fst r) = true) /\
     (map_get mcpConnection serverName = None -> is_Throws (fst r) = true) /\
     (forall client error,
        map_has (serversInfo this) serverName = false ->
        map_get mcpConnection serverName = Some client ->
        Client.listTools client = Throws error -> is_Throws (fst r) = true) /\
     (is_Throws (fst r) = true -> serversInfo (snd r) = serversInfo this)) /\
  (let this' := registerAllServers convertToolName mcpConnection schedule this in
   (forall k,
      map_get (serversInfo this') k =
      match map_get (serversInfo this) k with
      | Some serverInfo => Some serverInfo
      | None =>
          match map_get mcpConnection k with
          | Some client =>
              match Client.listTools client with
              | Return tools =>
                  Some (ServerInfo.mk k client (assignTitles convertToolName tools))
              | Throws _ => None
              end
          | None => None
          end
      end) /\
   (forall k error,
      k ∈ map_keys mcpConnection ->
      fst (registerServer convertToolName mcpConnection k this) = Throws error ->
      LogError ("Failed to register " +:+ k +:+ ":") error ∈ log this')).
Proof.
  intros Hperm Hnd. split.
  - intros serverName r. subst r. unfold registerServer, registerServer_guards.
    repeat split.
    + intros ->. done.
    + intros ->. by destruct (map_has (serversInfo this) serverName).
    + intros client error -> -> Hl. by rewrite resume_outcome; unfold registered; rewrite Hl.
    + destruct (map_has (serversInfo this) serverName); [done|].
      destruct (map_get mcpConnection serverName) as [client|]; [|done].
      rewrite resume_outcome, resume_serversInfo. by destruct (registered serverName client).
  - unfold registerAllServers.
    pose proof (started_pending_get this mcpConnection) as Hget.
    pose proof (started_pending_NoDup this mcpConnection Hnd) as Hpnd.
    pose proof (started_rejected_elem this mcpConnection) as Hrej.
    pose proof (started_pending_elem this mcpConnection) as Hpend.
    destruct (started mcpConnection this mcpConnection) as [rejected pending].
    simpl in Hget, Hpnd, Hrej, Hpend. split.
    + intros k. unfold console_error. simpl.
      rewrite fold_step_get.
      2:{ unfold map_keys in *. by rewrite (Permutation_map fst (Hperm pending)). }
      rewrite fold_reject_serversInfo.
      rewrite (map_get_Permutation (schedule pending) pending k).
      2:{ unfold map_keys in *. by rewrite (Permutation_map fst (Hperm pending)). }
      2:{ apply Hperm. }
      rewrite Hget. unfold registerServer_guards, map_has, registered.
      destruct (map_get (serversInfo this) k) as [serverInfo|] eqn:E.
      * by destruct (map_get mcpConnection k).
      * destruct (map_get mcpConnection k) as [client|]; [|done].
        by destruct (Client.listTools client).
    + intros k error Hk Hr. unfold console_error. simpl.
      rewrite elem_of_app. left. revert Hr. unfold registerServer.
      destruct (guards this k) as [client|e] eqn:G.
      * intros Hr. eapply fold_step_logs_failure.
        -- rewrite (Hperm pending). by apply Hpend.
        -- revert Hr. unfold registerServer_resume.
           destruct (Client.listTools client) as [tools|e]; simpl; [done|].
           destruct (errorMessage e); simpl; intros [= <-]; reflexivity.
      * intros [= <-]. apply fold_step_log. by apply fold_reject_logs_failure, Hrej.
Qed.

End Registration.

(** C10. [getTool] throws for a server that is not registered, whatever the
    tool name; it returns [undefined] exactly when the server is registered and
    none of its tools has the wire name asked for, and a tool it returns has
    that name. *)
Theorem getTool_throws_for_unknown_server (this : t) (serverName toolName : string) :
  (map_has (serversInfo this) serverName = false ->
   getTool this serverName toolName =
   Throws (newError ("Server '" +:+ serverName +:+ "' not found in registry"))) /\
  (getTool this serverName toolName = Return None <->
   exists serverInfo,
     map_get (serversInfo this) serverName = Some serverInfo /\
     forall tool, tool ∈ ServerInfo.tools serverInfo -> Tool.name tool <> toolName) /\
  (forall tool,
     getTool this serverName toolName = Return (Some tool) ->
     Tool.name tool = toolName /\
     exists serverInfo,
       map_get (serversInfo this) serverName = Some serverInfo /\
       tool ∈ ServerInfo.tools serverInfo).
Proof.
  unfold getTool, map_has.
  destruct (map_get (serversInfo this) serverName) as [serverInfo|] eqn:E.
  - split; [done|]. split.
    + split.
      * intros [= Hf]. exists serverInfo. split; [done|].
        intros tool Hin Hname. apply list_elem_of_In in Hin.
        pose proof (find_none _ _ Hf tool Hin) as Hn. simpl in Hn.
        apply String.eqb_neq in Hn. done.
      * intros (si & [= <-] & Hall).
        destruct (find _ (ServerInfo.tools serverInfo)) as [tool|] eqn:Hf; [|done].
        apply find_some in Hf as [Hin Hname]. apply String.eqb_eq in Hname.
        apply list_elem_of_In in Hin. by destruct (Hall tool Hin).
    + intros tool [= Hf]. apply find_some in Hf as [Hin Hname].
      apply String.eqb_eq in Hname. split; [done|].
      exists serverInfo. split; [done|]. by apply list_elem_of_In.
  - split; [done|]. split; [|done]. split; [done|]. by intros (? & ? & _).
Qed.

(** On the fixture connections, resuming last started first: the three
    servers that answer are registered, the one that times out is not, and
    its failure is in the log. *)
Lemma registerServer_failure_adds_no_entry_witness :
  map_keys (serversInfo Fixtures.registry) = ["files"; "time"; "weather"] /\
  map_get (serversInfo Fixtures.registry) "offline" = None /\
  LogError "Failed to register offline:"
    (newError "Failed to register server 'offline': timeout") ∈ log Fixtures.registry.
Proof.
  assert (Hperm : forall l : list (string * Client.t), rev l ≡ₚ l).
  { intros l. symmetry. apply Permutation_rev. }
  assert (Hnd : NoDup (map_keys Fixtures.connections)).
  { apply (bool_decide_unpack _). vm_compute. reflexivity. }
  pose proof (registerServer_failure_adds_no_entry Fixtures.convertToolName
                Fixtures.connections (@rev _) Fixtures.empty_registry Hperm Hnd)
    as [_ [Hget Hlog]].
  split; [reflexivity|]. split.
  - unfold Fixtures.registry. rewrite (Hget "offline"). reflexivity.
  - apply (Hlog "offline").
    + apply (bool_decide_unpack _). vm_compute. reflexivity.
    + reflexivity.
Defined.

Lemma getTool_throws_for_unknown_server_witness :
  getTool Fixtures.registry "offline" "ping" =
    Throws (newError "Server 'offline' not found in registry") /\
  getTool Fixtures.registry "files" "read_file" = Return None.
Proof.
  split.
  - apply (proj1 (getTool_throws_for_unknown_server Fixtures.registry "offline" "ping")).
    reflexivity.
  - apply (proj1 (proj2 (getTool_throws_for_unknown_server Fixtures.registry
                           "files" "read_file"))).
    exists (ServerInfo.mk "files" Fixtures.files_client
              [Tool.set_title Fixtures.read_file "read_file"]).
    split; [reflexivity|]. intros tool Hin.
    apply list_elem_of_singleton in Hin. subst tool. discriminate.
Defined.

End RegistryProofs.

(** ** The order [lines.sort()] uses *)

Module SortFacts.
Import Js.

Lemma ascii_compare_refl (a : ascii) : Ascii.compare a a = Eq.
Proof. unfold Ascii.compare. apply N.compare_refl. Qed.

Lemma ascii_compare_lt_trans (a b c : ascii) :
  Ascii.compare a b = Lt -> Ascii.compare b c = Lt -> Ascii.compare a c = Lt.
Proof. unfold Ascii.compare. rewrite !N.compare_lt_iff. apply N.lt_trans. Qed.

Lemma string_compare_refl (s : string) : String.compare s s = Eq.
Proof. induction s as [|a s IH]; simpl; [done|]. by rewrite ascii_compare_refl. Qed.

Lemma string_compare_lt_trans (s1 s2 s3 : string) :
  String.compare s1 s2 = Lt -> String.compare s2 s3 = Lt -> String.compare s1 s3 = Lt.
Proof.
  revert s2 s3. induction s1 as [|a s1 IH]; intros [|b s2] [|c s3]; simpl; try done.
  destruct (Ascii.compare a b) eqn:Hab; try done;
    destruct (Ascii.compare b c) eqn:Hbc; try done.
  - apply Ascii.compare_eq_iff in Hab, Hbc. subst. rewrite ascii_compare_refl. apply IH.
  - apply Ascii.compare_eq_iff in Hab. subst. by rewrite Hbc.
  - apply Ascii.compare_eq_iff in Hbc. subst. by rewrite Hab.
  - by rewrite (ascii_compare_lt_trans a b c).
Qed.

Lemma units_compare_refl (a : list N) : units_compare a a = Eq.
Proof. induction a as [|x a IH]; simpl; [done|]. by rewrite N.compare_refl. Qed.

Lemma units_compare_eq (a b : list N) : units_compare a b = Eq -> a = b.
Proof.
  revert b. induction a as [|x a IH]; intros [|y b]; simpl; try done.
  destruct (x ?= y)%N eqn:Hxy; try done.
  apply N.compare_eq in Hxy. intros Hab. f_equal; [done | by apply IH].
Qed.

Lemma units_compare_antisym (a b : list N) :
  units_compare b a = CompOpp (units_compare a b).
Proof.
  revert b. induction a as [|x a IH]; intros [|y b]; simpl; try done.
  rewrite (N.compare_antisym x y). destruct (x ?= y)%N; simpl; [apply IH | done | done].
Qed.

Lemma units_compare_lt_trans (a b c : list N) :
  units_compare a b = Lt -> units_compare b c = Lt -> units_compare a c = Lt.
Proof.
  revert b c. induction a as [|x a IH]; intros [|y b] [|z c]; simpl; try done.
  destruct (x ?= y)%N eqn:Hxy; try done; destruct (y ?= z)%N eqn:Hyz; try done.
  - apply N.compare_eq in Hxy, Hyz. subst. rewrite N.compare_refl. apply IH.
  - apply N.compare_eq in Hxy. subst. by rewrite Hyz.
  - apply N.compare_eq in Hyz. subst. by rewrite Hxy.
  - assert ((x ?= z)%N = Lt) as ->; [|done].
    rewrite N.compare_lt_iff in *. lia.
Qed.

Lemma str_compare_refl (a : string) : str_compare a a = Eq.
Proof. unfold str_compare. by rewrite units_compare_refl, string_compare_refl. Qed.

Lemma str_compare_eq (a b : string) : str_compare a b = Eq -> a = b.
Proof.
  unfold str_compare. destruct (units_compare (code_units a) (code_units b)); try done.
  apply String.compare_eq_iff.
Qed.

Lemma str_compare_antisym (a b : string) : str_compare b a = CompOpp (str_compare a b).
Proof.
  unfold str_compare. rewrite (units_compare_antisym (code_units a) (code_units b)).
  destruct (units_compare (code_units a) (code_units b)); simpl; try done.
  apply String.compare_antisym.
Qed.

Lemma str_compare_lt_trans (a b c : string) :
  str_compare a b = Lt -> str_compare b c = Lt -> str_compare a c = Lt.
Proof.
  unfold str_compare.
  destruct (units_compare (code_units a) (code_units b)) eqn:Hab; try done;
    destruct (units_compare (code_units b) (code_units c)) eqn:Hbc; try done.
  - apply units_compare_eq in Hab, Hbc. rewrite Hab, Hbc, units_compare_refl.
    apply string_compare_lt_trans.
  - apply units_compare_eq in Hab. rewrite Hab, Hbc. done.
  - apply units_compare_eq in Hbc. rewrite <- Hbc, Hab. done.
  - by rewrite (units_compare_lt_trans _ _ _ Hab Hbc).
Qed.

#[global] Instance str_le_total : Total str_le.
Proof.
  intros a b. unfold str_le. rewrite (str_compare_antisym a b).
  destruct (str_compare a b); simpl; auto.
Qed.

#[global] Instance str_le_antisymm : AntiSymm (=) str_le.
Proof.
  intros a b. unfold str_le. rewrite (str_compare_antisym a b).
  destruct (str_compare a b) eqn:Hab; simpl; try done.
  intros _ _. by apply str_compare_eq.
Qed.

#[global] Instance str_le_trans : Transitive str_le.
Proof.
  intros a b c. unfold str_le.
  destruct (str_compare a b) eqn:Hab; try done;
    destruct (str_compare b c) eqn:Hbc; try done; intros _ _.
  - apply str_compare_eq in Hab, Hbc. subst. by rewrite str_compare_refl.
  - apply str_compare_eq in Hab. subst. by rewrite Hbc.
  - apply str_compare_eq in Hbc. subst. by rewrite Hab.
  - by rewrite (str_compare_lt_trans a b c).
Qed.

(** On texts written in ASCII the order is the order of the bytes. *)
Lemma code_units_ascii (s : string) :
  all_chars (fun c => (N_of_ascii c <? 128)%N) s = true ->
  code_units s = map N_of_ascii (list_ascii_of_string s).
Proof.
  induction s as [|c s IH]; simpl; [done|].
  intros [Hc Hs]%andb_true_iff. apply N.ltb_lt in Hc.
  assert ((N_of_ascii c <? 192)%N = true) as -> by (apply N.ltb_lt; lia).
  by rewrite IH.
Qed.

Lemma units_compare_bytes (a b : string) :
  units_compare (map N_of_ascii (list_ascii_of_string a))
    (map N_of_ascii (list_ascii_of_string b)) = String.compare a b.
Proof.
  revert b. induction a as [|x a IH]; intros [|y b]; simpl; try done.
  unfold Ascii.compare. destruct (N_of_ascii x ?= N_of_ascii y)%N; [apply IH | done | done].
Qed.

Lemma str_le_ascii (a b : string) :
  all_chars (fun c => (N_of_ascii c <? 128)%N) a = true ->
  all_chars (fun c => (N_of_ascii c <? 128)%N) b = true ->
  str_le a b <-> String.leb a b = true.
Proof.
  intros Ha Hb. unfold str_le, str_compare, String.leb.
  rewrite (code_units_ascii a Ha), (code_units_ascii b Hb), units_compare_bytes.
  destruct (String.compare a b); done.
Qed.

(** Past the ASCII range the two orders part: the full-width tilde U+FF5E
    takes three bytes, the first of them below the first byte of the four
    that U+1F600 takes, and one code unit, above the surrogate that begins
    U+1F600. *)
Example sort_by_code_units :
  code_units "～" = [65374%N] /\
  code_units "😀" = [55357%N; 56832%N] /\
  String.leb "～" "😀" = true /\
  sort ["～"; "😀"] = ["😀"; "～"].
Proof. repeat split; vm_compute; reflexivity. Qed.

Lemma sort_Sorted (l : list string) : Sorted str_le (sort l).
Proof. apply Sorted_merge_sort, _. Qed.

Lemma sort_Permutation (l : list string) : sort l ≡ₚ l.
Proof. apply merge_sort_Permutation. Qed.

(** Sorting forgets the order the lines were pushed in. *)
Lemma sort_order_independent (l l' : list string) : l ≡ₚ l' -> sort l = sort l'.
Proof.
  intros Hperm. apply (Sorted_unique str_le); try apply sort_Sorted.
  by rewrite !sort_Permutation.
Qed.

End SortFacts.

(** ** mcpToolsParser.ts: the two discovery artifacts *)

Module ParserProofs.
Import Js JsFacts SplitFacts SortFacts MCPToolsParser Vocabulary.

Lemma serverLines_elem (entry : string * ServerInfo.t) (line : string) :
  line ∈ serverLines entry <->
  (exists instructions,
     Client.getInstructions (ServerInfo.client (snd entry)) = Some instructions /\
     instructions <> EmptyString /\ line = headerLine (fst entry) instructions) \/
  (exists tool, tool ∈ ServerInfo.tools (snd entry) /\ line = toolLine (fst entry) tool).
Proof.
  destruct entry as [serverName serverInfo]. unfold serverLines. simpl.
  rewrite elem_of_app. apply Morphisms_Prop.or_iff_morphism.
  - destruct (Client.getInstructions (ServerInfo.client serverInfo)) as [i|]; simpl.
    + destruct (String.eqb i EmptyString) eqn:E; simpl.
      * apply String.eqb_eq in E. subst. split.
        -- intros Hin. by apply elem_of_nil in Hin.
        -- intros (? & [= <-] & Hne & _). done.
      * apply String.eqb_neq in E. rewrite list_elem_of_singleton. split.
        -- intros ->. by exists i.
        -- by intros (? & [= <-] & _ & ->).
    + split; [intros Hin; by apply elem_of_nil in Hin | by intros (? & ? & _)].
  - rewrite list_elem_of_In, in_map_iff. split.
    + intros (tool & <- & Hin). exists tool. by rewrite list_elem_of_In.
    + intros (tool & Hin & ->). exists tool. by rewrite <- list_elem_of_In.
Qed.

Lemma collectLines_elem (serversInfo : JsMap ServerInfo.t) (line : string) :
  line ∈ collectLines serversInfo <->
  exists entry, entry ∈ serversInfo /\ line ∈ serverLines entry.
Proof.
  unfold collectLines. rewrite list_elem_of_In, in_flat_map.
  split; intros (entry & H1 & H2); exists entry.
  - by rewrite !list_elem_of_In.
  - by rewrite <- !list_elem_of_In.
Qed.

Lemma collectLines_Permutation (m m' : JsMap ServerInfo.t) :
  m ≡ₚ m' -> collectLines m ≡ₚ collectLines m'.
Proof.
  unfold collectLines. induction 1; simpl.
  - done.
  - by apply Permutation_app_head.
  - rewrite !app_assoc. apply Permutation_app_tail, Permutation_app_comm.
  - etransitivity; eauto.
Qed.




(** *** [getToolsOverview] *)

Lemma loop_step_resolvable serversInfo toolPath rest tools log :
  resolvable serversInfo toolPath = true ->
  getToolsOverview_loop serversInfo (toolPath :: rest) tools log =
  getToolsOverview_loop serversInfo rest
    (tools ++ found serversInfo toolPath) (log ++ warning serversInfo toolPath).
Proof.
  unfold resolvable, found, warning, map_has. simpl.
  destruct (split "/" toolPath) as [|serverName [|toolName [|? ?]]]; try done.
  destruct (map_get serversInfo serverName) as [serverInfo|]; [|done]. intros _.
  destruct (find (title_is toolName) (ServerInfo.tools serverInfo));
    by rewrite ?app_nil_r.
Qed.

Lemma loop_resolvable_prefix serversInfo pre rest tools log :
  Forall (fun p => resolvable serversInfo p = true) pre ->
  getToolsOverview_loop serversInfo (pre ++ rest) tools log =
  getToolsOverview_loop serversInfo rest
    (tools ++ flat_map (found serversInfo) pre) (log ++ flat_map (warning serversInfo) pre).
Proof.
  intros Hall. revert tools log.
  induction Hall as [|p pre Hp Hall IH]; intros tools log.
  - by rewrite !app_nil_r.
  - change ((p :: pre) ++ rest) with (p :: (pre ++ rest)).
    rewrite loop_step_resolvable by done. rewrite IH. simpl. by rewrite !app_assoc.
Qed.

Lemma loop_step_offending serversInfo toolPath rest tools log :
  resolvable serversInfo toolPath = false ->
  is_Throws (fst (getToolsOverview_loop serversInfo (toolPath :: rest) tools log)) = true.
Proof.
  unfold resolvable, map_has. simpl.
  destruct (split "/" toolPath) as [|serverName [|toolName [|? ?]]]; try done.
  by destruct (map_get serversInfo serverName).
Qed.

Lemma loop_offending serversInfo toolPaths tools log :
  Exists (fun p => resolvable serversInfo p = false) toolPaths ->
  is_Throws (fst (getToolsOverview_loop serversInfo toolPaths tools log)) = true.
Proof.
  revert tools log. induction toolPaths as [|p rest IH]; intros tools log Hex.
  - by apply Exists_nil in Hex.
  - destruct (resolvable serversInfo p) eqn:E.
    + rewrite loop_step_resolvable by done. apply IH.
      apply Exists_cons in Hex as [Hp|Hex]; [congruence | done].
    + by apply loop_step_offending.
Qed.

Lemma first_offending serversInfo toolPaths :
  Exists (fun p => resolvable serversInfo p = false) toolPaths ->
  exists pre toolPath post,
    toolPaths = pre ++ toolPath :: post /\
    Forall (fun p => resolvable serversInfo p = true) pre /\
    resolvable serversInfo toolPath = false.
Proof.
  induction toolPaths as [|p rest IH]; intros Hex.
  - by apply Exists_nil in Hex.
  - destruct (resolvable serversInfo p) eqn:E.
    + apply Exists_cons in Hex as [Hp|Hex]; [congruence|].
      destruct (IH Hex) as (pre & toolPath & post & -> & Hpre & Hoff).
      exists (p :: pre), toolPath, post. split; [done|]. split; [|done].
      by constructor.
    + exists [], p, rest. split; [done|]. split; [constructor | done].
Qed.

(** C5, as the code has it. Reading the array from the left,
    [getToolsOverview] fails at the first element that is malformed or names
    an unknown server: with the message naming the path when the element does
    not split into exactly two parts, with the message naming the server when
    the server is not registered. So whenever some element is of either kind
    the call fails, and the error is the one of the first such element, not of
    every such element. Otherwise it returns the JSON text of an array
    holding, in order, one object per element whose tool exists; an element
    whose tool is unknown adds nothing but a logged warning, and the elements
    after it are still processed. Whatever text is returned is the text of a
    JSON array. *)
Theorem getToolsOverview_errors_and_skips
    (serversInfo : JsMap ServerInfo.t) (toolPaths : list string) :
  (forall pre toolPath post,
     toolPaths = pre ++ toolPath :: post ->
     Forall (fun p => resolvable serversInfo p = true) pre ->
     length (split "/" toolPath) <> 2 ->
     fst (getToolsOverview serversInfo toolPaths) =
     Throws (newError ("Error: Invalid tool path format '" +:+ toolPath
                       +:+ "'. Expected 'serverName/toolName'"))) /\
  (forall pre toolPath post serverName toolName,
     toolPaths = pre ++ toolPath :: post ->
     Forall (fun p => resolvable serversInfo p = true) pre ->
     split "/" toolPath = [serverName; toolName] ->
     map_get serversInfo serverName = None ->
     fst (getToolsOverview serversInfo toolPaths) =
     Throws (newError ("Error: Server '" +:+ serverName +:+ "' not found"))) /\
  (Exists (fun p => resolvable serversInfo p = false) toolPaths ->
   is_Throws (fst (getToolsOverview serversInfo toolPaths)) = true /\
   exists pre toolPath post,
     toolPaths = pre ++ toolPath :: post /\
     Forall (fun p => resolvable serversInfo p = true) pre /\
     ((length (split "/" toolPath) <> 2 /\
       fst (getToolsOverview serversInfo toolPaths) =
       Throws (newError ("Error: Invalid tool path format '" +:+ toolPath
                         +:+ "'. Expected 'serverName/toolName'"))) \/
      (exists serverName toolName,
         split "/" toolPath = [serverName; toolName] /\
         map_get serversInfo serverName = None /\
         fst (getToolsOverview serversInfo toolPaths) =
         Throws (newError ("Error: Server '" +:+ serverName +:+ "' not found"))))) /\
  (Forall (fun p => resolvable serversInfo p = true) toolPaths ->
   getToolsOverview serversInfo toolPaths =
   (Return (stringify (JArr (flat_map (found serversInfo) toolPaths))),
    flat_map (warning serversInfo) toolPaths)) /\
  (forall text,
     fst (getToolsOverview serversInfo toolPaths) = Return text ->
     exists tools, text = stringify (JArr tools)).
Proof.
  unfold getToolsOverview, getToolsOverview_tools.
  split; [|split; [|split; [|split]]].
  - intros pre toolPath post -> Hpre Hlen.
    rewrite loop_resolvable_prefix by done. simpl.
    destruct (split "/" toolPath) as [|serverName [|toolName [|? ?]]]; try done.
  - intros pre toolPath post serverName toolName -> Hpre Hsplit Hserver.
    rewrite loop_resolvable_prefix by done. simpl. by rewrite Hsplit, Hserver.
  - intros Hex. split.
    + pose proof (loop_offending serversInfo toolPaths [] [] Hex) as Hthrows.
      destruct (getToolsOverview_loop serversInfo toolPaths [] []) as [[tools|error] log]; done.
    + destruct (first_offending serversInfo toolPaths Hex)
        as (pre & toolPath & post & -> & Hpre & Hoff).
      exists pre, toolPath, post. split; [done|]. split; [done|].
      rewrite loop_resolvable_prefix by done. simpl.
      unfold resolvable, map_has in Hoff.
      destruct (split "/" toolPath) as [|serverName [|toolName [|? ?]]]; simpl;
        try (left; split; [simpl; lia | done]).
      right. exists serverName, toolName. split; [done|].
      destruct (map_get serversInfo serverName); done.
  - intros Hall. pose proof (loop_resolvable_prefix serversInfo toolPaths [] [] [] Hall) as Hloop.
    rewrite app_nil_r in Hloop. rewrite Hloop. done.
  - intros text.
    destruct (getToolsOverview_loop serversInfo toolPaths [] []) as [[tools|error] log]; simpl.
    + intros [= <-]. by exists tools.
    + done.
Qed.

(** On the fixture registry: a malformed element after a resolvable one, an
    unknown server, and an unknown tool between two known ones. *)
Lemma getToolsOverview_errors_and_skips_witness :
  fst (getToolsOverview Fixtures.servers ["weather/get_forecast"; "weather/get/forecast"]) =
    Throws (newError ("Error: Invalid tool path format 'weather/get/forecast'. "
                      +:+ "Expected 'serverName/toolName'")) /\
  fst (getToolsOverview Fixtures.servers ["time/now"; "offline/ping"]) =
    Throws (newError "Error: Server 'offline' not found") /\
  getToolsOverview Fixtures.servers ["time/now"; "files/nope"; "weather/get_alerts"] =
    (Return (stringify (JArr (found Fixtures.servers "time/now"
                              ++ found Fixtures.servers "weather/get_alerts"))),
     [LogText "Error: Tool 'nope' not found in server 'files'"]).
Proof.
  split; [|split].
  - apply (proj1 (getToolsOverview_errors_and_skips Fixtures.servers _)
             ["weather/get_forecast"] "weather/get/forecast" []).
    + reflexivity.
    + repeat constructor.
    + vm_compute. lia.
  - apply (proj1 (proj2 (getToolsOverview_errors_and_skips Fixtures.servers _))
             ["time/now"] "offline/ping" [] "offline" "ping").
    + reflexivity.
    + repeat constructor.
    + reflexivity.
    + reflexivity.
  - apply (proj1 (proj2 (proj2 (proj2
             (getToolsOverview_errors_and_skips Fixtures.servers
                ["time/now"; "files/nope"; "weather/get_alerts"]))))).
    repeat constructor.
Defined.

(** C5 as the specification words it fails on the fixture registry: the
    second element of the array does not split in two, yet the call fails with
    the error of the element before it, which names an unknown server, and
    that error does not name the malformed path. *)
Lemma getToolsOverview_reports_the_first_offender :
  split "/" "bad" = ["bad"] /\
  fst (getToolsOverview Fixtures.servers ["offline/ping"; "bad"]) =
    Throws (newError "Error: Server 'offline' not found") /\
  fst (getToolsOverview Fixtures.servers ["offline/ping"; "bad"]) <>
    Throws (newError "Error: Invalid tool path format 'bad'. Expected 'serverName/toolName'").
Proof. split; [reflexivity|]. split; [vm_compute; reflexivity | vm_compute; discriminate]. Qed.

(** C6. In a registry where the server weather has a tool titled
    get_forecast, [getToolsOverview] on the single path weather/get_forecast
    returns the JSON text of an array of one object, built from that tool,
    whose [exampleUsage] is the two-line snippet of the specification. *)
Theorem getToolsOverview_weather_get_forecast
    (serversInfo : JsMap ServerInfo.t) (serverInfo : ServerInfo.t) :
  map_get serversInfo "weather" = Some serverInfo ->
  (exists tool, tool ∈ ServerInfo.tools serverInfo /\ Tool.title tool = Some "get_forecast") ->
  exists tool element,
    tool ∈ ServerInfo.tools serverInfo /\
    Tool.title tool = Some "get_forecast" /\
    element = withExampleUsage "weather" tool /\
    fst (getToolsOverview_tools serversInfo ["weather/get_forecast"]) = Return [element] /\
    fst (getToolsOverview serversInfo ["weather/get_forecast"]) =
      Return (stringify (JArr [element])) /\
    json_prop element "exampleUsage" =
      Some (JStr ("const get_forecast = require('./weather/get_forecast.cjs');" +:+ newline
                  +:+ "module.exports = get_forecast({ /* your parameters here */ });")).
Proof.
  intros Hserver (tool0 & Hin0 & Htitle0).
  destruct (find (title_is "get_forecast") (ServerInfo.tools serverInfo)) as [tool|] eqn:Hfind.
  - apply find_some in Hfind as Hfound. destruct Hfound as [Hin Htitle].
    unfold title_is in Htitle. destruct (Tool.title tool) as [title|] eqn:Et; [|done].
    apply String.eqb_eq in Htitle. subst title.
    exists tool, (withExampleUsage "weather" tool).
    split; [by apply list_elem_of_In|]. split; [done|]. split; [done|].
    unfold getToolsOverview, getToolsOverview_tools.
    cbn [getToolsOverview_loop].
    change (split "/" "weather/get_forecast") with ["weather"; "get_forecast"].
    cbv beta iota. rewrite Hserver, Hfind. split; [done|]. split; [done|].
    unfold withExampleUsage, json_prop. rewrite map_get_set_eq, Et. reflexivity.
  - apply list_elem_of_In in Hin0. pose proof (find_none _ _ Hfind tool0 Hin0) as Hn.
    unfold title_is in Hn. rewrite Htitle0 in Hn. by rewrite String.eqb_refl in Hn.
Qed.

Lemma getToolsOverview_weather_get_forecast_witness :
  exists tool element,
    tool ∈ [Tool.set_title Fixtures.get_forecast "get_forecast";
            Tool.set_title Fixtures.get_alerts "get_alerts"] /\
    Tool.title tool = Some "get_forecast" /\
    element = withExampleUsage "weather" tool /\
    fst (getToolsOverview_tools Fixtures.servers ["weather/get_forecast"]) = Return [element] /\
    fst (getToolsOverview Fixtures.servers ["weather/get_forecast"]) =
      Return (stringify (JArr [element])) /\
    json_prop element "exampleUsage" =
      Some (JStr ("const get_forecast = require('./weather/get_forecast.cjs');" +:+ newline
                  +:+ "module.exports = get_forecast({ /* your parameters here */ });")).
Proof.
  apply (getToolsOverview_weather_get_forecast Fixtures.servers
           (ServerInfo.mk "weather" Fixtures.weather_client
              [Tool.set_title Fixtures.get_forecast "get_forecast";
               Tool.set_title Fixtures.get_alerts "get_alerts"])).
  - reflexivity.
  - exists (Tool.set_title Fixtures.get_forecast "get_forecast"). split; [|reflexivity].
    apply elem_of_cons. left. reflexivity.
Defined.

End ParserProofs.

(** ** The store modelled from the specification *)

Module DatabaseFacts.
Import Js ToolDatabase.

Lemma impl_key_local : key_local ServersToolDatabaseImpl.
Proof.
  intros db serverName toolName schema original s t Hne. simpl.
  unfold impl_getTool, impl_updateTool, impl_write. f_equal.
  destruct (rows db !! (serverName, toolName)) as [row|]; simpl.
  - destruct (originalOutputSchema row && negb original); simpl; [done|].
    by rewrite lookup_insert_ne.
  - by rewrite lookup_insert_ne.
Qed.

End DatabaseFacts.

(** ** SandboxManagerImpl.ts: the drain, the run and the generated tools *)

Module SandboxProofs.
Import Js JsFacts ToolDatabase SandboxManagerImpl Vocabulary.

Section Drain.
Context {DB : Type} `{IToolDatabase DB}.
Variable convertOutputToSchema : JSON -> Completion JsValue.
Variable vm_run : string -> JsMap ServerInfo.t -> Cache -> Completion ScriptValue * Cache.

Local Abbreviation process := (processEntry convertOutputToSchema).
Local Abbreviation drain := (updateOutputSchema convertOutputToSchema).

Lemma find_assign_outputSchema_ne toolName t schema tools :
  t <> toolName ->
  find (fun tool => String.eqb (Tool.name tool) t) (assign_outputSchema toolName schema tools) =
  find (fun tool => String.eqb (Tool.name tool) t) tools.
Proof.
  intros Hne. induction tools as [|tool rest IH]; simpl; [done|].
  destruct (String.eqb (Tool.name tool) toolName) eqn:E; simpl.
  - apply String.eqb_eq in E.
    assert (String.eqb (Tool.name tool) t = false) as -> by (apply String.eqb_neq; congruence).
    done.
  - by rewrite IH.
Qed.

Lemma mirror_toolDatabase serverName toolName schema (this : t DB) :
  toolDatabase (mirror serverName toolName schema this) = toolDatabase this.
Proof.
  unfold mirror. destruct (map_get (serversInfo this) serverName) as [serverInfo|]; [|done].
  by destruct (find _ (ServerInfo.tools serverInfo)).
Qed.

Lemma mirror_toolOutputCache serverName toolName schema (this : t DB) :
  toolOutputCache (mirror serverName toolName schema this) = toolOutputCache this.
Proof.
  unfold mirror. destruct (map_get (serversInfo this) serverName) as [serverInfo|]; [|done].
  by destruct (find _ (ServerInfo.tools serverInfo)).
Qed.

Lemma mirror_other serverName toolName schema (this : t DB) s t :
  (s, t) <> (serverName, toolName) ->
  inMemoryTool (serversInfo (mirror serverName toolName schema this)) s t =
  inMemoryTool (serversInfo this) s t.
Proof.
  intros Hne. unfold mirror, inMemoryTool.
  destruct (map_get (serversInfo this) serverName) as [serverInfo|] eqn:Es; [|done].
  destruct (find _ (ServerInfo.tools serverInfo)) eqn:Ef; [|done]. simpl.
  rewrite map_get_set. destruct (String.eqb serverName s) eqn:E; [|done].
  apply String.eqb_eq in E. subst s. rewrite Es. simpl.
  apply find_assign_outputSchema_ne. congruence.
Qed.

(** One captured output, seen from a row that holds an original schema. *)
Lemma processEntry_keeps_original serverName entry (this : t DB) s t row :
  key_local DB ->
  getTool (toolDatabase this) s t = Return (Some row) ->
  originalOutputSchema row = true ->
  getTool (toolDatabase (process serverName this entry)) s t = Return (Some row) /\
  inMemoryTool (serversInfo (process serverName this entry)) s t =
  inMemoryTool (serversInfo this) s t.
Proof.
  intros Hlocal Hrow Horig. unfold processEntry.
  destruct (convertOutputToSchema (output entry)) as [[schema|]|error]; try done.
  destruct (truthy (Some schema)); [|done].
  destruct (getTool (toolDatabase this) serverName (toolName entry))
    as [[existingTool|]|error] eqn:Hexisting; try done.
  destruct (originalOutputSchema existingTool) eqn:Hflag; simpl; [done|].
  assert (Hne : (s, t) <> (serverName, toolName entry)).
  { intros [= -> ->]. rewrite Hrow in Hexisting. injection Hexisting as ->. congruence. }
  pose proof (Hlocal (toolDatabase this) serverName (toolName entry)
                (stringify schema) false s t Hne) as Hframe.
  destruct (updateTool (toolDatabase this) serverName (toolName entry) (stringify schema) false)
    as [[[]|error] db]; simpl in *.
  - rewrite mirror_toolDatabase, mirror_other by done. simpl. by rewrite Hframe.
  - by rewrite Hframe.
Qed.

Lemma drain_captured (this : t DB) :
  drain this =
  fold_left (fun this p => process (fst p) this (snd p)) (captured (toolOutputCache this)) this.
Proof.
  unfold updateOutputSchema, captured.
  generalize (toolOutputCache this). intros cache. revert this.
  induction cache as [|[serverName outputs] cache IH]; intros this; simpl; [done|].
  rewrite fold_left_app, IH. f_equal.
  generalize this. induction outputs as [|entry outputs IHo]; intros this0; simpl; [done|].
  apply IHo.
Qed.

Lemma drain_keeps_original (this : t DB) s t row :
  key_local DB ->
  getTool (toolDatabase this) s t = Return (Some row) ->
  originalOutputSchema row = true ->
  getTool (toolDatabase (drain this)) s t = Return (Some row) /\
  inMemoryTool (serversInfo (drain this)) s t = inMemoryTool (serversInfo this) s t.
Proof.
  intros Hlocal Hrow Horig. rewrite drain_captured.
  generalize (captured (toolOutputCache this)). intros entries.
  revert this Hrow. induction entries as [|[serverName entry] entries IH]; intros this Hrow.
  - done.
  - simpl.
    destruct (processEntry_keeps_original serverName entry this s t row Hlocal Hrow Horig)
      as [Hdb Hmem].
    destruct (IH _ Hdb) as [Hdb' Hmem']. split; [done|]. by rewrite Hmem', Hmem.
Qed.

(** A write of an inferred schema happens only over a row that is not an
    original. *)
Lemma processEntry_writes_only_inferred serverName entry (this : t DB) :
  toolDatabase (process serverName this entry) <> toolDatabase this \/
  serversInfo (process serverName this entry) <> serversInfo this ->
  exists existingTool,
    getTool (toolDatabase this) serverName (toolName entry) = Return (Some existingTool) /\
    originalOutputSchema existingTool = false.
Proof.
  unfold processEntry.
  destruct (convertOutputToSchema (output entry)) as [[schema|]|error];
    try (simpl; intros [?|?]; done).
  destruct (truthy (Some schema)); [|intros [?|?]; done].
  destruct (getTool (toolDatabase this) serverName (toolName entry))
    as [[existingTool|]|error] eqn:Hexisting; try (simpl; intros [?|?]; done).
  destruct (originalOutputSchema existingTool) eqn:Hflag; simpl; [intros [?|?]; done|].
  intros _. by exists existingTool.
Qed.

Lemma mirror_map_has serverName toolName schema (this : t DB) k :
  map_has (serversInfo (mirror serverName toolName schema this)) k =
  map_has (serversInfo this) k.
Proof.
  unfold mirror. destruct (map_get (serversInfo this) serverName) as [serverInfo|] eqn:Es; [|done].
  destruct (find _ (ServerInfo.tools serverInfo)); [|done]. simpl.
  unfold map_has. rewrite map_get_set. destruct (String.eqb serverName k) eqn:E; [|done].
  apply String.eqb_eq in E. subst k. by rewrite Es.
Qed.

Lemma processEntry_map_has serverName entry (this : t DB) k :
  map_has (serversInfo (process serverName this entry)) k = map_has (serversInfo this) k.
Proof.
  unfold processEntry.
  destruct (convertOutputToSchema (output entry)) as [[schema|]|error]; try done.
  destruct (truthy (Some schema)); [|done].
  destruct (getTool (toolDatabase this) serverName (toolName entry)) as [[existingTool|]|error];
    try done.
  destruct (originalOutputSchema existingTool); simpl; [done|].
  destruct (updateTool (toolDatabase this) serverName (toolName entry) (stringify schema) false)
    as [[[]|error] db]; simpl; [|done].
  by rewrite mirror_map_has.
Qed.

Lemma drain_map_has (this : t DB) k :
  map_has (serversInfo (drain this)) k = map_has (serversInfo this) k.
Proof.
  rewrite drain_captured. generalize (captured (toolOutputCache this)). intros entries.
  revert this. induction entries as [|[serverName entry] entries IH]; intros this; simpl; [done|].
  by rewrite IH, processEntry_map_has.
Qed.

Lemma reseed_get {V : Type} (m : JsMap V) (acc : Cache) k :
  map_get (fold_left (fun cache entry => map_set cache (fst entry) []) m acc) k =
  if map_has m k then Some [] else map_get acc k.
Proof.
  revert acc. induction m as [|[n v] m IH]; intros acc; simpl; [done|].
  rewrite IH. unfold map_has. simpl. rewrite map_get_set.
  destruct (String.eqb n k); [|done]. by destruct (map_get m k).
Qed.

Lemma execute_settled code (this : t DB) :
  execute convertOutputToSchema vm_run code this =
  match settled (vm_run code (serversInfo this) (toolOutputCache this)) with
  | (Return v, cache) =>
      (Return v,
       clearAndSetToolOutCache (drain (mk (serversInfo this) cache (toolDatabase this) (log this))))
  | (Throws error, cache) =>
      (Throws error,
       console_error (mk (serversInfo this) cache (toolDatabase this) (log this))
         (LogError "✗ Error executing code in sandbox:" error))
  end.
Proof.
  unfold execute, settled.
  destruct (vm_run code (serversInfo this) (toolOutputCache this)) as [[result|error] cache];
    [|done].
  destruct (Script.isThenable result); [|done].
  by destruct (Script.await result cache) as [[v|error] cache'].
Qed.

(** C1. A row of the store whose [originalOutputSchema] is true comes out of
    the drain as it went in, and so does the tool held in memory under its
    key, whatever outputs were captured; the same holds across a whole
    [execute]. One captured output changes the store or the servers' info
    only if the row read for it exists and has [originalOutputSchema] false. *)
Theorem drain_never_overwrites_original (this : t DB) :
  key_local DB ->
  (forall serverName toolName row,
     getTool (toolDatabase this) serverName toolName = Return (Some row) ->
     originalOutputSchema row = true ->
     (getTool (toolDatabase (drain this)) serverName toolName = Return (Some row) /\
      inMemoryTool (serversInfo (drain this)) serverName toolName =
      inMemoryTool (serversInfo this) serverName toolName) /\
     (forall code,
        getTool (toolDatabase (snd (execute convertOutputToSchema vm_run code this)))
          serverName toolName = Return (Some row))) /\
  (forall serverName entry,
     toolDatabase (process serverName this entry) <> toolDatabase this \/
     serversInfo (process serverName this entry) <> serversInfo this ->
     exists existingTool,
       getTool (toolDatabase this) serverName (toolName entry) = Return (Some existingTool) /\
       originalOutputSchema existingTool = false).
Proof.
  intros Hlocal. split.
  - intros serverName toolName row Hrow Horig. split.
    + by apply drain_keeps_original.
    + intros code. rewrite execute_settled.
      destruct (settled _) as [[v|error] cache]; simpl; [|done].
      by apply (drain_keeps_original
                  (mk (serversInfo this) cache (toolDatabase this) (log this))).
  - intros serverName entry. apply processEntry_writes_only_inferred.
Qed.

(** C2, as the code has it. When the script's export settles with a value,
    [execute] returns it after the drain has processed every captured output,
    bucket by bucket in the order captured, and the cache then holds exactly
    one empty bucket per server. When the run throws or the export rejects,
    [execute] rethrows: the drain does not run, the cache keeps what was
    captured, and the store and the servers' info are untouched. *)
Theorem execute_drains_after_success code (this : t DB) :
  let run := settled (vm_run code (serversInfo this) (toolOutputCache this)) in
  let ran := mk (serversInfo this) (snd run) (toolDatabase this) (log this) in
  let after := snd (execute convertOutputToSchema vm_run code this) in
  (forall v,
     fst run = Return v ->
     execute convertOutputToSchema vm_run code this =
       (Return v, clearAndSetToolOutCache (drain ran)) /\
     drain ran =
       fold_left (fun st p => process (fst p) st (snd p)) (captured (snd run)) ran /\
     (forall k,
        map_get (toolOutputCache after) k =
        if map_has (serversInfo this) k then Some [] else None)) /\
  (forall error,
     fst run = Throws error ->
     fst (execute convertOutputToSchema vm_run code this) = Throws error /\
     toolOutputCache after = snd run /\
     toolDatabase after = toolDatabase this /\
     serversInfo after = serversInfo this).
Proof.
  intros run ran after. subst run ran after. rewrite execute_settled.
  destruct (settled _) as [[v|error] cache]; simpl; split; try done.
  intros v' [= <-]. split; [done|]. split; [apply drain_captured|].
  intros k. rewrite reseed_get.
  pose proof (drain_map_has (mk (serversInfo this) cache (toolDatabase this) (log this)) k)
    as Hhas.
  simpl in Hhas. rewrite Hhas. by destruct (map_has (serversInfo this) k).
Qed.

(** C8. [execute] tests the export with
    [result && typeof result.then === 'function']. The test holds of an object
    whose [then] member is a function and of nothing else: [undefined],
    [null], a primitive, data, and an object whose [then] is data or is
    missing all fail it. An export that fails the test is returned as it is,
    and the drain runs over the cache as the run left it. An export that
    passes is awaited: [execute] returns what it resolves to, or rethrows what
    it rejects with. The earlier [runCodeInSandbox] does the same. *)
Theorem execute_awaits_only_thenables code (this : t DB)
    (legacy_run : string -> JsMap ServerInfo.t -> Completion SandboxManager.ScriptValue) :
  (forall (S : Type) (result : Script.Value S),
     Script.isThenable result = true <->
     exists members as_then,
       result = Script.Object members /\ map_get members "then" = Some (Script.Func as_then)) /\
  (forall result cache,
     vm_run code (serversInfo this) (toolOutputCache this) = (Return result, cache) ->
     Script.isThenable result = false ->
     execute convertOutputToSchema vm_run code this =
       (Return result,
        clearAndSetToolOutCache
          (drain (mk (serversInfo this) cache (toolDatabase this) (log this))))) /\
  (forall members as_then cache,
     vm_run code (serversInfo this) (toolOutputCache this) =
       (Return (Script.Object members), cache) ->
     map_get members "then" = Some (Script.Func as_then) ->
     fst (execute convertOutputToSchema vm_run code this) = fst (as_then cache)) /\
  (forall result,
     legacy_run code (serversInfo this) = Return result ->
     Script.isThenable result = false ->
     SandboxManager.runCodeInSandbox legacy_run (serversInfo this) code = Return result) /\
  (forall members as_then,
     legacy_run code (serversInfo this) = Return (Script.Object members) ->
     map_get members "then" = Some (Script.Func as_then) ->
     SandboxManager.runCodeInSandbox legacy_run (serversInfo this) code = fst (as_then tt)).
Proof.
  split; [|split; [|split; [|split]]].
  - intros S result. unfold Script.isThenable. split.
    + intros [_ Htypeof]%andb_true_iff.
      destruct result as [[[| | | | |fields]|]|members]; simpl in Htypeof; try done.
      * destruct (get_prop fields "then") as [[]|]; done.
      * exists members. destruct (map_get members "then") as [[[]|as_then]|]; try done.
        by exists as_then.
    + intros (members & as_then & -> & Hthen). simpl. by rewrite Hthen.
  - intros result cache Hrun Htest. rewrite execute_settled, Hrun. simpl. by rewrite Htest.
  - intros members as_then cache Hrun Hthen. rewrite execute_settled, Hrun.
    unfold settled, Script.isThenable, Script.await. simpl. rewrite Hthen. simpl.
    by destruct (as_then cache) as [[v|error] cache'].
  - intros result Hrun Htest. unfold SandboxManager.runCodeInSandbox. by rewrite Hrun, Htest.
  - intros members as_then Hrun Hthen. unfold SandboxManager.runCodeInSandbox.
    rewrite Hrun. unfold Script.isThenable, Script.await. simpl. by rewrite Hthen.
Qed.

End Drain.

Lemma string_literal_plain (text : string) :
  pastes_as_itself text = true -> string_literal text = Some text.
Proof.
  unfold pastes_as_itself. induction text as [|c text IH]; simpl; [done|].
  intros [Hc Htext]%andb_true_iff. apply negb_true_iff in Hc.
  repeat (apply orb_false_iff in Hc as [Hc ?]).
  assert (Ascii.eqb c newline_char || Ascii.eqb c return_char = false) as ->
    by (apply orb_false_iff; done).
  rewrite Hc. replace (Ascii.eqb c backslash_char) with false by done.
  by rewrite IH.
Qed.

Lemma template_literal_plain (text : string) :
  pastes_as_itself text = true -> template_literal text = Some text.
Proof.
  unfold pastes_as_itself. induction text as [|c text IH]; simpl; [done|].
  intros [Hc Htext]%andb_true_iff. apply negb_true_iff in Hc.
  repeat (apply orb_false_iff in Hc as [Hc ?]).
  replace (Ascii.eqb c backtick_char) with false by done.
  replace (Ascii.eqb c return_char) with false by done.
  replace (Ascii.eqb c "$") with false by done.
  replace (Ascii.eqb c backslash_char) with false by done.
  by rewrite IH.
Qed.

(** C7, as the code has it. The names are pasted into the text of the
    generated file; when the server's name and the tool's wire name stand for
    themselves there and the title names the function, the file of
    [SandboxManagerImpl] exports a function that, for a known server and a
    downstream answer under the wire name, returns [content] and [isError]
    with the defaults put in by [||], and the server's name and the wire name
    under [_meta]. For an answer typed as a [CallToolResult] this is the
    envelope of the specification. Another title that names the function gives
    the same function. The file of the earlier [SandboxManager], when it is
    written, exports a function that returns the downstream answer itself. *)
Theorem generatedTool_returns_envelope
    (serverName : string) (tool : Tool.t) (serversInfo : JsMap ServerInfo.t)
    (serverInfo : ServerInfo.t) (args : JsValue) (cache : Cache) (rawResponse : JsObject) :
  pastes_as_itself serverName = true ->
  pastes_as_itself (Tool.name tool) = true ->
  names_function (Tool.title tool) = true ->
  map_get serversInfo serverName = Some serverInfo ->
  Client.callTool (ServerInfo.client serverInfo) (Tool.name tool) args = Return rawResponse ->
  exists stub,
    generatedTool serverName tool = Some stub /\
    fst (stub serversInfo args cache) =
      Return (JObj [("content", or_else (get_prop rawResponse "content") (JArr []));
                    ("isError", or_else (get_prop rawResponse "isError") (JBool false));
                    ("_meta", JObj [("serverName", JStr serverName);
                                    ("toolName", JStr (Tool.name tool))])]) /\
    (isCallToolResult rawResponse = true ->
     fst (stub serversInfo args cache) =
       Return (SpecWording.envelope_spec serverName (Tool.name tool) rawResponse)) /\
    (forall title,
       names_function (Some title) = true ->
       generatedTool serverName (Tool.set_title tool title) = Some stub) /\
    (SandboxManager.paramDocs_completes (Tool.inputSchema tool) = true ->
     SandboxManager.names_function (Tool.title tool) = true ->
     exists legacy_stub,
       SandboxManager.generatedTool serverName tool = Some legacy_stub /\
       legacy_stub serversInfo args = Return (JObj rawResponse)).
Proof.
  intros Hserver_name Hwire Htitle Hserver Hcall.
  unfold generatedTool, SandboxManager.generatedTool.
  rewrite Htitle, (string_literal_plain _ Hserver_name), (template_literal_plain _ Hserver_name),
    (string_literal_plain _ Hwire).
  eexists. split; [reflexivity|]. unfold exported, SandboxManager.exported.
  rewrite Hserver, Hcall. cbn [fst].
  split; [done|]. split; [|split].
  - intros Htyped. unfold SpecWording.envelope_spec.
    unfold isCallToolResult in Htyped. apply andb_true_iff in Htyped as [Hcontent HisError].
    do 3 f_equal.
    + destruct (get_prop rawResponse "content") as [[]|]; done.
    + f_equal. destruct (get_prop rawResponse "isError") as [[| [] | | | |]|]; done.
  - intros title Htitle'. cbn [Tool.title Tool.set_title Tool.name].
    by rewrite Htitle', (string_literal_plain _ Hwire).
  - intros Hdocs Hlegacy. rewrite Hdocs, Hlegacy. cbn [andb].
    eexists. split; [reflexivity|]. unfold SandboxManager.exported.
    by rewrite Hserver, Hcall.
Qed.

Lemma generatedTool_intact (serverName : string) (tool : Tool.t) :
  pasted_intact serverName tool = true ->
  generatedTool serverName tool = Some (exported serverName serverName (Tool.name tool)).
Proof.
  unfold pasted_intact. intros [[Hserver Hwire]%andb_true_iff Htitle]%andb_true_iff.
  unfold generatedTool.
  by rewrite Htitle, (string_literal_plain _ Hserver), (template_literal_plain _ Hserver),
    (string_literal_plain _ Hwire).
Qed.

(** On the fixture sandbox, after the script of two tool calls: the original
    row of weather/get_forecast is still the one stored. *)
Lemma drain_never_overwrites_original_witness :
  key_local ServersToolDatabaseImpl /\
  getTool (toolDatabase Fixtures.sandbox) "weather" "get_forecast" =
    Return (Some Fixtures.original_row) /\
  getTool
    (toolDatabase (snd (execute Fixtures.convertOutputToSchema Fixtures.vm_run "calls"
                          Fixtures.sandbox)))
    "weather" "get_forecast" = Return (Some Fixtures.original_row).
Proof.
  split; [exact DatabaseFacts.impl_key_local|]. split; [vm_compute; reflexivity|].
  apply (proj1 (drain_never_overwrites_original Fixtures.convertOutputToSchema Fixtures.vm_run
                  Fixtures.sandbox DatabaseFacts.impl_key_local)
           "weather" "get_forecast" Fixtures.original_row).
  - vm_compute; reflexivity.
  - reflexivity.
Defined.

(** C2 as the specification words it fails on the fixture sandbox: the
    script's promise rejects after one tool call, [execute] rethrows, the
    captured output is still in its bucket and the row it would have refined
    still has no schema, although a drain over that cache writes one. *)
Lemma execute_failure_skips_the_drain :
  fst (execute Fixtures.convertOutputToSchema Fixtures.vm_run "fails" Fixtures.sandbox) =
    Throws (newError "boom") /\
  toolOutputCache
    (snd (execute Fixtures.convertOutputToSchema Fixtures.vm_run "fails" Fixtures.sandbox)) =
    [("files", []); ("time", [mkEntry "now" (JObj [])]); ("weather", [])] /\
  map_get
    (toolOutputCache
       (snd (execute Fixtures.convertOutputToSchema Fixtures.vm_run "fails" Fixtures.sandbox)))
    "time" <> Some [] /\
  rows (toolDatabase
          (snd (execute Fixtures.convertOutputToSchema Fixtures.vm_run "fails"
                  Fixtures.sandbox)))
    !! ("time", "now") = Some Fixtures.empty_row /\
  rows (toolDatabase
          (updateOutputSchema Fixtures.convertOutputToSchema
             (snd (execute Fixtures.convertOutputToSchema Fixtures.vm_run "fails"
                     Fixtures.sandbox))))
    !! ("time", "now") = Some (mkRow (Some (stringify Fixtures.object_schema)) false 1).
Proof. repeat split; try (vm_compute; reflexivity). vm_compute. discriminate. Qed.

(** On the fixture sandbox: the script of two tool calls resolves, and the
    script whose promise rejects leaves the cache as captured. *)
Lemma execute_drains_after_success_witness :
  (execute Fixtures.convertOutputToSchema Fixtures.vm_run "calls" Fixtures.sandbox).1 =
    Return (Script.Plain (Some (SpecWording.envelope_spec "time" "now" []))) /\
  (forall k,
     map_get
       (toolOutputCache
          (snd (execute Fixtures.convertOutputToSchema Fixtures.vm_run "calls"
                  Fixtures.sandbox))) k =
     if map_has Fixtures.servers k then Some [] else None) /\
  toolDatabase
    (snd (execute Fixtures.convertOutputToSchema Fixtures.vm_run "fails" Fixtures.sandbox)) =
    Fixtures.database.
Proof.
  pose proof (execute_drains_after_success Fixtures.convertOutputToSchema Fixtures.vm_run
                "calls" Fixtures.sandbox) as [Hok _].
  pose proof (execute_drains_after_success Fixtures.convertOutputToSchema Fixtures.vm_run
                "fails" Fixtures.sandbox) as [_ Hfail].
  destruct (Hok (Script.Plain (Some (SpecWording.envelope_spec "time" "now" []))))
    as (Hresult & _ & Hcache).
  { vm_compute; reflexivity. }
  destruct (Hfail (newError "boom")) as (_ & _ & Hdb & _).
  { vm_compute; reflexivity. }
  split; [by rewrite Hresult|]. split; [exact Hcache | exact Hdb].
Defined.

(** On the fixture sandbox, the drain after the script of two tool calls
    refines the row of time/now, in the store and in memory, and leaves the
    original row of weather/get_forecast. *)
Example execute_refines_inferred_rows :
  rows (toolDatabase
          (snd (execute Fixtures.convertOutputToSchema Fixtures.vm_run "calls"
                  Fixtures.sandbox)))
    !! ("time", "now") = Some (mkRow (Some (stringify Fixtures.object_schema)) false 1) /\
  Tool.outputSchema <$>
    inMemoryTool
      (serversInfo (snd (execute Fixtures.convertOutputToSchema Fixtures.vm_run "calls"
                           Fixtures.sandbox)))
      "time" "now" = Some (Some Fixtures.object_schema) /\
  rows (toolDatabase
          (snd (execute Fixtures.convertOutputToSchema Fixtures.vm_run "calls"
                  Fixtures.sandbox)))
    !! ("weather", "get_forecast") = Some Fixtures.original_row.
Proof. repeat split; vm_compute; reflexivity. Qed.

(** On the fixture sandbox: an object whose [then] is a number is returned
    as exported, the promise of two tool calls as what it resolves to, and a
    promise that rejects makes the earlier sandbox throw. *)
Lemma execute_awaits_only_thenables_witness :
  fst (execute Fixtures.convertOutputToSchema Fixtures.vm_run "module.exports = { then: 5 };"
         Fixtures.sandbox) = Return (Script.Plain (Some (JObj [("then", JNum 5)]))) /\
  fst (execute Fixtures.convertOutputToSchema Fixtures.vm_run "calls" Fixtures.sandbox) =
    Return (Script.Plain (Some (SpecWording.envelope_spec "time" "now" []))) /\
  SandboxManager.runCodeInSandbox
    (fun _ _ =>
       Return (Script.Object [("then", Script.Func (fun s => (Throws (newError "boom"), s)))]))
    (serversInfo Fixtures.sandbox) "module.exports = Promise.reject(new Error('boom'));" =
    Throws (newError "boom").
Proof.
  pose proof (execute_awaits_only_thenables Fixtures.convertOutputToSchema Fixtures.vm_run
                "module.exports = { then: 5 };" Fixtures.sandbox
                (fun _ _ => Return (Script.Plain None)))
    as (_ & Hplain & _ & _ & _).
  pose proof (execute_awaits_only_thenables Fixtures.convertOutputToSchema Fixtures.vm_run
                "calls" Fixtures.sandbox (fun _ _ => Return (Script.Plain None)))
    as (_ & _ & Hpromise & _ & _).
  pose proof (execute_awaits_only_thenables Fixtures.convertOutputToSchema Fixtures.vm_run
                "module.exports = Promise.reject(new Error('boom'));" Fixtures.sandbox
                (fun _ _ =>
                   Return (Script.Object
                             [("then", Script.Func (fun s => (Throws (newError "boom"), s)))])))
    as (_ & _ & _ & _ & Hlegacy).
  split; [|split].
  - rewrite (Hplain (Script.Plain (Some (JObj [("then", JNum 5)])))
               (toolOutputCache Fixtures.sandbox) eq_refl eq_refl).
    reflexivity.
  - erewrite (Hpromise _ _ (toolOutputCache Fixtures.sandbox) eq_refl eq_refl).
    vm_compute. reflexivity.
  - apply (Hlegacy _ (fun s => (Throws (newError "boom"), s)) eq_refl eq_refl).
Defined.

(** On the fixture servers: the tool file of weather/get_forecast. *)
Lemma generatedTool_returns_envelope_witness :
  isCallToolResult Fixtures.sunny = true /\
  fst (Fixtures.call_get_forecast Fixtures.servers None (toolOutputCache Fixtures.sandbox)) =
    Return (JObj [("content", JArr [JObj [("type", JStr "text"); ("text", JStr "sunny")]]);
                  ("isError", JBool false);
                  ("_meta", JObj [("serverName", JStr "weather");
                                  ("toolName", JStr "get_forecast")])]).
Proof.
  split; [reflexivity|].
  destruct (generatedTool_returns_envelope "weather"
              (Tool.set_title Fixtures.get_forecast "get_forecast") Fixtures.servers
              (ServerInfo.mk "weather" Fixtures.weather_client
                 [Tool.set_title Fixtures.get_forecast "get_forecast";
                  Tool.set_title Fixtures.get_alerts "get_alerts"])
              None (toolOutputCache Fixtures.sandbox) Fixtures.sunny
              eq_refl eq_refl eq_refl eq_refl eq_refl)
    as (stub & Hstub & _ & Henvelope & _).
  unfold Fixtures.call_get_forecast, Fixtures.load. rewrite Hstub.
  exact (Henvelope eq_refl).
Defined.

(** C7 as the specification words it fails in three ways. On the fixture
    servers the file of the earlier sandbox for weather/get_forecast hands the
    downstream answer back as it came, without [_meta]. For an answer whose
    [content] is the empty string and whose [isError] is 0 the file of
    [SandboxManagerImpl] returns the empty array and false, where [??] keeps
    the two values. And for the wire name that holds a backslash before the
    letter n, the string literal in the file denotes a line feed in their
    place: the downstream call is made under that other name and fails,
    though the server answers under the wire name. *)
Lemma generatedTool_is_not_the_spec_stub :
  ((fun stub => stub Fixtures.servers None)
     <$> SandboxManager.generatedTool "weather"
           (Tool.set_title Fixtures.get_forecast "get_forecast")) =
    Some (Return (JObj Fixtures.sunny)) /\
  Vocabulary.json_prop (JObj Fixtures.sunny) "_meta" = None /\
  ((fun stub => fst (stub Fixtures.odd_servers None []))
     <$> generatedTool "untyped" Fixtures.ping) =
    Some (Return (JObj [("content", JArr []);
                        ("isError", JBool false);
                        ("_meta", JObj [("serverName", JStr "untyped");
                                        ("toolName", JStr "ping")])])) /\
  SpecWording.envelope_spec "untyped" "ping" Fixtures.untyped =
    JObj [("content", JStr EmptyString);
          ("isError", JNum 0);
          ("_meta", JObj [("serverName", JStr "untyped"); ("toolName", JStr "ping")])] /\
  Client.callTool Fixtures.strict_client (Tool.name Fixtures.slashed) None =
    Return Fixtures.sunny /\
  string_literal (Tool.name Fixtures.slashed) = Some ("a" +:+ newline +:+ "b") /\
  ((fun stub => fst (stub Fixtures.odd_servers None []))
     <$> generatedTool "strict" Fixtures.slashed) =
    Some (Throws (newError "Unknown tool")).
Proof. repeat split; vm_compute; reflexivity. Qed.

End SandboxProofs.

(** ** ToolCallHandler.ts and the earlier dispatcher: error responses *)

Module HandlerProofs.
Import Js Response ToolCallHandler Vocabulary.

Lemma formatError_text (error : Thrown) :
  formatError error =
  match error with
  | ErrorObj name m =>
      Return (textResponse
                (Some ("Error: " +:+ if String.eqb m EmptyString then name else m)))
  | Primitive text => Return (textResponse (Some ("Error: " +:+ text)))
  | ThrownNull => Throws (cannot_read "null" "message")
  | ThrownUndefined => Throws (cannot_read "undefined" "message")
  | ThrownObject (Renders m) _ => Return (textResponse (Some ("Error: " +:+ m)))
  | ThrownObject Falsy (Some text) => Return (textResponse (Some ("Error: " +:+ text)))
  | ThrownObject Falsy None => Throws cannot_convert
  | ThrownObject Unrenderable _ => Throws cannot_convert
  end.
Proof.
  destruct error as [name m|text| | |[|m|] [text|]]; unfold formatError; simpl; try done.
  by destruct (String.eqb m EmptyString).
Qed.

Lemma formatError_throws (error : Thrown) :
  is_Throws (formatError error) = true <-> wordless error = true.
Proof.
  rewrite formatError_text.
  destruct error as [name m|text| | |[|m|] [text|]]; simpl; done.
Qed.

(** What comes out of a [try] whose [catch] returns [formatError(error)]. *)
Lemma try_formatError_throws (body : Completion ToolResponse) :
  throws_only_wordless (try_catch body formatError).
Proof.
  unfold throws_only_wordless. destruct body as [response|error]; simpl; [done|].
  intros Hthrows. exists error. split; [by apply formatError_throws | done].
Qed.

Section Handler.
Variable World : Type.
Variable Score : Type.
Variable getAllServers : World -> JsMap ServerInfo.t.
Variable getServersOverview : JsMap ServerInfo.t -> Completion string.
Variable getToolsOverview : JsMap ServerInfo.t -> JsValue -> Completion string.
Variable search : World -> string -> JSON -> Completion (list (SearchResult Score)).
Variable execute : string -> World -> Completion JsValue * World.
Variable toFixed3 : Score -> string.
Variable stringify_indented : JsValue -> Completion (option string).


End Handler.



(** The earlier dispatcher calls [getToolsOverview] outside any [try]: a
    malformed path makes the handler itself throw. *)
Lemma legacy_get_tools_overview_throws :
  McpOfMcps.callToolHandler (Some Fixtures.servers) (fun _ => Return None)
    Fixtures.stringify_indented "get_tools_overview"
    (Some [("toolPaths", JArr [JStr "bad"])]) =
  Throws (newError "Error: Invalid tool path format 'bad'. Expected 'serverName/toolName'").
Proof. vm_compute. reflexivity. Qed.

End HandlerProofs.

(** * Further properties of the code *)

(** ** More on the JS map and on [split] *)

Module JsMore.
Import Js JsFacts Vocabulary.
Export SplitFacts.

Section JsMapMore.
Context {V : Type}.
Implicit Types (m : JsMap V) (k : string) (v : V).

Lemma map_set_fresh m k v : map_get m k = None -> map_set m k v = m ++ [(k, v)].
Proof.
  induction m as [|[k' x] m IH]; simpl; [done|].
  destruct (String.eqb k' k); [done|]. intros Hm. by rewrite IH.
Qed.

Lemma map_keys_set_existing m k v :
  map_has m k = true -> map_keys (map_set m k v) = map_keys m.
Proof.
  unfold map_has, map_keys. induction m as [|[k' x] m IH]; simpl; [done|].
  destruct (String.eqb k' k) eqn:E; simpl; [done|]. intros Hm. by rewrite IH.
Qed.

Lemma map_get_app m m' k :
  map_get (m ++ m') k = match map_get m k with Some v => Some v | None => map_get m' k end.
Proof.
  induction m as [|[k' x] m IH]; simpl; [done|]. by destruct (String.eqb k' k).
Qed.

(** Setting distinct fresh keys one after the other appends them in order. *)
Lemma fold_set_fresh {A : Type} (f : A -> string) (g : A -> V) (l : list A) m :
  NoDup (map f l) ->
  (forall a, a ∈ l -> map_get m (f a) = None) ->
  fold_left (fun m a => map_set m (f a) (g a)) l m = m ++ map (fun a => (f a, g a)) l.
Proof.
  revert m. induction l as [|a l IH]; intros m Hnd Hfresh; simpl.
  - by rewrite app_nil_r.
  - simpl in Hnd. apply NoDup_cons in Hnd as [Hnotin Hnd].
    rewrite map_set_fresh by (apply Hfresh; apply elem_of_cons; by left).
    rewrite IH; [by rewrite <- app_assoc | done |].
    intros b Hb. rewrite map_get_app, Hfresh by (apply elem_of_cons; by right). simpl.
    destruct (String.eqb (f a) (f b)) eqn:E; [|done].
    apply String.eqb_eq in E. exfalso. apply Hnotin. rewrite E.
    by apply (list_elem_of_fmap_2 f).
Qed.

End JsMapMore.

End JsMore.

(** ** serversRegistry.ts: a registration that succeeds, and the accessors *)

Module RegistryMore.
Import Js JsFacts JsMore ServersRegistry Vocabulary.

Lemma totalToolCount_fold (m : JsMap ServerInfo.t) (n : nat) :
  fold_left (fun count entry => count + length (ServerInfo.tools (snd entry))) m n =
  n + fold_left (fun count entry => count + length (ServerInfo.tools (snd entry))) m 0.
Proof.
  revert n. induction m as [|e m IH]; intros n; simpl; [lia|].
  rewrite IH, (IH (length _)). lia.
Qed.

Lemma assignTitles_spec convertToolName (tools : list Tool.t) :
  length (assignTitles convertToolName tools) = length tools /\
  map Tool.name (assignTitles convertToolName tools) = map Tool.name tools /\
  map Tool.inputSchema (assignTitles convertToolName tools) = map Tool.inputSchema tools /\
  map Tool.title (assignTitles convertToolName tools) =
    map (fun tool => Some (convertToolName (Tool.name tool))) tools.
Proof.
  unfold assignTitles. rewrite length_map, !map_map. done.
Qed.

Section Registration.
Variable convertToolName : string -> string.
Variable mcpConnection : JsMap Client.t.

Local Abbreviation register := (registerServer convertToolName mcpConnection).

(** A registration that passes both guards and whose [listTools] answers
    returns normally and stores the server's info, with a title assigned to
    every tool, as the last entry of the map. The other servers' infos are
    untouched, their order is kept, the server count grows by one and the
    tool count by the number of tools listed. *)
Theorem registerServer_success_appends (this : t) (serverName : string)
    (client : Client.t) (tools : list Tool.t) :
  hasServer this serverName = false ->
  map_get mcpConnection serverName = Some client ->
  Client.listTools client = Return tools ->
  let after := snd (register serverName this) in
  fst (register serverName this) = Return tt /\
  getAllServers after =
    getAllServers this
    ++ [(serverName, ServerInfo.mk serverName client (assignTitles convertToolName tools))] /\
  getServerNames after = getServerNames this ++ [serverName] /\
  getServerCount after = S (getServerCount this) /\
  getTotalToolCount after = getTotalToolCount this + length tools /\
  hasServer after serverName = true /\
  getClient after serverName = Some client /\
  (forall k, k <> serverName -> getServer after k = getServer this k).
Proof.
  intros Hhas Hconn Hlist after. subst after.
  unfold hasServer in Hhas.
  assert (Hfresh : map_get (serversInfo this) serverName = None) by by apply map_has_false.
  unfold registerServer, registerServer_guards. rewrite Hhas, Hconn.
  unfold registerServer_resume. rewrite Hlist. simpl.
  unfold getAllServers, getServerNames, getServerCount, getTotalToolCount, hasServer,
    getClient, getServer, map_has, map_keys. simpl.
  rewrite map_set_fresh by done.
  split; [done|]. split; [done|]. split; [by rewrite map_app|].
  split; [rewrite length_app; simpl; lia|]. split.
  { rewrite fold_left_app. simpl. by rewrite (proj1 (assignTitles_spec _ _)). }
  rewrite !map_get_app, Hfresh. simpl. rewrite String.eqb_refl. split; [done|].
  split; [done|]. intros k Hk. rewrite map_get_app.
  destruct (map_get (serversInfo this) k); [done|]. simpl.
  apply String.eqb_neq in Hk. rewrite String.eqb_sym in Hk. by rewrite Hk.
Qed.

(** After such a registration every tool the server listed is found by
    [getTool] under its wire name: the tool returned carries that name, the
    title [convertToolName] gives it, and the schema of the first listed tool
    of that name. A wire name the server did not list gives [undefined]. *)
Theorem getTool_after_registerServer (this : t) (serverName : string)
    (client : Client.t) (tools : list Tool.t) (toolName : string) :
  hasServer this serverName = false ->
  map_get mcpConnection serverName = Some client ->
  Client.listTools client = Return tools ->
  getTool (snd (register serverName this)) serverName toolName =
  Return (flip Tool.set_title (convertToolName toolName)
            <$> find (fun tool => String.eqb (Tool.name tool) toolName) tools).
Proof.
  intros Hhas Hconn Hlist. unfold hasServer in Hhas.
  assert (Hfresh : map_get (serversInfo this) serverName = None) by by apply map_has_false.
  unfold registerServer, registerServer_guards. rewrite Hhas, Hconn.
  unfold registerServer_resume. rewrite Hlist. simpl.
  unfold getTool. simpl. rewrite map_get_set_eq. simpl. f_equal.
  unfold assignTitles. clear. induction tools as [|tool tools IH]; simpl; [done|].
  destruct (String.eqb (Tool.name tool) toolName) eqn:E; [|done]. simpl.
  apply String.eqb_eq in E. by rewrite E.
Qed.

(** A server that is registered cannot be registered again: the second call
    throws and changes nothing, not even the log. [clear] forgets every
    server, so that [getTool] throws for each name, and the same registration
    succeeds again. *)
Theorem registerServer_twice_and_clear (this : t) (serverName : string) :
  fst (register serverName this) = Return tt ->
  register serverName (snd (register serverName this)) =
    (Throws (newError ("Server '" +:+ serverName +:+ "' is already registered")),
     snd (register serverName this)) /\
  getServerCount (clear (snd (register serverName this))) = 0 /\
  getTotalToolCount (clear (snd (register serverName this))) = 0 /\
  (forall k toolName,
     getTool (clear (snd (register serverName this))) k toolName =
     Throws (newError ("Server '" +:+ k +:+ "' not found in registry"))) /\
  fst (register serverName (clear (snd (register serverName this)))) = Return tt /\
  getServerNames (snd (register serverName (clear (snd (register serverName this))))) =
    [serverName].
Proof.
  unfold registerServer at 1, registerServer_guards.
  destruct (map_has (serversInfo this) serverName) eqn:Hhas; [done|].
  destruct (map_get mcpConnection serverName) as [client|] eqn:Hconn; [|done].
  unfold registerServer_resume at 1.
  destruct (Client.listTools client) as [tools|error] eqn:Hlist;
    [|by destruct (errorMessage error)]. intros _.
  assert (Hafter : snd (register serverName this) =
                   console_error
                     {| serversInfo := map_set (serversInfo this) serverName
                          (ServerInfo.mk serverName client (assignTitles convertToolName tools));
                        log := log this |}
                     (LogText ("✓ Registered server '" +:+ serverName +:+ "' with "
                               +:+ string_of_nat (length (assignTitles convertToolName tools))
                               +:+ " tools"))).
  { unfold registerServer, registerServer_guards. rewrite Hhas, Hconn.
    unfold registerServer_resume. by rewrite Hlist. }
  rewrite Hafter. split.
  { unfold registerServer, registerServer_guards, map_has. simpl.
    by rewrite map_get_set_eq. }
  split; [done|]. split; [done|]. split; [done|].
  unfold registerServer, registerServer_guards, clear, map_has. simpl.
  rewrite Hconn. unfold registerServer_resume. rewrite Hlist. done.
Qed.

End Registration.

Lemma registerServer_success_appends_witness :
  fst (registerServer Fixtures.convertToolName Fixtures.connections "files"
         Fixtures.empty_registry) = Return tt /\
  getTotalToolCount
    (snd (registerServer Fixtures.convertToolName Fixtures.connections "weather"
            Fixtures.empty_registry)) = 2.
Proof.
  split.
  - apply (registerServer_success_appends Fixtures.convertToolName Fixtures.connections
             Fixtures.empty_registry "files" Fixtures.files_client [Fixtures.read_file]);
      reflexivity.
  - apply (registerServer_success_appends Fixtures.convertToolName Fixtures.connections
             Fixtures.empty_registry "weather" Fixtures.weather_client
             [Fixtures.get_forecast; Fixtures.get_alerts]); reflexivity.
Defined.

Lemma getTool_after_registerServer_witness :
  getTool
    (snd (registerServer Fixtures.convertToolName Fixtures.connections "files"
            Fixtures.empty_registry))
    "files" "read-file" = Return (Some (Tool.set_title Fixtures.read_file "read_file")).
Proof.
  apply (getTool_after_registerServer Fixtures.convertToolName Fixtures.connections
           Fixtures.empty_registry "files" Fixtures.files_client [Fixtures.read_file]
           "read-file"); reflexivity.
Defined.

Lemma registerServer_twice_and_clear_witness :
  fst (registerServer Fixtures.convertToolName Fixtures.connections "time"
         (snd (registerServer Fixtures.convertToolName Fixtures.connections "time"
                 Fixtures.empty_registry))) =
  Throws (newError "Server 'time' is already registered").
Proof.
  pose proof (registerServer_twice_and_clear Fixtures.convertToolName Fixtures.connections
                Fixtures.empty_registry "time" eq_refl) as [Htwice _].
  by rewrite Htwice.
Defined.

End RegistryMore.

(** ** Bulk registration and the start of the earlier server *)

Module StartupProofs.
Import Js JsFacts JsMore SortFacts ServersRegistry Vocabulary.

Section Startup.
Variable convertToolName : string -> string.
Variable mcpConnection : JsMap Client.t.

Local Abbreviation step := (resume_and_catch convertToolName).

Lemma step_serversInfo this serverName client :
  serversInfo (step this (serverName, client)) =
  match registered convertToolName serverName client with
  | Some serverInfo => map_set (serversInfo this) serverName serverInfo
  | None => serversInfo this
  end.
Proof.
  unfold resume_and_catch.
  by rewrite RegistryProofs.catch_failure_serversInfo, RegistryProofs.resume_serversInfo.
Qed.

Lemma answering_keys (l : JsMap Client.t) k :
  k ∈ map_keys (answering convertToolName l) -> k ∈ map_keys l.
Proof.
  unfold map_keys, answering. intros Hin.
  apply list_elem_of_fmap in Hin as ([k' si] & -> & Hin).
  apply list_elem_of_omap in Hin as ([n c] & Hin & Heq). simpl in *.
  destruct (registered convertToolName n c); [|done]. simpl in Heq. injection Heq as -> _.
  by apply (list_elem_of_fmap_2 fst) in Hin.
Qed.

Lemma answering_NoDup (l : JsMap Client.t) :
  NoDup (map_keys l) -> NoDup (map_keys (answering convertToolName l)).
Proof.
  induction l as [|[n c] l IH]; [done|].
  unfold map_keys. simpl. intros [Hnotin Hnd]%NoDup_cons.
  pose proof (answering_keys l n) as Hk. unfold answering, map_keys in *.
  destruct (registered convertToolName n c); simpl; [|by apply IH].
  apply NoDup_cons. split; [|by apply IH]. intros Hin. by apply Hnotin, Hk.
Qed.

(** Registrations of distinct unregistered names append, in the order they
    resume, the infos of those that answer. *)
Lemma fold_step_appends (l : JsMap Client.t) this :
  NoDup (map_keys l) ->
  (forall k, k ∈ map_keys l -> map_get (serversInfo this) k = None) ->
  serversInfo (fold_left step l this) = serversInfo this ++ answering convertToolName l.
Proof.
  revert this. induction l as [|[n c] l IH]; intros this Hnd Hfresh.
  - simpl. by rewrite app_nil_r.
  - unfold map_keys in Hnd, Hfresh. simpl in Hnd, Hfresh.
    apply NoDup_cons in Hnd as [Hnotin Hnd].
    change (fold_left step ((n, c) :: l) this) with (fold_left step l (step this (n, c))).
    rewrite IH; [|done|].
    + rewrite step_serversInfo. unfold answering. simpl.
      destruct (registered convertToolName n c) as [si|]; simpl; [|done].
      rewrite map_set_fresh by (apply Hfresh, elem_of_cons; by left).
      by rewrite <- app_assoc.
    + intros k Hk. rewrite step_serversInfo.
      assert (Hkn : n <> k) by (intros ->; by apply Hnotin).
      destruct (registered convertToolName n c) as [si|].
      * rewrite map_get_set_ne by done. apply Hfresh, elem_of_cons. by right.
      * apply Hfresh, elem_of_cons. by right.
Qed.

Lemma started_all_pending this (connections : JsMap Client.t) :
  (forall k c, (k, c) ∈ connections ->
     map_get mcpConnection k = Some c /\ map_has (serversInfo this) k = false) ->
  started mcpConnection this connections = ([], connections).
Proof.
  induction connections as [|[n c] l IH]; intros Hall; simpl; [done|].
  rewrite IH by (intros k c' Hin; apply Hall, elem_of_cons; by right).
  destruct (Hall n c) as [Hget Hhas]; [apply elem_of_cons; by left|].
  unfold registerServer_guards. by rewrite Hhas, Hget.
Qed.

(** [registerAllServers] over connections none of which is registered yet:
    the registry gains, after the entries it had, exactly the servers whose
    [listTools] answers, in the order in which the registrations resumed; so
    [getServerNames] lists them in that order and [getServerCount] grows by
    their number, whatever the order. *)
Theorem registerAllServers_appends_answering
    (schedule : list (string * Client.t) -> list (string * Client.t)) (this : t) :
  (forall l, schedule l ≡ₚ l) ->
  NoDup (map_keys mcpConnection) ->
  (forall k, k ∈ map_keys mcpConnection -> hasServer this k = false) ->
  let after := registerAllServers convertToolName mcpConnection schedule this in
  getAllServers after =
    getAllServers this ++ answering convertToolName (schedule mcpConnection) /\
  getServerNames after =
    getServerNames this ++ map_keys (answering convertToolName (schedule mcpConnection)) /\
  getServerCount after =
    getServerCount this + length (answering convertToolName mcpConnection).
Proof.
  intros Hperm Hnd Hfresh after. subst after.
  assert (Hall : serversInfo (registerAllServers convertToolName mcpConnection schedule this) =
                 serversInfo this ++ answering convertToolName (schedule mcpConnection)).
  { unfold registerAllServers. rewrite started_all_pending.
    2:{ intros k c Hin. split; [by apply map_get_elem_NoDup|].
        apply Hfresh. by apply (list_elem_of_fmap_2 fst) in Hin. }
    simpl. apply fold_step_appends.
    - unfold map_keys in *. by rewrite (Permutation_map fst (Hperm mcpConnection)).
    - intros k Hk. apply map_has_false, Hfresh.
      unfold map_keys in *. by rewrite (Permutation_map fst (Hperm mcpConnection)) in Hk. }
  unfold getAllServers, getServerNames, getServerCount, map_keys. rewrite Hall.
  split; [done|]. split; [by rewrite map_app|].
  rewrite length_app. f_equal. unfold answering. by rewrite (Hperm mcpConnection).
Qed.

(** [start] on a fresh server: afterwards the overview tool answers with the
    document of exactly the connected servers whose [listTools] answered,
    whatever the order in which they answered, and the sandbox holds the same
    servers as the registry, in the same order. *)
Theorem start_serves_the_answering_servers
    (schedule : list (string * Client.t) -> list (string * Client.t)) (this : McpOfMcps.t)
    (runCodeInSandbox : string -> Completion JsValue)
    (stringify_indented : JsValue -> Completion (option string)) (args : option JsObject) :
  (forall l, schedule l ≡ₚ l) ->
  NoDup (map_keys mcpConnection) ->
  serversInfo (McpOfMcps.serversRegistry this) = [] ->
  let after := McpOfMcps.start convertToolName mcpConnection schedule this in
  McpOfMcps.handleCallTool after runCodeInSandbox stringify_indented
    "get_mcps_servers_overview" args =
    Return (Response.textResponse
              (Some (MCPToolsParser.getServersOverview
                       (answering convertToolName mcpConnection)))) /\
  McpOfMcps.sandboxManager after = getAllServers (McpOfMcps.serversRegistry after) /\
  getAllServers (McpOfMcps.serversRegistry after) =
    answering convertToolName (schedule mcpConnection).
Proof.
  intros Hperm Hnd Hempty after. subst after.
  destruct (registerAllServers_appends_answering schedule (McpOfMcps.serversRegistry this)
              Hperm Hnd) as (Hall & _ & _).
  { intros k _. unfold hasServer, map_has. by rewrite Hempty. }
  unfold getAllServers in Hall. rewrite Hempty in Hall. simpl in Hall.
  unfold McpOfMcps.start, McpOfMcps.handleCallTool, McpOfMcps.toolsParser,
    McpOfMcps.callToolHandler, getAllServers. simpl. rewrite Hall.
  split; [|split; [|done]].
  - assert (Hlines : MCPToolsParser.collectLines
                       (answering convertToolName (schedule mcpConnection))
                     ≡ₚ MCPToolsParser.collectLines (answering convertToolName mcpConnection)).
    { apply ParserProofs.collectLines_Permutation. unfold answering.
      by rewrite (Hperm mcpConnection). }
    unfold MCPToolsParser.getServersOverview.
    by rewrite (sort_order_independent _ _ Hlines).
  - unfold SandboxManager.createSendBox.
    rewrite (fold_set_fresh fst snd); [| |done].
    + simpl. rewrite <- (map_id (answering _ _)) at 2. apply map_ext. by intros [].
    + apply answering_NoDup. unfold map_keys in *.
      by rewrite (Permutation_map fst (Hperm mcpConnection)).
Qed.

End Startup.

Lemma registerAllServers_appends_answering_witness :
  getServerNames Fixtures.registry = ["files"; "time"; "weather"] /\
  getServerCount Fixtures.registry = 3.
Proof.
  assert (Hperm : forall l : list (string * Client.t), rev l ≡ₚ l).
  { intros l. symmetry. apply Permutation_rev. }
  assert (Hnd : NoDup (map_keys Fixtures.connections)).
  { apply (bool_decide_unpack _). vm_compute. reflexivity. }
  destruct (registerAllServers_appends_answering Fixtures.convertToolName
              Fixtures.connections (@rev _) Fixtures.empty_registry Hperm Hnd)
    as (_ & Hnames & Hcount).
  { intros k _. reflexivity. }
  split; [exact Hnames | exact Hcount].
Defined.

Lemma start_serves_the_answering_servers_witness :
  McpOfMcps.handleCallTool
    (McpOfMcps.start Fixtures.convertToolName Fixtures.connections (@rev _)
       (McpOfMcps.mk Fixtures.empty_registry false []))
    (fun _ => Return None) Fixtures.stringify_indented
    "get_mcps_servers_overview" None =
  Return (Response.textResponse
            (Some (MCPToolsParser.getServersOverview
                     (answering Fixtures.convertToolName Fixtures.connections)))).
Proof.
  assert (Hperm : forall l : list (string * Client.t), rev l ≡ₚ l).
  { intros l. symmetry. apply Permutation_rev. }
  assert (Hnd : NoDup (map_keys Fixtures.connections)).
  { apply (bool_decide_unpack _). vm_compute. reflexivity. }
  apply (start_serves_the_answering_servers Fixtures.convertToolName Fixtures.connections
           (@rev _) (McpOfMcps.mk Fixtures.empty_registry false [])
           (fun _ => Return None) Fixtures.stringify_indented None
           Hperm Hnd eq_refl).
Defined.

End StartupProofs.

(** ** SandboxManagerImpl.ts: the cache, the generated tools and the drain *)

Module SandboxMore.
Import Js JsFacts JsMore ToolDatabase SandboxManagerImpl Vocabulary SandboxProofs.

(** *** What a generated tool does to the cache *)

(** A call that the downstream server answers appends one entry, the wire
    name with the raw response, at the end of the server's bucket when the
    cache has one, and is not recorded when it has none; no bucket is created
    or removed and the other buckets are untouched. Two calls in a row leave
    their entries in the order of the calls. This holds for names that stand
    for themselves in the text of the generated files. *)
Theorem generatedTool_appends_to_own_bucket
    (serverName : string) (tool tool' : Tool.t) (serversInfo : JsMap ServerInfo.t)
    (serverInfo : ServerInfo.t) (args args' : JsValue) (cache : Cache)
    (response response' : JsObject) :
  pasted_intact serverName tool = true ->
  pasted_intact serverName tool' = true ->
  map_get serversInfo serverName = Some serverInfo ->
  Client.callTool (ServerInfo.client serverInfo) (Tool.name tool) args = Return response ->
  Client.callTool (ServerInfo.client serverInfo) (Tool.name tool') args' = Return response' ->
  exists stub stub',
    generatedTool serverName tool = Some stub /\
    generatedTool serverName tool' = Some stub' /\
    let after := snd (stub serversInfo args cache) in
    let after' := snd (stub' serversInfo args' after) in
    map_get after serverName =
      (fun bucket => bucket ++ [mkEntry (Tool.name tool) (JObj response)])
        <$> map_get cache serverName /\
    map_get after' serverName =
      (fun bucket => bucket ++ [mkEntry (Tool.name tool) (JObj response);
                                mkEntry (Tool.name tool') (JObj response')])
        <$> map_get cache serverName /\
    (forall k, k <> serverName -> map_get after' k = map_get cache k) /\
    map_keys after' = map_keys cache.
Proof.
  intros Hintact Hintact' Hserver Hcall Hcall'.
  exists (exported serverName serverName (Tool.name tool)),
         (exported serverName serverName (Tool.name tool')).
  split; [by apply generatedTool_intact|]. split; [by apply generatedTool_intact|].
  intros after after'. subst after after'.
  unfold exported. rewrite Hserver, Hcall, Hcall'. simpl.
  destruct (map_get cache serverName) as [bucket|] eqn:Hbucket; simpl.
  - rewrite !map_get_set_eq. simpl. rewrite <- app_assoc. simpl.
    split; [done|]. split; [done|]. split.
    + intros k Hk. by rewrite !map_get_set_ne.
    + rewrite !map_keys_set_existing; [done| |].
      * unfold map_has. by rewrite Hbucket.
      * unfold map_has. by rewrite map_get_set_eq.
  - rewrite Hbucket. simpl. by rewrite Hbucket.
Qed.

(** A call that throws leaves the cache as it was, and what it throws is
    either the function's own error for a server the sandbox does not know,
    or the error of the downstream call, unchanged. *)
Theorem generatedTool_failure_leaves_cache
    (serverName : string) (tool : Tool.t) (serversInfo : JsMap ServerInfo.t)
    (args : JsValue) (cache : Cache) :
  pasted_intact serverName tool = true ->
  exists stub,
    generatedTool serverName tool = Some stub /\
    forall error,
      fst (stub serversInfo args cache) = Throws error ->
      snd (stub serversInfo args cache) = cache /\
      ((map_get serversInfo serverName = None /\
        error = newError ("Server " +:+ serverName +:+ " not exist")) \/
       (exists serverInfo,
          map_get serversInfo serverName = Some serverInfo /\
          Client.callTool (ServerInfo.client serverInfo) (Tool.name tool) args = Throws error)).
Proof.
  intros Hintact. exists (exported serverName serverName (Tool.name tool)).
  split; [by apply generatedTool_intact|]. intros error. unfold exported.
  destruct (map_get serversInfo serverName) as [serverInfo|]; simpl.
  - destruct (Client.callTool _ _ _) as [response|error'] eqn:Hcall; simpl; [done|].
    intros [= ->]. split; [done|]. right. by exists serverInfo.
  - intros [= <-]. split; [done|]. by left.
Qed.

(** *** [initialize] and the cache accessors *)

Lemma seeded_get (servers : JsMap ServerInfo.t) k :
  map_get (map (fun entry => (fst entry, @nil CacheEntry)) servers) k =
  (fun _ => []) <$> map_get servers k.
Proof.
  induction servers as [|[n si] servers IH]; simpl; [done|].
  by destruct (String.eqb n k).
Qed.

(** [initialize] makes the sandbox hold the given servers, in their order,
    and a cache of one empty bucket per server, in the same order, whatever
    either held before; the store is not touched. From then on the first
    answered call of a generated tool of any of these servers is recorded,
    when the names stand for themselves in the text of the tool's file. *)
Theorem initialize_copies_and_seeds {DB : Type}
    (servers : JsMap ServerInfo.t) (this : t DB) :
  NoDup (map_keys servers) ->
  let ready := initialize servers this in
  serversInfo ready = servers /\
  getAllOutputs ready = map (fun entry => (fst entry, [])) servers /\
  toolDatabase ready = toolDatabase this /\
  (forall serverName serverInfo tool args response,
     (serverName, serverInfo) ∈ servers ->
     pasted_intact serverName tool = true ->
     Client.callTool (ServerInfo.client serverInfo) (Tool.name tool) args = Return response ->
     exists stub,
       generatedTool serverName tool = Some stub /\
       map_get (snd (stub (serversInfo ready) args (getAllOutputs ready))) serverName =
         Some [mkEntry (Tool.name tool) (JObj response)]).
Proof.
  intros Hnd ready. subst ready.
  assert (Hcopy : serversInfo (clearAndSetServiceInfoCache servers this) = servers).
  { unfold clearAndSetServiceInfoCache. cbn [serversInfo].
    rewrite (fold_set_fresh fst snd); [| done | done].
    simpl. rewrite <- (map_id servers) at 2. apply map_ext. by intros []. }
  assert (Hinfo : serversInfo (initialize servers this) = servers).
  { unfold initialize, clearAndSetToolOutCache. cbn [serversInfo]. exact Hcopy. }
  assert (Hcache : getAllOutputs (initialize servers this) =
                   map (fun entry => (fst entry, [])) servers).
  { unfold getAllOutputs, initialize, clearAndSetToolOutCache. cbn [toolOutputCache].
    rewrite Hcopy. by rewrite (fold_set_fresh fst (fun _ => [])). }
  split; [done|]. split; [done|]. split; [done|].
  intros serverName serverInfo tool args response Hin Hintact Hcall.
  exists (exported serverName serverName (Tool.name tool)).
  split; [by apply generatedTool_intact|].
  rewrite Hinfo, Hcache. unfold exported.
  rewrite (map_get_elem_NoDup servers serverName serverInfo Hnd Hin), Hcall. simpl.
  rewrite seeded_get, (map_get_elem_NoDup servers serverName serverInfo Hnd Hin). simpl.
  by rewrite map_get_set_eq.
Qed.

(** [clearServerCache] empties the bucket of the server named and nothing
    else; for a server without a bucket it does nothing and creates none. *)
Theorem clearServerCache_empties_one_bucket {DB : Type} (serverName : string) (this : t DB) :
  getServerOutputs (clearServerCache serverName this) serverName =
    (fun _ => []) <$> getServerOutputs this serverName /\
  (forall k, k <> serverName ->
     getServerOutputs (clearServerCache serverName this) k = getServerOutputs this k) /\
  map_keys (getAllOutputs (clearServerCache serverName this)) = map_keys (getAllOutputs this) /\
  serversInfo (clearServerCache serverName this) = serversInfo this /\
  (getServerOutputs this serverName = None -> clearServerCache serverName this = this).
Proof.
  unfold getServerOutputs, getAllOutputs, clearServerCache.
  destruct (map_get (toolOutputCache this) serverName) as [bucket|] eqn:Hbucket; simpl.
  - rewrite map_get_set_eq. split; [done|]. split.
    + intros k Hk. by rewrite map_get_set_ne.
    + split; [|done]. apply map_keys_set_existing. unfold map_has. by rewrite Hbucket.
  - by rewrite Hbucket.
Qed.

(** *** What the drain leaves alone, and how store and memory move together *)

Lemma erase_assign_outputSchema toolName schema tools :
  map erase_outputSchema (assign_outputSchema toolName schema tools) =
  map erase_outputSchema tools.
Proof.
  induction tools as [|tool tools IH]; simpl; [done|].
  destruct (String.eqb (Tool.name tool) toolName); simpl; [done|]. by rewrite IH.
Qed.

Lemma erased_set (m : JsMap ServerInfo.t) k serverInfo serverInfo' :
  map_get m k = Some serverInfo ->
  erase_outputSchemas serverInfo' = erase_outputSchemas serverInfo ->
  erased (map_set m k serverInfo') = erased m.
Proof.
  unfold erased. induction m as [|[n x] m IH]; simpl; [done|].
  destruct (String.eqb n k) eqn:E; simpl.
  - intros [= ->] Heq. by rewrite Heq.
  - intros Hget Heq. by rewrite IH.
Qed.

Section Drain.
Context {DB : Type} `{IToolDatabase DB}.
Variable convertOutputToSchema : JSON -> Completion JsValue.
Variable vm_run : string -> JsMap ServerInfo.t -> Cache -> Completion ScriptValue * Cache.

Local Abbreviation process := (processEntry convertOutputToSchema).
Local Abbreviation drain := (updateOutputSchema convertOutputToSchema).

Lemma mirror_erased serverName toolName schema (this : t DB) :
  erased (serversInfo (mirror serverName toolName schema this)) = erased (serversInfo this) /\
  exists extra, log (mirror serverName toolName schema this) = log this ++ extra.
Proof.
  unfold mirror.
  destruct (map_get (serversInfo this) serverName) as [serverInfo|] eqn:Es;
    [|split; [done | exists []; by rewrite app_nil_r]].
  destruct (find _ (ServerInfo.tools serverInfo));
    [|split; [done | exists []; by rewrite app_nil_r]].
  simpl. split; [|by eexists].
  apply (erased_set _ _ serverInfo); [done|].
  unfold erase_outputSchemas. simpl. by rewrite erase_assign_outputSchema.
Qed.

Lemma processEntry_invariants serverName entry (this : t DB) :
  toolOutputCache (process serverName this entry) = toolOutputCache this /\
  erased (serversInfo (process serverName this entry)) = erased (serversInfo this) /\
  exists extra, log (process serverName this entry) = log this ++ extra.
Proof.
  assert (Hsame : toolOutputCache this = toolOutputCache this /\
                  erased (serversInfo this) = erased (serversInfo this) /\
                  exists extra, log this = log this ++ extra).
  { split; [done|]. split; [done|]. exists []. by rewrite app_nil_r. }
  assert (Hlogged : forall e,
            toolOutputCache (console_error this e) = toolOutputCache this /\
            erased (serversInfo (console_error this e)) = erased (serversInfo this) /\
            exists extra, log (console_error this e) = log this ++ extra).
  { intros e. split; [done|]. split; [done|]. by eexists. }
  unfold processEntry.
  destruct (convertOutputToSchema (output entry)) as [[schema|]|error]; try done.
  destruct (truthy (Some schema)); [|done].
  destruct (getTool (toolDatabase this) serverName (toolName entry)) as [[existingTool|]|error];
    try done.
  destruct (originalOutputSchema existingTool); simpl; [done|].
  destruct (updateTool (toolDatabase this) serverName (toolName entry) (stringify schema) false)
    as [[[]|error] db]; simpl.
  - rewrite SandboxProofs.mirror_toolOutputCache. simpl. split; [done|].
    apply (mirror_erased serverName (toolName entry) schema
             (mk (serversInfo this) (toolOutputCache this) db (log this))).
  - split; [done|]. split; [done|]. by eexists.
Qed.

(** The drain changes of the servers' infos nothing but output schemas: the
    servers, their order and clients, and every tool's name, title,
    description and input schema stay as they are. It leaves the cache as it
    found it and only adds to the log. The same holds for the servers' infos
    across a whole [execute], whether the run succeeds or fails. *)
Theorem drain_touches_only_outputSchema (this : t DB) :
  toolOutputCache (drain this) = toolOutputCache this /\
  erased (serversInfo (drain this)) = erased (serversInfo this) /\
  (exists extra, log (drain this) = log this ++ extra) /\
  (forall code,
     erased (serversInfo (snd (execute convertOutputToSchema vm_run code this))) =
     erased (serversInfo this)).
Proof.
  assert (Hdrain : forall st : t DB,
            toolOutputCache (drain st) = toolOutputCache st /\
            erased (serversInfo (drain st)) = erased (serversInfo st) /\
            exists extra, log (drain st) = log st ++ extra).
  { intros st. rewrite SandboxProofs.drain_captured.
    generalize (captured (toolOutputCache st)). intros entries. revert st.
    induction entries as [|[serverName entry] entries IH]; intros st; simpl.
    - split; [done|]. split; [done|]. exists []. by rewrite app_nil_r.
    - destruct (IH (process serverName st entry)) as (Hc & He & extra & Hl).
      destruct (processEntry_invariants serverName entry st) as (Hc' & He' & extra' & Hl').
      split; [by rewrite Hc|]. split; [by rewrite He|].
      exists (extra' ++ extra). by rewrite Hl, Hl', app_assoc. }
  destruct (Hdrain this) as (Hc & He & Hl). split; [done|]. split; [done|]. split; [done|].
  intros code. rewrite SandboxProofs.execute_settled.
  destruct (settled _) as [[v|error] cache]; simpl; [|done].
  by destruct (Hdrain (mk (serversInfo this) cache (toolDatabase this) (log this)))
    as (_ & He' & _).
Qed.

(** For one captured output whose schema is derived and whose row exists
    and is not an original, the store is asked exactly for the write of the
    schema's JSON text with the original flag off. When that write succeeds,
    the first tool of that wire name in memory gets the schema; when it
    throws, memory stays as it was and the failure is logged. *)
Theorem processEntry_writes_then_mirrors serverName entry (this : t DB)
    (schema : JSON) (existingTool : Row) :
  convertOutputToSchema (output entry) = Return (Some schema) ->
  truthy (Some schema) = true ->
  getTool (toolDatabase this) serverName (toolName entry) = Return (Some existingTool) ->
  originalOutputSchema existingTool = false ->
  let write := updateTool (toolDatabase this) serverName (toolName entry)
                 (stringify schema) false in
  toolDatabase (process serverName this entry) = snd write /\
  (fst write = Return tt ->
   inMemoryTool (serversInfo (process serverName this entry)) serverName (toolName entry) =
   flip Tool.set_outputSchema schema
     <$> inMemoryTool (serversInfo this) serverName (toolName entry)) /\
  (forall error,
     fst write = Throws error ->
     serversInfo (process serverName this entry) = serversInfo this /\
     log (process serverName this entry) =
       log this ++ [failed_to_save serverName (toolName entry) error]).
Proof.
  intros Hconvert Htruthy Hrow Hflag write. subst write.
  unfold processEntry. rewrite Hconvert, Htruthy, Hrow, Hflag. simpl.
  destruct (updateTool (toolDatabase this) serverName (toolName entry) (stringify schema) false)
    as [[[]|error] db]; simpl.
  - rewrite SandboxProofs.mirror_toolDatabase. simpl. split; [done|]. split; [|done].
    intros _. unfold mirror, inMemoryTool. simpl.
    destruct (map_get (serversInfo this) serverName) as [serverInfo|] eqn:Es; simpl;
      [|by rewrite Es].
    destruct (find _ (ServerInfo.tools serverInfo)) as [tool|] eqn:Ef; simpl.
    + rewrite map_get_set_eq. simpl. clear Es.
      induction (ServerInfo.tools serverInfo) as [|x tools IH]; simpl in *; [done|].
      destruct (String.eqb (Tool.name x) (toolName entry)) eqn:E; simpl.
      * rewrite E. by injection Ef as ->.
      * rewrite E. by apply IH.
    + by rewrite Es, Ef.
  - split; [done|]. split; [done|]. by intros error' [= <-].
Qed.

Lemma mirror_serversInfo serverName toolName schema (this : t DB) :
  serversInfo (mirror serverName toolName schema this) =
  match map_get (serversInfo this) serverName with
  | Some serverInfo =>
      match find (fun tool => String.eqb (Tool.name tool) toolName)
              (ServerInfo.tools serverInfo) with
      | Some _ =>
          map_set (serversInfo this) serverName
            (ServerInfo.mk (ServerInfo.name serverInfo) (ServerInfo.client serverInfo)
               (assign_outputSchema toolName schema (ServerInfo.tools serverInfo)))
      | None => serversInfo this
      end
  | None => serversInfo this
  end.
Proof.
  unfold mirror. destruct (map_get (serversInfo this) serverName) as [serverInfo|]; [|done].
  by destruct (find _ (ServerInfo.tools serverInfo)).
Qed.

(** What one captured output does to the store and to the servers' infos
    depends on nothing but the two. *)
Lemma processEntry_congruent serverName entry (st st' : t DB) :
  toolDatabase st = toolDatabase st' -> serversInfo st = serversInfo st' ->
  toolDatabase (process serverName st entry) = toolDatabase (process serverName st' entry) /\
  serversInfo (process serverName st entry) = serversInfo (process serverName st' entry).
Proof.
  intros Hdb Hinfo. unfold processEntry. rewrite <- Hdb.
  destruct (convertOutputToSchema (output entry)) as [[schema|]|error]; try done.
  destruct (truthy (Some schema)); [|done].
  destruct (getTool (toolDatabase st) serverName (toolName entry)) as [[existingTool|]|error];
    try done.
  destruct (originalOutputSchema existingTool); simpl; [done|].
  destruct (updateTool (toolDatabase st) serverName (toolName entry) (stringify schema) false)
    as [[[]|error] db]; simpl; [|done].
  rewrite !SandboxProofs.mirror_toolDatabase, !mirror_serversInfo. simpl.
  by rewrite Hinfo.
Qed.

Lemma processEntry_underivable serverName entry (st : t DB) :
  derivable convertOutputToSchema entry = false ->
  toolDatabase (process serverName st entry) = toolDatabase st /\
  serversInfo (process serverName st entry) = serversInfo st.
Proof.
  unfold derivable, processEntry.
  destruct (convertOutputToSchema (output entry)) as [[schema|]|error]; try done.
  by intros ->.
Qed.

Lemma captured_only_derivable (cache : Cache) :
  captured (only_derivable convertOutputToSchema cache) =
  List.filter (fun p => derivable convertOutputToSchema (snd p)) (captured cache).
Proof.
  unfold captured, only_derivable.
  induction cache as [|[serverName outputs] cache IH]; simpl; [done|].
  rewrite List.filter_app, IH. f_equal.
  induction outputs as [|entry outputs IHo]; simpl; [done|].
  destruct (derivable convertOutputToSchema entry); simpl; by rewrite IHo.
Qed.

(** The captured outputs from which no schema is derived, because the
    conversion throws or gives nothing, change neither the store nor the
    servers' infos and do not keep the drain from processing the others: the
    drain ends with the same store and the same infos as on the cache without
    them. *)
Theorem drain_ignores_underivable_outputs (this : t DB) :
  toolDatabase (drain this) =
  toolDatabase
    (drain (mk (serversInfo this)
              (only_derivable convertOutputToSchema (toolOutputCache this))
              (toolDatabase this) (log this))) /\
  serversInfo (drain this) =
  serversInfo
    (drain (mk (serversInfo this)
              (only_derivable convertOutputToSchema (toolOutputCache this))
              (toolDatabase this) (log this))).
Proof.
  rewrite !SandboxProofs.drain_captured. cbn [toolOutputCache].
  rewrite captured_only_derivable.
  generalize (captured (toolOutputCache this)). intros entries.
  assert (Hgen : forall st st' : t DB,
            toolDatabase st = toolDatabase st' -> serversInfo st = serversInfo st' ->
            toolDatabase (fold_left (fun st p => process (fst p) st (snd p)) entries st) =
            toolDatabase
              (fold_left (fun st p => process (fst p) st (snd p))
                 (List.filter (fun p => derivable convertOutputToSchema (snd p)) entries) st') /\
            serversInfo (fold_left (fun st p => process (fst p) st (snd p)) entries st) =
            serversInfo
              (fold_left (fun st p => process (fst p) st (snd p))
                 (List.filter (fun p => derivable convertOutputToSchema (snd p)) entries) st')).
  { induction entries as [|[serverName entry] entries IH]; intros st st' Hdb Hinfo; [done|].
    simpl. destruct (derivable convertOutputToSchema entry) eqn:Hd; simpl.
    - destruct (processEntry_congruent serverName entry st st' Hdb Hinfo) as [Hdb' Hinfo'].
      by apply IH.
    - destruct (processEntry_underivable serverName entry st Hd) as [Hdb' Hinfo'].
      apply IH; congruence. }
  by apply Hgen.
Qed.

End Drain.

Lemma generatedTool_appends_to_own_bucket_witness :
  map_get
    (snd (Fixtures.call_get_forecast Fixtures.servers None
            (snd (Fixtures.call_get_forecast Fixtures.servers None
                    (toolOutputCache Fixtures.sandbox)))))
    "weather" =
  Some [mkEntry "get_forecast" (JObj Fixtures.sunny);
        mkEntry "get_forecast" (JObj Fixtures.sunny)].
Proof.
  destruct (generatedTool_appends_to_own_bucket "weather"
              (Tool.set_title Fixtures.get_forecast "get_forecast")
              (Tool.set_title Fixtures.get_forecast "get_forecast") Fixtures.servers
              (ServerInfo.mk "weather" Fixtures.weather_client
                 [Tool.set_title Fixtures.get_forecast "get_forecast";
                  Tool.set_title Fixtures.get_alerts "get_alerts"])
              None None (toolOutputCache Fixtures.sandbox) Fixtures.sunny Fixtures.sunny
              eq_refl eq_refl eq_refl eq_refl eq_refl)
    as (stub & stub' & Hstub & Hstub' & _ & Htwice & _).
  unfold Fixtures.call_get_forecast, Fixtures.load. rewrite Hstub.
  injection Hstub as <-. injection Hstub' as <-. exact Htwice.
Defined.

Lemma generatedTool_failure_leaves_cache_witness :
  fst (Fixtures.call_get_forecast [] None (toolOutputCache Fixtures.sandbox)) =
    Throws (newError "Server weather not exist") /\
  snd (Fixtures.call_get_forecast [] None (toolOutputCache Fixtures.sandbox)) =
    toolOutputCache Fixtures.sandbox.
Proof.
  destruct (generatedTool_failure_leaves_cache "weather"
              (Tool.set_title Fixtures.get_forecast "get_forecast") [] None
              (toolOutputCache Fixtures.sandbox) eq_refl)
    as (stub & Hstub & Hfails).
  unfold Fixtures.call_get_forecast, Fixtures.load. rewrite Hstub.
  assert (Hthrows : fst (stub [] None (toolOutputCache Fixtures.sandbox)) =
                    Throws (newError "Server weather not exist")).
  { injection Hstub as <-. reflexivity. }
  split; [exact Hthrows|]. exact (proj1 (Hfails _ Hthrows)).
Defined.

Lemma initialize_copies_and_seeds_witness :
  serversInfo Fixtures.sandbox = Fixtures.servers /\
  getAllOutputs Fixtures.sandbox = [("files", []); ("time", []); ("weather", [])].
Proof.
  assert (Hnd : NoDup (map_keys Fixtures.servers)).
  { apply (bool_decide_unpack _). vm_compute. reflexivity. }
  destruct (initialize_copies_and_seeds Fixtures.servers
              (mk [] [] Fixtures.database []) Hnd) as (Hinfo & Hcache & _).
  split; [exact Hinfo | exact Hcache].
Defined.

Lemma clearServerCache_empties_one_bucket_witness :
  clearServerCache "offline" Fixtures.sandbox = Fixtures.sandbox.
Proof.
  apply (proj2 (proj2 (proj2 (proj2
           (clearServerCache_empties_one_bucket "offline" Fixtures.sandbox))))).
  reflexivity.
Defined.

Lemma processEntry_writes_then_mirrors_witness :
  rows (toolDatabase
          (processEntry Fixtures.convertOutputToSchema "time" Fixtures.sandbox
             (mkEntry "now" (JObj []))))
    !! ("time", "now") = Some (mkRow (Some (stringify Fixtures.object_schema)) false 1).
Proof.
  assert (Hrow : getTool (toolDatabase Fixtures.sandbox) "time" "now" =
                 Return (Some Fixtures.empty_row)) by (vm_compute; reflexivity).
  destruct (processEntry_writes_then_mirrors Fixtures.convertOutputToSchema "time"
              (mkEntry "now" (JObj [])) Fixtures.sandbox Fixtures.object_schema
              Fixtures.empty_row eq_refl eq_refl Hrow eq_refl) as (Hdb & _).
  rewrite Hdb. vm_compute. reflexivity.
Defined.

End SandboxMore.

(** ** mcpToolsParser.ts: from the overview to the tool details *)

Module ParserMore.
Import Js JsFacts JsMore SortFacts MCPToolsParser Vocabulary.

Lemma toolLine_split serverName tool title :
  Tool.title tool = Some title ->
  contains "/" serverName = false -> contains "/" title = false ->
  split "/" (toolLine serverName tool) = [serverName; title].
Proof.
  intros Ht Hs Htitle. unfold toolLine. rewrite Ht. simpl.
  change (serverName +:+ "/" +:+ title) with (serverName +:+ String "/" title).
  rewrite split_app by done. by rewrite split_without.
Qed.

Lemma toolLine_count serverName tool title :
  Tool.title tool = Some title ->
  count "/" (toolLine serverName tool) = count "/" serverName + S (count "/" title).
Proof.
  intros Ht. unfold toolLine. rewrite Ht. simpl.
  change (serverName +:+ "/" +:+ title) with (serverName +:+ String "/" title).
  by rewrite count_app.
Qed.

(** When neither the server's name nor the tool's title holds a slash, the
    line [getServersOverview] prints for the tool is a path [getToolsOverview]
    accepts: it returns one element, built from the first tool of the server
    with that title and carrying that tool's wire name, and logs nothing.
    When the titles of the server are distinct this is the tool itself. *)
Theorem overview_line_resolves_to_its_tool
    (serversInfo : JsMap ServerInfo.t) (serverName : string) (serverInfo : ServerInfo.t)
    (tool : Tool.t) (title : string) :
  map_get serversInfo serverName = Some serverInfo ->
  tool ∈ ServerInfo.tools serverInfo ->
  Tool.title tool = Some title ->
  contains "/" serverName = false ->
  contains "/" title = false ->
  toolLine serverName tool ∈ sort (collectLines serversInfo) /\
  exists tool',
    find (title_is title) (ServerInfo.tools serverInfo) = Some tool' /\
    Tool.title tool' = Some title /\
    getToolsOverview_tools serversInfo [toolLine serverName tool] =
      (Return [withExampleUsage serverName tool'], []) /\
    json_prop (withExampleUsage serverName tool') "name" = Some (JStr (Tool.name tool')) /\
    json_prop (withExampleUsage serverName tool') "exampleUsage" =
      Some (JStr (exampleUsage serverName title)) /\
    ((forall other, other ∈ ServerInfo.tools serverInfo ->
        Tool.title other = Some title -> other = tool) -> tool' = tool).
Proof.
  intros Hserver Hin Htitle Hs Ht. split.
  - rewrite sort_Permutation. apply ParserProofs.collectLines_elem.
    exists (serverName, serverInfo). split; [by apply map_get_Some_elem|].
    apply ParserProofs.serverLines_elem. right. by exists tool.
  - destruct (find (title_is title) (ServerInfo.tools serverInfo)) as [tool'|] eqn:Hfind.
    + apply find_some in Hfind as Hfound. destruct Hfound as [Hin' Htitle'].
      unfold title_is in Htitle'. destruct (Tool.title tool') as [title'|] eqn:Et; [|done].
      apply String.eqb_eq in Htitle'. subst title'.
      exists tool'. split; [done|]. split; [done|]. split.
      { unfold getToolsOverview_tools. cbn [getToolsOverview_loop].
        rewrite (toolLine_split serverName tool title) by done.
        cbv beta iota. by rewrite Hserver, Hfind. }
      split; [done|]. split.
      { unfold withExampleUsage, json_prop. by rewrite map_get_set_eq, Et. }
      intros Hunique. apply Hunique; [by apply list_elem_of_In | done].
    + apply list_elem_of_In in Hin. pose proof (find_none _ _ Hfind tool Hin) as Hn.
      unfold title_is in Hn. rewrite Htitle in Hn. by rewrite String.eqb_refl in Hn.
Qed.

(** When the server's name or the tool's title holds a slash, the line
    printed for the tool splits into more than two parts, and every call of
    [getToolsOverview] that reaches it throws the malformed-path error. *)
Theorem overview_line_with_slash_is_rejected
    (serversInfo : JsMap ServerInfo.t) (serverName : string) (tool : Tool.t)
    (title : string) (pre post : list string) :
  Tool.title tool = Some title ->
  contains "/" serverName || contains "/" title = true ->
  Forall (fun p => resolvable serversInfo p = true) pre ->
  2 < length (split "/" (toolLine serverName tool)) /\
  fst (getToolsOverview serversInfo (pre ++ toolLine serverName tool :: post)) =
    Throws (newError ("Error: Invalid tool path format '" +:+ toolLine serverName tool
                      +:+ "'. Expected 'serverName/toolName'")).
Proof.
  intros Htitle Hslash Hpre.
  assert (Hlen : 2 < length (split "/" (toolLine serverName tool))).
  { rewrite split_length, (toolLine_count serverName tool title) by done.
    apply orb_true_iff in Hslash as [Hc|Hc]; apply count_contains in Hc; lia. }
  split; [done|].
  unfold getToolsOverview, getToolsOverview_tools.
  rewrite ParserProofs.loop_resolvable_prefix by done. simpl.
  destruct (split "/" (toolLine serverName tool)) as [|a [|b [|c l]]]; simpl in *;
    try done; lia.
Qed.

Lemma overview_line_resolves_to_its_tool_witness :
  getToolsOverview_tools Fixtures.servers
    [toolLine "files" (Tool.set_title Fixtures.read_file "read_file")] =
  (Return [withExampleUsage "files" (Tool.set_title Fixtures.read_file "read_file")], []).
Proof.
  assert (Hin : Tool.set_title Fixtures.read_file "read_file"
                ∈ [Tool.set_title Fixtures.read_file "read_file"]).
  { apply elem_of_cons. by left. }
  destruct (overview_line_resolves_to_its_tool Fixtures.servers "files"
              (ServerInfo.mk "files" Fixtures.files_client
                 [Tool.set_title Fixtures.read_file "read_file"])
              (Tool.set_title Fixtures.read_file "read_file") "read_file"
              eq_refl Hin eq_refl eq_refl eq_refl)
    as (_ & tool' & Hfind & _ & Hresult & _).
  injection Hfind as <-. exact Hresult.
Defined.

Lemma overview_line_with_slash_is_rejected_witness :
  fst (getToolsOverview Fixtures.servers
         [toolLine "files" (Tool.set_title Fixtures.read_file "read/file")]) =
  Throws (newError "Error: Invalid tool path format 'files/read/file'. Expected 'serverName/toolName'").
Proof.
  apply (proj2 (overview_line_with_slash_is_rejected Fixtures.servers "files"
                  (Tool.set_title Fixtures.read_file "read/file") "read/file" [] []
                  eq_refl eq_refl (List.Forall_nil _))).
Defined.

End ParserMore.

(** ** mcpOfMcps.ts: what the earlier dispatcher answers *)

Module DispatcherMore.
Import Js Response McpOfMcps.

(** On an array of strings the loop is the one of [getToolsOverview]. *)
Lemma getToolsOverview_array_strings (serversInfo : JsMap ServerInfo.t)
    (toolPaths : list string) :
  MCPToolsParser.getToolsOverview_array serversInfo (map JStr toolPaths) =
  MCPToolsParser.getToolsOverview serversInfo toolPaths.
Proof.
  unfold MCPToolsParser.getToolsOverview_array.
  assert (MCPToolsParser.leading_strings (map JStr toolPaths) = (toolPaths, None)) as ->; [|done].
  induction toolPaths as [|toolPath toolPaths IH]; simpl; [done|]. by rewrite IH.
Qed.

(** A name that is none of the three meta-tools is answered with the text
    saying the tool was not found, whatever the arguments and whether or not
    the server has started. The handler throws in these cases and no other:
    a [get_tools_overview] call, after the start, without arguments or with an
    array on which [getToolsOverview] throws; and a [run_functions_code] call
    without arguments, or whose run throws a value that is no [Error] and does
    not convert to a text. Before the start both overview tools answer that
    the parser is not initialized, also without arguments. *)
Theorem callToolHandler_unknown_names_and_throws
    (toolsParser : option (JsMap ServerInfo.t))
    (runCodeInSandbox : string -> Completion JsValue)
    (stringify_indented : JsValue -> Completion (option string))
    (name : string) (args : option JsObject) :
  (name <> "get_mcps_servers_overview" -> name <> "get_tools_overview" ->
   name <> "run_functions_code" ->
   callToolHandler toolsParser runCodeInSandbox stringify_indented name args =
   Return (textResponse (Some ("Tool '" +:+ name +:+ "' not found")))) /\
  (is_Throws (callToolHandler toolsParser runCodeInSandbox stringify_indented name args) = true
   <->
   (name = "get_tools_overview" /\
    exists serversInfo,
      toolsParser = Some serversInfo /\
      (args = None \/
       exists fields items,
         args = Some fields /\ get_prop fields "toolPaths" = Some (JArr items) /\
         is_Throws (fst (MCPToolsParser.getToolsOverview_array serversInfo items)) = true)) \/
   (name = "run_functions_code" /\
    (args = None \/
     exists fields code error,
       args = Some fields /\ get_prop fields "code" = Some (JStr code) /\
       runCode runCodeInSandbox stringify_indented code = Throws error /\
       is_Throws (ServersRegistry.errorMessage error) = true))) /\
  (toolsParser = None ->
   name = "get_mcps_servers_overview" \/ name = "get_tools_overview" ->
   callToolHandler toolsParser runCodeInSandbox stringify_indented name args =
   Return not_initialized).
Proof.
  unfold callToolHandler. split; [|split].
  - intros H1 H2 H3. apply String.eqb_neq in H1, H2, H3.
    rewrite String.eqb_sym in H1. rewrite String.eqb_sym in H2. rewrite String.eqb_sym in H3.
    rewrite String.eqb_sym, H1. rewrite String.eqb_sym, H2. rewrite String.eqb_sym, H3. done.
  - destruct (String.eqb name "get_mcps_servers_overview") eqn:E1.
    { apply String.eqb_eq in E1. subst name. split.
      - by destruct toolsParser.
      - by intros [[? _]|[? _]]. }
    destruct (String.eqb name "get_tools_overview") eqn:E2.
    { apply String.eqb_eq in E2. subst name. split.
      - intros Hthrows. left. split; [done|].
        destruct toolsParser as [serversInfo|]; [|done].
        exists serversInfo. split; [done|].
        destruct args as [fields|]; [right | by left]. simpl in Hthrows.
        destruct (get_prop fields "toolPaths") as [[| | | |items|]|] eqn:Hpaths; try done.
        exists fields, items. split; [done|]. split; [done|].
        by destruct (fst (MCPToolsParser.getToolsOverview_array serversInfo items)).
      - intros [(_ & serversInfo & -> & Hcase)|[? _]]; [|done].
        destruct Hcase as [->|(fields & items & -> & Hpaths & Hthrows)]; [done|].
        simpl. rewrite Hpaths.
        by destruct (fst (MCPToolsParser.getToolsOverview_array serversInfo items)). }
    apply String.eqb_neq in E2.
    destruct (String.eqb name "run_functions_code") eqn:E3.
    { apply String.eqb_eq in E3. subst name. split.
      - intros Hthrows. right. split; [done|].
        destruct args as [fields|]; [right | by left]. simpl in Hthrows.
        destruct (get_prop fields "code") as [[| | |code| |]|] eqn:Hcode; try done.
        destruct (runCode runCodeInSandbox stringify_indented code) as [response|error] eqn:Hrun;
          simpl in Hthrows; [done|].
        exists fields, code, error. split; [done|]. split; [done|]. split; [done|].
        by destruct (ServersRegistry.errorMessage error).
      - intros [[? _]|[_ Hcase]]; [done|].
        destruct Hcase as [->|(fields & code & error & -> & Hcode & Hrun & Hthrows)]; [done|].
        simpl. rewrite Hcode, Hrun. simpl.
        by destruct (ServersRegistry.errorMessage error). }
    apply String.eqb_neq in E3.
    split; [done | by intros [[? _]|[? _]]].
  - intros -> [-> | ->]; done.
Qed.

Lemma callToolHandler_unknown_names_and_throws_witness :
  callToolHandler None (fun _ => Return None) Fixtures.stringify_indented
    "semantic_search_tools" None =
  Return (textResponse (Some "Tool 'semantic_search_tools' not found")).
Proof.
  apply (proj1 (callToolHandler_unknown_names_and_throws None (fun _ => Return None)
                  Fixtures.stringify_indented "semantic_search_tools" None));
    discriminate.
Defined.

End DispatcherMore.
